(** * Visual Product Matcher: the React front end, embedded and verified

    The repository's TypeScript sources are embedded function by function:

    - [JsNumber]: the JavaScript Number type (IEEE 754 binary64) on top of the
      Standard Library's [SpecFloat], with [ToBoolean], the relational
      operators and [Math.round];
    - [JsString]: the string methods the components call;
    - [Api]: the API client ([searchSimilarProducts], [getImageUrl]);
    - [MockProducts]: the mock catalog and [generateMockSearchResults];
    - [ProductCard], [ImageUploader], [ProductMatcher]: the components'
      handlers as state-passing functions that also return the effects they
      perform (toasts, callbacks, API calls);
    - [App]: the two stateful components wired together as a transition system;
    - [FilterPanel]: what the filter panel derives from its props;
    - [ApiRequests]: the JSON requests of the API client ([request],
      [getProducts], [getCategories], [healthCheck]) and [loadCategories];
    - [MatcherView]: the conditions under which [ProductMatcher] renders its
      sections.

    Definitions come first; the properties of the search pipeline follow in
    Part II, and further properties of the components in Part III. *)

From Stdlib Require Import ZArith NArith List String Ascii Bool Lia.
From Stdlib Require Import Sorted Permutation DecimalString SpecFloat.
Import ListNotations.

Local Open Scope Z_scope.

(* ===================================================================== *)
(** * Part I: the embedding                                               *)
(* ===================================================================== *)

(** ** JavaScript numbers

    A Number is an IEEE 754 double.  [spec_float] with precision 53 and
    maximal exponent 1024 is that format; addition, subtraction,
    multiplication and division are the correctly rounded operations of
    [SpecFloat]. *)
Module JsNumber.

Definition prec : Z := 53.
Definition emax : Z := 1024.
Definition number : Type := spec_float.

(** Integer literals such as [11] or [100]. *)
Definition of_Z (z : Z) : number := binary_normalize prec emax z 0 false.

(** The double nearest to the quotient [n/d] of two integers below [2 ^ 53];
    a decimal literal such as [0.4] is [decimal 4 10]. *)
Definition decimal (n d : Z) : number := SFdiv prec emax (of_Z n) (of_Z d).

Definition zero : number := S754_zero false.

Definition num_add : number -> number -> number := SFadd prec emax.
Definition num_sub : number -> number -> number := SFsub prec emax.
Definition num_mul : number -> number -> number := SFmul prec emax.

(** [ToBoolean]: [+0], [-0] and [NaN] are falsy. *)
Definition truthy (x : number) : bool :=
  match x with
  | S754_zero _ | S754_nan => false
  | _ => true
  end.

Definition is_nan (x : number) : bool :=
  match x with S754_nan => true | _ => false end.

Definition finite_like (x : number) : bool :=
  match x with S754_zero _ | S754_finite _ _ _ => true | _ => false end.

(** Signed mantissa and exponent: a finite [x] is worth [mant x * 2 ^ expo x]. *)
Definition mant (x : number) : Z :=
  match x with
  | S754_finite s m _ => cond_Zopp s (Zpos m)
  | _ => 0
  end.

Definition expo (x : number) : Z :=
  match x with
  | S754_finite _ _ e => e
  | _ => 0
  end.

(** The integer [x / 2 ^ e], for [e <= expo x]. *)
Definition scaled (x : number) (e : Z) : Z := mant x * 2 ^ (expo x - e).

(** The IEEE comparison: by exact value, unordered when an operand is NaN.
    ([SFcompare] orders finite operands by exponent first, which is the same
    order on normalised doubles only; this one needs no such condition.) *)
Definition num_compare (x y : number) : option comparison :=
  match x, y with
  | S754_nan, _ | _, S754_nan => None
  | S754_infinity sx, S754_infinity sy =>
      Some (match sx, sy with
            | true, false => Lt
            | false, true => Gt
            | _, _ => Eq
            end)
  | S754_infinity s, _ => Some (if s then Lt else Gt)
  | _, S754_infinity s => Some (if s then Gt else Lt)
  | _, _ =>
      let e := Z.min (expo x) (expo y) in
      Some (scaled x e ?= scaled y e)
  end.

(** [x < y], [x <= y], [x > y], [x >= y], [x == y]. *)
Definition num_ltb (x y : number) : bool :=
  match num_compare x y with Some Lt => true | _ => false end.
Definition num_leb (x y : number) : bool :=
  match num_compare x y with Some (Lt | Eq) => true | _ => false end.
Definition num_gtb (x y : number) : bool := num_ltb y x.
Definition num_geb (x y : number) : bool := num_leb y x.
Definition num_eqb (x y : number) : bool :=
  match num_compare x y with Some Eq => true | _ => false end.

(** How [Array.prototype.sort] reads a comparator's result: positive,
    negative, or neither (zero, and NaN which it replaces by [+0]). *)
Definition sign_of (v : number) : comparison :=
  if num_gtb v zero then Gt else if num_ltb v zero then Lt else Eq.

(** Every double has an exponent of at least [emin = -1074]. *)
Definition emin_ok (x : number) : Prop :=
  match x with
  | S754_finite _ _ e => emin prec emax <= e
  | _ => True
  end.

(** [floor (x + 1/2)] for a finite [x = sm * 2 ^ e] with [e < 0]. *)
Definition round_half_up (sm e : Z) : Z := (2 * sm + 2 ^ (- e)) / (2 * 2 ^ (- e)).

(** [Math.round]: the integral Number closest to [x], ties towards
    [+Infinity]; integral values, infinities and NaN are returned as they
    are, and a result of zero keeps the sign of [x]. *)
Definition Math_round (x : number) : number :=
  match x with
  | S754_finite s m e =>
      if 0 <=? e then x
      else
        let n := round_half_up (cond_Zopp s (Zpos m)) e in
        if n =? 0 then S754_zero s else of_Z n
  | _ => x
  end.

(** [a || b] on an optional Number ([undefined] is [None]). *)
Definition or_else (a b : option number) : option number :=
  match a with
  | Some x => if truthy x then a else b
  | None => b
  end.

(** [a || 0]. *)
Definition or_zero (a : option number) : number :=
  match a with
  | Some x => if truthy x then x else zero
  | None => zero
  end.

(** [Math.random()] draws from the engine's generator; the generator is the
    sequence of its future draws and a cursor into it. *)
Record Rng : Type := { draws : nat -> number; cursor : nat }.

Definition Math_random (g : Rng) : number * Rng :=
  (draws g (cursor g), {| draws := draws g; cursor := S (cursor g) |}).

(** What ECMAScript promises of [Math.random]: each draw is at least 0 and
    less than 1. *)
Definition unit_interval (g : Rng) : Prop :=
  forall i, num_leb zero (draws g i) = true /\ num_ltb (draws g i) (of_Z 1) = true.

End JsNumber.

(** ** JavaScript strings

    Strings are modelled as [string], one character per code unit.  A
    character of [string] is eight bits wide, so the strings covered are those
    whose code units lie below 256 (U+0000 to U+00FF); the literals of the
    program are ASCII. *)
Module JsString.

(** [s.startsWith(p)]. *)
Definition startsWith (s p : string) : bool := String.prefix p s.

(** [ToBoolean] on strings: only the empty string is falsy. *)
Definition truthy (s : string) : bool :=
  match s with EmptyString => false | _ => true end.

(** What [trim] strips, [WhiteSpace] and [LineTerminator], among the code
    units below 256: TAB, LF, VT, FF, CR, SPACE and NO-BREAK SPACE (U+00A0).
    (NEXT LINE, U+0085, is in neither class.) *)
Definition is_space (c : ascii) : bool :=
  let n := nat_of_ascii c in
  ((9 <=? n) && (n <=? 13) || (n =? 32) || (n =? 160))%nat.

Fixpoint trimStart (s : string) : string :=
  match s with
  | EmptyString => EmptyString
  | String c r => if is_space c then trimStart r else s
  end.

Fixpoint trimEnd (s : string) : string :=
  match s with
  | EmptyString => EmptyString
  | String c r =>
      match trimEnd r with
      | EmptyString => if is_space c then EmptyString else String c EmptyString
      | r' => String c r'
      end
  end.

(** [s.trim()]. *)
Definition trim (s : string) : string := trimEnd (trimStart s).

(** [arr.includes(s)] on an array of strings. *)
Definition includes (arr : list string) (s : string) : bool :=
  existsb (String.eqb s) arr.

(** [n.toString()] for a non-negative integer such as an array length. *)
Definition nat_toString (n : nat) : string :=
  NilZero.string_of_uint (Nat.to_uint n).

End JsString.

(** ** The data model shared by the components *)
Module Model.
Import JsNumber.

(** A [File] as the components read it: its MIME type and size in bytes. *)
Record File : Type := {
  file_name : string;
  file_type : string;
  file_size : N
}.

(** [Product] of [lib/api]; the [Product] of [data/mockProducts] is the same
    record without [similarity_percentage]. *)
Record Product : Type := {
  id : string;
  name : string;
  category : string;
  price : number;
  currency : string;
  image_path : string;
  description : string;
  brand : string;
  available : bool;
  similarity : option number;
  similarity_percentage : option number
}.

Definition with_similarity (p : Product) (s : option number) : Product :=
  {| id := id p; name := name p; category := category p; price := price p;
     currency := currency p; image_path := image_path p;
     description := description p; brand := brand p; available := available p;
     similarity := s; similarity_percentage := similarity_percentage p |}.

Definition with_image_path (p : Product) (path : string) : Product :=
  {| id := id p; name := name p; category := category p; price := price p;
     currency := currency p; image_path := path;
     description := description p; brand := brand p; available := available p;
     similarity := similarity p;
     similarity_percentage := similarity_percentage p |}.

Record SearchResponse : Type := {
  query_id : string;
  results : list Product;
  total_results : nat;
  timestamp : string
}.

(** The argument of [onImageUpload]: [File | string]. *)
Inductive UploadedImage : Type :=
| ImageFile (file : File)
| ImageUrl (url : string).

Inductive ToastVariant : Type := VariantDefault | VariantDestructive.

Record Toast : Type := {
  title : string;
  toast_description : string;
  variant : option ToastVariant
}.

(** [URL.createObjectURL]: the browser picks the identifier. *)
Definition createObjectURL (uuid : string) : string := String.append "blob:" uuid.

End Model.

(** ** [Array.prototype] methods *)
Module JsArray.
Import JsNumber.

Section Sort.
Context {A : Type}.
Variable comparefn : A -> A -> number.

(** [x] is placed in front of a sorted array: it moves behind [y] only when
    [comparefn x y > 0], so elements that compare equal keep their order. *)
Fixpoint insert (x : A) (l : list A) : list A :=
  match l with
  | [] => [x]
  | y :: l' =>
      if num_gtb (comparefn x y) zero then y :: insert x l' else x :: l
  end.

(** [arr.sort(comparefn)].  ECMAScript requires the sort to be stable and, for
    a consistent comparator, to return the elements in the comparator's
    order; every such sort returns the array computed here. *)
Definition sort (l : list A) : list A := fold_right insert [] l.

End Sort.

(** [a] may stand in front of [b] in an array ordered descending by [key]. *)
Definition key_desc {A : Type} (key : A -> number) (a b : A) : Prop :=
  num_geb (key a) (key b) = true.

(** [key a == v]. *)
Definition key_is {A : Type} (key : A -> number) (v : number) (a : A) : bool :=
  num_eqb (key a) v.

(** [arr.map(f)] when [f] reads the random generator: elements are visited
    from left to right, each call continuing with the generator the previous
    one left. *)
Fixpoint map_random {A B : Type} (f : A -> Rng -> B * Rng) (l : list A) (g : Rng)
  : list B * Rng :=
  match l with
  | [] => ([], g)
  | x :: l' =>
      let (y, g1) := f x g in
      let (ys, g2) := map_random f l' g1 in
      (y :: ys, g2)
  end.

End JsArray.

(** ** [lib/api]: the API client *)
Module Api.
Import JsNumber Model.

(** [import.meta.env.VITE_API_URL || 'http://localhost:8000']. *)
Definition API_BASE_URL (VITE_API_URL : option string) : string :=
  match VITE_API_URL with
  | Some s => if JsString.truthy s then s else "http://localhost:8000"%string
  | None => "http://localhost:8000"%string
  end.

(** A [FormData] value: a file, a string, or the string [n.toString()] of a
    Number, kept as the Number it prints. *)
Inductive FormValue : Type :=
| FormFile (f : File)
| FormString (s : string)
| FormNumber (n : number).

Definition FormData : Type := list (string * FormValue).

Definition append (fd : FormData) (field : string) (v : FormValue) : FormData :=
  fd ++ [(field, v)].

(** [formData.get(field)]: the first value appended under [field]. *)
Fixpoint get (fd : FormData) (field : string) : option FormValue :=
  match fd with
  | [] => None
  | (k, v) :: fd' => if String.eqb k field then Some v else get fd' field
  end.

Record Request : Type := {
  request_url : string;
  request_method : string;
  request_body : FormData
}.

(** [response.json()] either parses or rejects with a [SyntaxError]. *)
Inductive Json (A : Type) : Type :=
| JsonValue (a : A)
| JsonSyntaxError (message : string).
Arguments JsonValue {A} a.
Arguments JsonSyntaxError {A} message.

(** What [fetch] settles to: a rejection, a 2xx response, or another status
    whose body may carry a [detail] field. *)
Inductive FetchOutcome : Type :=
| NetworkFailure (message : string)
| HttpOk (body : Json SearchResponse)
| HttpError (status : nat) (statusText : string) (body : Json (option string)).

(** A call returns or throws; a thrown [Error] carries its message. *)
Inductive Outcome (A : Type) : Type :=
| Returned (a : A)
| ThrewError (message : string)
| ThrewOther.
Arguments Returned {A} a.
Arguments ThrewError {A} message.
Arguments ThrewOther {A}.

Definition default_topK : number := of_Z 11.
Definition default_similarityThreshold : number := zero.

(** The body [searchSimilarProducts] posts; [None] stands for an omitted
    ([undefined]) argument. *)
Definition search_form (file : option File) (imageUrl : option string)
    (topK similarityThreshold : option number) : FormData :=
  let topK := match topK with Some k => k | None => default_topK end in
  let similarityThreshold :=
    match similarityThreshold with
    | Some t => t
    | None => default_similarityThreshold
    end in
  let formData : FormData := [] in
  let formData :=
    match file with
    | Some f => append formData "file" (FormFile f)
    | None => formData
    end in
  let formData :=
    match imageUrl with
    | Some u =>
        if JsString.truthy u then append formData "image_url" (FormString u)
        else formData
    | None => formData
    end in
  let formData := append formData "top_k" (FormNumber topK) in
  append formData "similarity_threshold" (FormNumber similarityThreshold).

Definition http_message (status : nat) (statusText : string) : string :=
  String.append "HTTP "
    (String.append (JsString.nat_toString status) (String.append ": " statusText)).

Section Client.
Variable baseUrl : string.
Variable fetch : Request -> FetchOutcome.

Definition searchSimilarProducts (file : option File) (imageUrl : option string)
    (topK similarityThreshold : option number) : Outcome SearchResponse :=
  let formData := search_form file imageUrl topK similarityThreshold in
  match fetch {| request_url := String.append baseUrl "/api/search";
                 request_method := "POST";
                 request_body := formData |} with
  | NetworkFailure message => ThrewError message
  | HttpError status statusText body =>
      let detail :=
        match body with
        | JsonValue d => d
        | JsonSyntaxError _ => Some "Search failed"%string
        end in
      match detail with
      | Some d =>
          if JsString.truthy d then ThrewError d
          else ThrewError (http_message status statusText)
      | None => ThrewError (http_message status statusText)
      end
  | HttpOk (JsonValue response) => Returned response
  | HttpOk (JsonSyntaxError message) => ThrewError message
  end.

(** Utility method to get the full image URL. *)
Definition getImageUrl (imagePath : string) : string :=
  if JsString.startsWith imagePath "http" then imagePath
  else
    let cleanPath :=
      if JsString.startsWith imagePath "static/" then imagePath
      else String.append "static/" imagePath in
    String.append baseUrl (String.append "/" cleanPath).

End Client.

End Api.

(** ** [data/mockProducts] *)
Module MockProducts.
Import JsNumber Model.

Definition phoneImg : string := "@/assets/product-phone.jpg".
Definition bagImg : string := "@/assets/product-bag.jpg".
Definition shoesImg : string := "@/assets/product-shoes.jpg".
Definition headphonesImg : string := "@/assets/product-headphones.jpg".

Definition categories : list string :=
  ["All"; "Electronics"; "Shoes"; "Bags"; "Clothing"; "Home"; "Accessories"]%string.

Definition mock (i n c : string) (p : Z) (img d b : string) : Product :=
  {| id := i; name := n; category := c; price := of_Z p; currency := "USD";
     image_path := img; description := d; brand := b; available := true;
     similarity := None; similarity_percentage := None |}.

Definition mockProducts : list Product :=
  [ mock "1" "iPhone 15 Pro" "Electronics" 999 phoneImg
      "Latest flagship smartphone with titanium design" "Apple";
    mock "2" "Premium Leather Handbag" "Bags" 299 bagImg
      "Luxury leather handbag with elegant design" "Designer Brand";
    mock "3" "Athletic Running Shoes" "Shoes" 129 shoesImg
      "Premium running sneakers for athletic performance" "SportBrand";
    mock "4" "Wireless Headphones" "Electronics" 199 headphonesImg
      "High-quality wireless headphones with noise cancellation" "AudioTech";
    mock "5" "Samsung Galaxy S24" "Electronics" 899 phoneImg
      "Android flagship with AI features" "Samsung";
    mock "6" "Classic Crossbody Bag" "Bags" 179 bagImg
      "Versatile crossbody bag for everyday use" "Fashion Co";
    mock "7" "Trail Running Shoes" "Shoes" 149 shoesImg
      "Durable shoes designed for trail running" "OutdoorGear";
    mock "8" "Gaming Headset" "Electronics" 89 headphonesImg
      "Professional gaming headset with RGB lighting" "GameTech" ]%string.

(** [Math.random() * 0.4 + 0.6]. *)
Definition random_similarity (g : Rng) : number * Rng :=
  let (r, g') := Math_random g in
  (num_add (num_mul r (decimal 4 10)) (decimal 6 10), g').

(** [product => ({ ...product, similarity: Math.random() * 0.4 + 0.6 })]. *)
Definition score (product : Product) (g : Rng) : Product * Rng :=
  let (s, g') := random_similarity g in
  (with_similarity product (Some s), g').

(** [product.similarity || 0], the score the comparator reads. *)
Definition similarity_or_0 (product : Product) : number :=
  or_zero (similarity product).

(** [(a, b) => (b.similarity || 0) - (a.similarity || 0)]. *)
Definition by_similarity_desc (a b : Product) : number :=
  num_sub (similarity_or_0 b) (similarity_or_0 a).

(** [a] may stand in front of [b] in a list ordered descending by score. *)
Definition similarity_desc (a b : Product) : Prop :=
  num_geb (similarity_or_0 a) (similarity_or_0 b) = true.

(** [a.similarity >= b.similarity] on the raw scores. *)
Definition similarity_geb (a b : Product) : bool :=
  match similarity a, similarity b with
  | Some x, Some y => num_geb x y
  | _, _ => false
  end.

(** The results whose score equals [v]. *)
Definition with_score (v : number) (l : list Product) : list Product :=
  filter (fun product => num_eqb (similarity_or_0 product) v) l.

(** The score the comparator reads is a double. *)
Definition sortable (product : Product) : Prop := emin_ok (similarity_or_0 product).

(** The product carries a score that is a number. *)
Definition scored_number (product : Product) : Prop :=
  exists s, similarity product = Some s /\ is_nan s = false.

(** The catalog with its simulated scores, in catalog order. *)
Definition scored_catalog (g : Rng) : list Product * Rng :=
  JsArray.map_random score mockProducts g.

(** Simulate similarity scores for search results; the argument is not read. *)
Definition generateMockSearchResults (uploadedImage : option string) (g : Rng)
  : list Product * Rng :=
  let (scored, g') := scored_catalog g in
  (JsArray.sort by_similarity_desc scored, g').

End MockProducts.

(** ** [components/ProductCard] *)
Module ProductCard.
Import JsNumber Model.

(** [product.similarity ? Math.round(product.similarity * 100) : 0]. *)
Definition similarityPercentage (product : Product) : number :=
  match similarity product with
  | Some s => if truthy s then Math_round (num_mul s (of_Z 100)) else zero
  | None => zero
  end.

Definition getSimilarityColor (score : number) : string :=
  if num_geb score (of_Z 90) then "bg-success text-success-foreground"
  else if num_geb score (of_Z 75) then "bg-warning text-warning-foreground"
  else "bg-muted text-muted-foreground".

(** What [{showSimilarity && product.similarity && <Badge>...</Badge>}]
    renders: the badge with ["{similarityPercentage}% match"] and its colour
    class, the falsy Number the expression evaluates to (React prints
    numbers), or nothing for [false] and [undefined]. *)
Inductive Rendered : Type :=
| RenderNothing
| RenderNumber (n : number)
| RenderBadge (percentage : number) (className : string).

Definition similarity_badge (showSimilarity : bool) (product : Product) : Rendered :=
  if showSimilarity then
    match similarity product with
    | None => RenderNothing
    | Some s =>
        if truthy s then
          RenderBadge (similarityPercentage product)
                      (getSimilarityColor (similarityPercentage product))
        else RenderNumber s
    end
  else RenderNothing.

(** The [src] of the card's image. *)
Definition img_src (baseUrl : string) (product : Product) : string :=
  Api.getImageUrl baseUrl (image_path product).

End ProductCard.

(** ** [components/ImageUploader] *)
Module ImageUploader.
Import Model.

Record State : Type := {
  dragActive : bool;
  previewUrl : string;
  urlInput : string;
  showUrlInput : bool
}.

Definition initial : State :=
  {| dragActive := false; previewUrl := ""; urlInput := ""; showUrlInput := false |}.

(** What a handler does besides updating the component's own state. *)
Inductive Effect : Type :=
| ShowToast (t : Toast)
| OnImageUpload (image : UploadedImage)
| RevokeObjectURL (url : string).

Definition invalid_file_type : Toast :=
  {| title := "Invalid file type";
     toast_description := "Please upload an image file";
     variant := Some VariantDestructive |}.

Definition file_too_large : Toast :=
  {| title := "File too large";
     toast_description := "Please upload an image smaller than 10MB";
     variant := Some VariantDestructive |}.

Definition invalid_url : Toast :=
  {| title := "Invalid URL";
     toast_description := "Please enter a valid image URL";
     variant := Some VariantDestructive |}.

(** The [accept] attribute of the file input. *)
Definition accept : list string :=
  ["image/jpeg"; "image/jpg"; "image/png"; "image/webp"; "image/*"]%string.

(** The 10MB limit, [10 * 1024 * 1024] bytes. *)
Definition max_size : N := 10 * 1024 * 1024.

Definition setPreviewUrl (url : string) (st : State) : State :=
  {| dragActive := dragActive st; previewUrl := url;
     urlInput := urlInput st; showUrlInput := showUrlInput st |}.

Definition setUrlInput (text : string) (st : State) : State :=
  {| dragActive := dragActive st; previewUrl := previewUrl st;
     urlInput := text; showUrlInput := showUrlInput st |}.

Definition setShowUrlInput (b : bool) (st : State) : State :=
  {| dragActive := dragActive st; previewUrl := previewUrl st;
     urlInput := urlInput st; showUrlInput := b |}.

Definition setDragActive (b : bool) (st : State) : State :=
  {| dragActive := b; previewUrl := previewUrl st;
     urlInput := urlInput st; showUrlInput := showUrlInput st |}.

(** [handleFiles(files)]; [uuid] names the object URL the browser creates
    for the preview. *)
Definition handleFiles (files : list File) (uuid : string) (st : State)
  : State * list Effect :=
  match files with
  | [] => (st, [])
  | file :: _ =>
      if negb (JsString.startsWith (file_type file) "image/") then
        (st, [ShowToast invalid_file_type])
      else if (max_size <? file_size file)%N then
        (st, [ShowToast file_too_large])
      else
        (setPreviewUrl (createObjectURL uuid) st, [OnImageUpload (ImageFile file)])
  end.

(** [handleDrop(e)] with [e.dataTransfer.files = files]. *)
Definition handleDrop (files : list File) (uuid : string) (st : State)
  : State * list Effect :=
  let st := setDragActive false st in
  match files with
  | [] => (st, [])
  | _ :: _ => handleFiles files uuid st
  end.

Section UrlInput.
(** [new URL(s)] succeeds or throws. *)
Variable URL_parses : string -> bool.

Definition handleUrlSubmit (st : State) : State * list Effect :=
  if negb (JsString.truthy (JsString.trim (urlInput st))) then (st, [])
  else if URL_parses (urlInput st) then
    (setUrlInput "" (setShowUrlInput false (setPreviewUrl (urlInput st) st)),
     [OnImageUpload (ImageUrl (urlInput st))])
  else (st, [ShowToast invalid_url]).

End UrlInput.

Definition clearPreview (st : State) : State * list Effect :=
  (setUrlInput "" (setPreviewUrl "" st),
   if JsString.startsWith (previewUrl st) "blob:"
   then [RevokeObjectURL (previewUrl st)] else []).

(** Whether a MIME type is one of the three formats the uploader advertises
    ("Supports: JPG/JPEG, PNG, WebP"). *)
Definition advertised_format (mime : string) : bool :=
  JsString.includes ["image/jpeg"; "image/jpg"; "image/png"; "image/webp"]%string mime.

End ImageUploader.

(** ** [components/ProductMatcher] *)
Module ProductMatcher.
Import JsNumber Model.

Record State : Type := {
  uploadedImage : option string;
  uploadedFile : option File;
  imageUrl : option string;
  searchResults : list Product;
  isLoading : bool;
  hasSearched : bool;
  similarityThreshold : number;
  selectedCategories : list string;
  filtersCollapsed : bool;
  categories : list string;
  error : option string
}.

Definition initial : State :=
  {| uploadedImage := None; uploadedFile := None; imageUrl := None;
     searchResults := []; isLoading := false; hasSearched := false;
     similarityThreshold := of_Z 0; selectedCategories := [];
     filtersCollapsed := false; categories := ["All"%string]; error := None |}.

Definition setUploadedImage (v : option string) (st : State) : State :=
  {| uploadedImage := v; uploadedFile := uploadedFile st; imageUrl := imageUrl st;
     searchResults := searchResults st; isLoading := isLoading st;
     hasSearched := hasSearched st; similarityThreshold := similarityThreshold st;
     selectedCategories := selectedCategories st;
     filtersCollapsed := filtersCollapsed st; categories := categories st;
     error := error st |}.

Definition setUploadedFile (v : option File) (st : State) : State :=
  {| uploadedImage := uploadedImage st; uploadedFile := v; imageUrl := imageUrl st;
     searchResults := searchResults st; isLoading := isLoading st;
     hasSearched := hasSearched st; similarityThreshold := similarityThreshold st;
     selectedCategories := selectedCategories st;
     filtersCollapsed := filtersCollapsed st; categories := categories st;
     error := error st |}.

Definition setImageUrl (v : option string) (st : State) : State :=
  {| uploadedImage := uploadedImage st; uploadedFile := uploadedFile st; imageUrl := v;
     searchResults := searchResults st; isLoading := isLoading st;
     hasSearched := hasSearched st; similarityThreshold := similarityThreshold st;
     selectedCategories := selectedCategories st;
     filtersCollapsed := filtersCollapsed st; categories := categories st;
     error := error st |}.

Definition setSearchResults (v : list Product) (st : State) : State :=
  {| uploadedImage := uploadedImage st; uploadedFile := uploadedFile st;
     imageUrl := imageUrl st;
     searchResults := v; isLoading := isLoading st;
     hasSearched := hasSearched st; similarityThreshold := similarityThreshold st;
     selectedCategories := selectedCategories st;
     filtersCollapsed := filtersCollapsed st; categories := categories st;
     error := error st |}.

Definition setIsLoading (v : bool) (st : State) : State :=
  {| uploadedImage := uploadedImage st; uploadedFile := uploadedFile st;
     imageUrl := imageUrl st;
     searchResults := searchResults st; isLoading := v;
     hasSearched := hasSearched st; similarityThreshold := similarityThreshold st;
     selectedCategories := selectedCategories st;
     filtersCollapsed := filtersCollapsed st; categories := categories st;
     error := error st |}.

Definition setHasSearched (v : bool) (st : State) : State :=
  {| uploadedImage := uploadedImage st; uploadedFile := uploadedFile st;
     imageUrl := imageUrl st;
     searchResults := searchResults st; isLoading := isLoading st;
     hasSearched := v; similarityThreshold := similarityThreshold st;
     selectedCategories := selectedCategories st;
     filtersCollapsed := filtersCollapsed st; categories := categories st;
     error := error st |}.

Definition setSimilarityThreshold (v : number) (st : State) : State :=
  {| uploadedImage := uploadedImage st; uploadedFile := uploadedFile st;
     imageUrl := imageUrl st;
     searchResults := searchResults st; isLoading := isLoading st;
     hasSearched := hasSearched st; similarityThreshold := v;
     selectedCategories := selectedCategories st;
     filtersCollapsed := filtersCollapsed st; categories := categories st;
     error := error st |}.

Definition setSelectedCategories (v : list string) (st : State) : State :=
  {| uploadedImage := uploadedImage st; uploadedFile := uploadedFile st;
     imageUrl := imageUrl st;
     searchResults := searchResults st; isLoading := isLoading st;
     hasSearched := hasSearched st; similarityThreshold := similarityThreshold st;
     selectedCategories := v;
     filtersCollapsed := filtersCollapsed st; categories := categories st;
     error := error st |}.

Definition setFiltersCollapsed (v : bool) (st : State) : State :=
  {| uploadedImage := uploadedImage st; uploadedFile := uploadedFile st;
     imageUrl := imageUrl st;
     searchResults := searchResults st; isLoading := isLoading st;
     hasSearched := hasSearched st; similarityThreshold := similarityThreshold st;
     selectedCategories := selectedCategories st;
     filtersCollapsed := v; categories := categories st;
     error := error st |}.

Definition setCategories (v : list string) (st : State) : State :=
  {| uploadedImage := uploadedImage st; uploadedFile := uploadedFile st;
     imageUrl := imageUrl st;
     searchResults := searchResults st; isLoading := isLoading st;
     hasSearched := hasSearched st; similarityThreshold := similarityThreshold st;
     selectedCategories := selectedCategories st;
     filtersCollapsed := filtersCollapsed st; categories := v;
     error := error st |}.

Definition setError (v : option string) (st : State) : State :=
  {| uploadedImage := uploadedImage st; uploadedFile := uploadedFile st;
     imageUrl := imageUrl st;
     searchResults := searchResults st; isLoading := isLoading st;
     hasSearched := hasSearched st; similarityThreshold := similarityThreshold st;
     selectedCategories := selectedCategories st;
     filtersCollapsed := filtersCollapsed st; categories := categories st;
     error := v |}.

(** What [handleSearch] does besides updating the state: toasts, and the call
    of [searchProducts] with its four arguments. *)
Inductive Effect : Type :=
| ShowToast (t : Toast)
| CallSearchProducts (file : option File) (imageUrl : option string)
                     (topK similarityThreshold : option number).

Definition is_search_call (e : Effect) : bool :=
  match e with CallSearchProducts _ _ _ _ => true | ShowToast _ => false end.

(** The categories used when [getCategories] fails. *)
Definition fallback_categories : list string :=
  ["All"; "Electronics"; "Shoes"; "Bags"; "Clothing"; "Home"; "Accessories"]%string.

(** [product.similarity_percentage || product.similarity || 0]. *)
Definition shown_similarity (product : Product) : number :=
  or_zero (or_else (similarity_percentage product) (similarity product)).

Definition meetsThreshold (threshold : number) (product : Product) : bool :=
  num_geb (shown_similarity product) threshold.

Definition meetsCategory (selected : list string) (product : Product) : bool :=
  (List.length selected =? 0)%nat
  || JsString.includes selected "All"
  || JsString.includes selected (category product).

(** [product.similarity >= threshold], the test a filter on the raw score
    alone would make ([undefined >= t] is false). *)
Definition similarity_at_least (threshold : number) (product : Product) : bool :=
  match similarity product with
  | Some s => num_geb s threshold
  | None => false
  end.

(** The predicate of both [filter] calls of the component. *)
Definition passes (threshold : number) (selected : list string)
    (product : Product) : bool :=
  meetsThreshold threshold product && meetsCategory selected product.

(** Filter results based on similarity threshold and categories. *)
Definition filteredResults (searchResults : list Product)
    (similarityThreshold : number) (selectedCategories : list string)
  : list Product :=
  filter (passes similarityThreshold selectedCategories) searchResults.

(** [handleImageUpload(image)]; [uuid] names the object URL created for a
    file. *)
Definition handleImageUpload (image : UploadedImage) (uuid : string) (st : State)
  : State :=
  let st := setError None st in
  let st :=
    match image with
    | ImageUrl url =>
        setUploadedFile None (setImageUrl (Some url) (setUploadedImage (Some url) st))
    | ImageFile file =>
        let imageObjectUrl := createObjectURL uuid in
        setImageUrl None
          (setUploadedFile (Some file) (setUploadedImage (Some imageObjectUrl) st))
    end in
  setHasSearched false st.

Definition no_image_selected : Toast :=
  {| title := "No image selected";
     toast_description := "Please upload an image to search for similar products";
     variant := Some VariantDestructive |}.

Definition searching : Toast :=
  {| title := "Searching...";
     toast_description := "Finding visually similar products using AI";
     variant := None |}.

Definition search_completed (filteredCount : nat) : Toast :=
  {| title := "Search completed!";
     toast_description :=
       String.append "Found "
         (String.append (JsString.nat_toString filteredCount) " products");
     variant := Some VariantDefault |}.

Definition search_failed (errorMessage : string) : Toast :=
  {| title := "Search failed";
     toast_description := errorMessage;
     variant := Some VariantDestructive |}.

(** [x || undefined] on a nullable string and on a nullable object. *)
Definition string_or_undefined (x : option string) : option string :=
  match x with
  | Some s => if JsString.truthy s then x else None
  | None => None
  end.

Definition string_falsy (x : option string) : bool :=
  match x with
  | Some s => negb (JsString.truthy s)
  | None => true
  end.

Section Search.
(** [searchProducts] of [lib/api], bound to the client. *)
Variable searchProducts :
  option File -> option string -> option number -> option number ->
  Api.Outcome SearchResponse.

(** [handleSearch()], run to completion: the state updates after the
    [await] are applied to the state the handler started from. *)
Definition handleSearch (st : State) : State * list Effect :=
  if string_falsy (uploadedImage st) then
    (st, [ShowToast no_image_selected])
  else
    let st1 := setError None (setIsLoading true st) in
    (* a File object is truthy, so [uploadedFile || undefined] keeps it *)
    let file := uploadedFile st in
    let url := string_or_undefined (imageUrl st) in
    let topK := Some (of_Z 11) in
    let threshold := Some zero in
    let call := CallSearchProducts file url topK threshold in
    match searchProducts file url topK threshold with
    | Api.Returned response =>
        let st2 := setHasSearched true (setSearchResults (results response) st1) in
        let filteredCount :=
          List.length
            (filter (passes (similarityThreshold st) (selectedCategories st))
                    (results response)) in
        (setIsLoading false st2,
         [ShowToast searching; call; ShowToast (search_completed filteredCount)])
    | Api.ThrewError message =>
        (setIsLoading false (setError (Some message) st1),
         [ShowToast searching; call; ShowToast (search_failed message)])
    | Api.ThrewOther =>
        let errorMessage := "Unknown error occurred"%string in
        (setIsLoading false (setError (Some errorMessage) st1),
         [ShowToast searching; call; ShowToast (search_failed errorMessage)])
    end.

End Search.

Definition handleCategoryToggle (category : string) (st : State) : State :=
  if String.eqb category "All" then setSelectedCategories [] st
  else
    let prev := selectedCategories st in
    setSelectedCategories
      (if JsString.includes prev category
       then filter (fun c => negb (String.eqb c category)) prev
       else filter (fun c => negb (String.eqb c "All")) prev ++ [category])
      st.

Definition handleClearFilters (st : State) : State :=
  setSelectedCategories [] (setSimilarityThreshold (of_Z 0) st).

(** The products handed to the cards:
    [{ ...product, image_path: getImageUrl(product.image_path) }]. *)
Definition card_products (baseUrl : string) (st : State) : list Product :=
  map (fun product =>
         with_image_path product (Api.getImageUrl baseUrl (image_path product)))
      (filteredResults (searchResults st) (similarityThreshold st)
                       (selectedCategories st)).

End ProductMatcher.

(** ** The page: the uploader inside the matcher, driven by user events *)
Module App.
Import JsNumber Model.

Record State : Type := {
  uploader : ImageUploader.State;
  matcher : ProductMatcher.State
}.

Definition initial : State :=
  {| uploader := ImageUploader.initial; matcher := ProductMatcher.initial |}.

Inductive Event : Type :=
| FilesChosen (files : list File) (previewUuid uploadUuid : string)
| FilesDropped (files : list File) (previewUuid uploadUuid : string)
| UrlTyped (text : string)
| UrlSubmitted
| UrlInputToggled
| PreviewCleared
| SearchClicked (fetch : Api.Request -> Api.FetchOutcome)
| ThresholdMoved (value : number)
| CategoryToggled (category : string)
| FiltersCleared
| CategoriesLoaded (response : option (list string)).

Inductive Effect : Type :=
| FromUploader (e : ImageUploader.Effect)
| FromMatcher (e : ProductMatcher.Effect).

(** The [onImageUpload] prop is [handleImageUpload]. *)
Fixpoint deliver (effects : list ImageUploader.Effect) (uploadUuid : string)
    (m : ProductMatcher.State) : ProductMatcher.State :=
  match effects with
  | [] => m
  | ImageUploader.OnImageUpload image :: rest =>
      deliver rest uploadUuid (ProductMatcher.handleImageUpload image uploadUuid m)
  | _ :: rest => deliver rest uploadUuid m
  end.

(** The image shown is missing exactly when no source is stored; otherwise it
    is a non-empty string and exactly one source is stored. *)
Definition sources_ok (m : ProductMatcher.State) : Prop :=
  match ProductMatcher.uploadedImage m with
  | None =>
      ProductMatcher.uploadedFile m = None /\ ProductMatcher.imageUrl m = None
  | Some shown =>
      JsString.truthy shown = true /\
      (((exists file, ProductMatcher.uploadedFile m = Some file) /\
        ProductMatcher.imageUrl m = None)
       \/ (ProductMatcher.uploadedFile m = None /\
           ProductMatcher.imageUrl m = Some shown))
  end.

(** The images an uploader hands to [onImageUpload]: no empty URL. *)
Definition well_formed (image : UploadedImage) : Prop :=
  match image with
  | ImageFile _ => True
  | ImageUrl url => JsString.truthy url = true
  end.

Definition upload_well_formed (e : ImageUploader.Effect) : Prop :=
  match e with
  | ImageUploader.OnImageUpload image => well_formed image
  | _ => True
  end.

Section Page.
Variable baseUrl : string.
Variable URL_parses : string -> bool.

Definition from_uploader (r : ImageUploader.State * list ImageUploader.Effect)
    (uploadUuid : string) (m : ProductMatcher.State) : State * list Effect :=
  ({| uploader := fst r; matcher := deliver (snd r) uploadUuid m |},
   map FromUploader (snd r)).

Definition step (ev : Event) (st : State) : State * list Effect :=
  let u := uploader st in
  let m := matcher st in
  match ev with
  | FilesChosen files previewUuid uploadUuid =>
      from_uploader (ImageUploader.handleFiles files previewUuid u) uploadUuid m
  | FilesDropped files previewUuid uploadUuid =>
      from_uploader (ImageUploader.handleDrop files previewUuid u) uploadUuid m
  | UrlTyped text =>
      ({| uploader := ImageUploader.setUrlInput text u; matcher := m |}, [])
  | UrlSubmitted =>
      from_uploader (ImageUploader.handleUrlSubmit URL_parses u) "" m
  | UrlInputToggled =>
      ({| uploader :=
            ImageUploader.setShowUrlInput (negb (ImageUploader.showUrlInput u)) u;
          matcher := m |}, [])
  | PreviewCleared =>
      from_uploader (ImageUploader.clearPreview u) "" m
  | SearchClicked fetch =>
      let r :=
        ProductMatcher.handleSearch (Api.searchSimilarProducts baseUrl fetch) m in
      ({| uploader := u; matcher := fst r |}, map FromMatcher (snd r))
  | ThresholdMoved value =>
      ({| uploader := u; matcher := ProductMatcher.setSimilarityThreshold value m |}, [])
  | CategoryToggled category =>
      ({| uploader := u; matcher := ProductMatcher.handleCategoryToggle category m |}, [])
  | FiltersCleared =>
      ({| uploader := u; matcher := ProductMatcher.handleClearFilters m |}, [])
  | CategoriesLoaded response =>
      ({| uploader := u;
          matcher :=
            ProductMatcher.setCategories
              (match response with
               | Some cs => cs
               | None => ProductMatcher.fallback_categories
               end) m |}, [])
  end.

(** The states the page can be in. *)
Inductive reachable : State -> Prop :=
| reachable_initial : reachable initial
| reachable_step ev st : reachable st -> reachable (fst (step ev st)).

(** The page after a sequence of events, oldest first. *)
Definition run (events : list Event) : State :=
  fold_left (fun st ev => fst (step ev st)) events initial.

End Page.

End App.

(** ** Sample inputs, used to run the definitions *)
Module Samples.
Import JsNumber Model.

(** A generator whose sixteen next draws are [0/16 .. 7/16] and then
    [15/32 .. 8/32]; every draw lies in [[0, 1)]. *)
Definition rising_then_falling : Rng :=
  {| draws := fun i =>
       if (i <? 8)%nat then decimal (Z.of_nat i) 16
       else decimal (Z.of_nat (23 - i)) 32;
     cursor := 0 |}.

(** A generator with the same first eight draws and zeros afterwards. *)
Definition rising_then_zero : Rng :=
  {| draws := fun i =>
       if (i <? 8)%nat then draws rising_then_falling i else zero;
     cursor := 0 |}.

Definition query_image : option string := Some "blob:4f0c"%string.

(** A search result carrying only the raw score 0.9. *)
Definition bag : Product :=
  {| id := "6"; name := "Classic Crossbody Bag"; category := "Bags";
     price := of_Z 179; currency := "USD";
     image_path := "static/images/bag.jpg";
     description := "Versatile crossbody bag for everyday use";
     brand := "Fashion Co"; available := true;
     similarity := Some (decimal 9 10); similarity_percentage := None |}.

(** The same result as the backend sends it, with the percentage 90. *)
Definition bag_with_percentage : Product :=
  {| id := "6"; name := "Classic Crossbody Bag"; category := "Bags";
     price := of_Z 179; currency := "USD";
     image_path := "static/images/bag.jpg";
     description := "Versatile crossbody bag for everyday use";
     brand := "Fashion Co"; available := true;
     similarity := Some (decimal 9 10); similarity_percentage := Some (of_Z 90) |}.

Definition photo : File :=
  {| file_name := "shoe.png"; file_type := "image/png"; file_size := 204800 |}.

Definition animation : File :=
  {| file_name := "shoe.gif"; file_type := "image/gif"; file_size := 204800 |}.

Definition shoe_url : string := "https://example.com/shoe.png".

(** A URL parser that accepts what starts with a scheme of the web. *)
Definition parses_http (s : string) : bool :=
  JsString.startsWith (JsString.trim s) "http://"
  || JsString.startsWith (JsString.trim s) "https://".

(** A backend that is down. *)
Definition offline (request : Api.Request) : Api.FetchOutcome :=
  Api.NetworkFailure "Failed to fetch".

(** The user types blanks into the URL field and submits them. *)
Definition blank_url_submitted : list App.Event :=
  [App.UrlInputToggled; App.UrlTyped "   "; App.UrlSubmitted].

(** The user picks a file, then submits a URL, then picks the file again. *)
Definition file_url_file : list App.Event :=
  [App.FilesChosen [photo] "4f0c" "9a1d";
   App.UrlInputToggled; App.UrlTyped shoe_url; App.UrlSubmitted;
   App.FilesChosen [photo] "77b2" "c3e0"].

End Samples.

(** ** [components/FilterPanel] *)
Module FilterPanel.
Import JsNumber.

(** [similarityThreshold < 100 || selectedCategories.length > 0]: whether the
    Clear button and the summary of active filters are rendered. *)
Definition hasActiveFilters (similarityThreshold : number)
    (selectedCategories : list string) : bool :=
  num_ltb similarityThreshold (of_Z 100)
  || (0 <? List.length selectedCategories)%nat.

(** [selectedCategories.includes(category) || category === 'All']. *)
Definition isSelected (selectedCategories : list string) (category : string) : bool :=
  JsString.includes selectedCategories category || String.eqb category "All".

(** [selectedCategories.length === 0 || selectedCategories.includes('All')]. *)
Definition isAllSelected (selectedCategories : list string) : bool :=
  (List.length selectedCategories =? 0)%nat
  || JsString.includes selectedCategories "All".

(** Whether the chip of [category] is drawn in the ["default"] variant, with
    the gradient and the closing cross, rather than as an outline. *)
Definition chip_highlighted (selectedCategories : list string) (category : string)
  : bool :=
  (String.eqb category "All" && isAllSelected selectedCategories)
  || (negb (String.eqb category "All") && isSelected selectedCategories category).

(** The bounds of the slider. *)
Definition slider_min : number := of_Z 50.
Definition slider_max : number := of_Z 100.

End FilterPanel.

(** ** [lib/api]: the JSON requests of the client *)
Module ApiRequests.
Import JsNumber Model.

Record ProductsResponse : Type := {
  products : list Product;
  total : nat;
  products_timestamp : string
}.

Record CategoriesResponse : Type := {
  categories : list string;
  categories_timestamp : string
}.

Record HealthResponse : Type := {
  status : string;
  health_timestamp : string;
  models_loaded : bool
}.

(** What a promise rejects with: an [Error], or some other value. *)
Inductive Thrown : Type :=
| ErrorObject (message : string)
| OtherValue.

(** What [fetch] settles to, for a response whose 2xx body is a [B].  The
    body of any other response, when it parses, is taken to be an object whose
    [detail] is a string or absent. *)
Inductive Settled (B : Type) : Type :=
| Rejected (e : Thrown)
| Http2xx (body : Api.Json B)
| HttpStatus (status : nat) (statusText : string) (body : Api.Json (option string)).
Arguments Rejected {B} e.
Arguments Http2xx {B} body.
Arguments HttpStatus {B} status statusText body.

(** *** [URLSearchParams] *)

(** The bytes the form-urlencoded serializer leaves as they are: ASCII
    letters and digits and [* - . _]. *)
Definition unreserved (c : ascii) : bool :=
  let n := nat_of_ascii c in
  ((n =? 42) || (n =? 45) || (n =? 46) || (n =? 95)
   || ((48 <=? n) && (n <=? 57))
   || ((65 <=? n) && (n <=? 90))
   || ((97 <=? n) && (n <=? 122)))%nat.

Definition hex_digit (n : nat) : ascii :=
  match String.get n "0123456789ABCDEF" with
  | Some c => c
  | None => "0"%char
  end.

(** [%XX] for the byte [n]. *)
Definition percent_byte (n : nat) (rest : string) : string :=
  String "%" (String (hex_digit (n / 16)) (String (hex_digit (n mod 16)) rest)).

(** A space becomes [+]; any other code unit is percent-encoded by the bytes
    of its UTF-8 encoding: one byte below U+0080, and the two bytes
    [0xC0 | n >> 6] and [0x80 | n & 0x3F] from U+0080 to U+00FF. *)
Fixpoint urlencode (s : string) : string :=
  match s with
  | EmptyString => EmptyString
  | String c r =>
      let n := nat_of_ascii c in
      if unreserved c then String c (urlencode r)
      else if (n =? 32)%nat then String "+" (urlencode r)
      else if (n <? 128)%nat then percent_byte n (urlencode r)
      else percent_byte (192 + n / 64) (percent_byte (128 + n mod 64) (urlencode r))
  end.

Definition URLSearchParams : Type := list (string * string).

Definition params_append (params : URLSearchParams) (key value : string)
  : URLSearchParams :=
  params ++ [(key, value)].

(** [params.toString()]. *)
Fixpoint params_toString (params : URLSearchParams) : string :=
  match params with
  | [] => EmptyString
  | (k, v) :: rest =>
      let pair := String.append (urlencode k) (String "=" (urlencode v)) in
      match rest with
      | [] => pair
      | _ :: _ => String.append pair (String "&" (params_toString rest))
      end
  end.

Definition bool_toString (b : bool) : string := if b then "true" else "false".

Section Client.
Variable baseUrl : string.
(** [n.toString()] on Numbers. *)
Variable Number_toString : number -> string.

(** [request<T>(endpoint)] with the default options. *)
Definition request {B : Type} (fetch : string -> Settled B) (endpoint : string)
  : Api.Outcome B :=
  let url := String.append baseUrl endpoint in
  match fetch url with
  | Rejected (ErrorObject message) => Api.ThrewError message
  | Rejected OtherValue => Api.ThrewError "Network error occurred"
  | HttpStatus status statusText body =>
      let detail :=
        match body with
        | Api.JsonValue d => d
        | Api.JsonSyntaxError _ => Some "Unknown error"%string
        end in
      match detail with
      | Some d =>
          if JsString.truthy d then Api.ThrewError d
          else Api.ThrewError (Api.http_message status statusText)
      | None => Api.ThrewError (Api.http_message status statusText)
      end
  | Http2xx (Api.JsonValue value) => Api.Returned value
  | Http2xx (Api.JsonSyntaxError message) => Api.ThrewError message
  end.

(** The endpoint [getProducts] requests. *)
Definition products_endpoint (category : option string) (available : option bool)
    (limit : option number) : string :=
  let params : URLSearchParams := [] in
  let params :=
    match category with
    | Some c =>
        if JsString.truthy c && negb (String.eqb c "All")
        then params_append params "category" c
        else params
    | None => params
    end in
  let params :=
    match available with
    | Some a => params_append params "available" (bool_toString a)
    | None => params
    end in
  let params :=
    match limit with
    | Some l =>
        if truthy l then params_append params "limit" (Number_toString l)
        else params
    | None => params
    end in
  let queryString := params_toString params in
  String.append "/api/products"
    (if JsString.truthy queryString then String "?" queryString else EmptyString).

Definition getProducts (fetch : string -> Settled ProductsResponse)
    (category : option string) (available : option bool) (limit : option number)
  : Api.Outcome ProductsResponse :=
  request fetch (products_endpoint category available limit).

Definition getCategories (fetch : string -> Settled CategoriesResponse)
  : Api.Outcome CategoriesResponse :=
  request fetch "/api/categories".

Definition healthCheck (fetch : string -> Settled HealthResponse)
  : Api.Outcome HealthResponse :=
  request fetch "/api/health".

(** [loadCategories()] of [ProductMatcher], run when the component mounts. *)
Definition loadCategories (fetch : string -> Settled CategoriesResponse)
    (m : ProductMatcher.State) : ProductMatcher.State :=
  match getCategories fetch with
  | Api.Returned response => ProductMatcher.setCategories (categories response) m
  | _ => ProductMatcher.setCategories ProductMatcher.fallback_categories m
  end.

End Client.

End ApiRequests.

(** ** What [ProductMatcher] renders *)
Module MatcherView.
Import JsNumber Model.

(** [{uploadedImage && <Button onClick={handleSearch}>}]. *)
Definition search_button_shown (m : ProductMatcher.State) : bool :=
  negb (ProductMatcher.string_falsy (ProductMatcher.uploadedImage m)).

(** [{hasSearched && !isLoading && ...}]. *)
Definition results_section_shown (m : ProductMatcher.State) : bool :=
  ProductMatcher.hasSearched m && negb (ProductMatcher.isLoading m).

(** [{error && ...}] inside the results section. *)
Definition error_card_shown (m : ProductMatcher.State) : bool :=
  results_section_shown m
  && negb (ProductMatcher.string_falsy (ProductMatcher.error m)).

(** The list behind [{filteredResults.length} products] and the grid. *)
Definition displayed (m : ProductMatcher.State) : list Product :=
  ProductMatcher.filteredResults (ProductMatcher.searchResults m)
    (ProductMatcher.similarityThreshold m) (ProductMatcher.selectedCategories m).

(** The alert shown in place of the grid when [filteredResults] is empty. *)
Definition empty_alert (m : ProductMatcher.State) : option string :=
  if (List.length (displayed m) =? 0)%nat then
    Some (if (List.length (ProductMatcher.searchResults m) =? 0)%nat
          then "No similar products found. Try with a different image."%string
          else ("No products match your current filters. "
                ++ "Try adjusting the similarity threshold or category selection.")%string)
  else None.

(** A result as the mock generator or a backend without percentages scores
    it: no [similarity_percentage], and a raw [similarity] of at most 1 (or
    none). *)
Definition fraction_scored (product : Product) : Prop :=
  similarity_percentage product = None /\
  num_leb (or_zero (similarity product)) (of_Z 1) = true.

(** The props [FilterPanel] receives. *)
Definition clear_button_shown (m : ProductMatcher.State) : bool :=
  FilterPanel.hasActiveFilters (ProductMatcher.similarityThreshold m)
    (ProductMatcher.selectedCategories m).

End MatcherView.

(** ** What the uploader has checked of a stored source *)
Module Validity.
Import Model.

Section Checked.
Variable URL_parses : string -> bool.

(** The two checks of [handleFiles] and the two of [handleUrlSubmit]. *)
Definition file_checked (file : File) : Prop :=
  JsString.startsWith (file_type file) "image/" = true /\
  (file_size file <= ImageUploader.max_size)%N.

Definition url_checked (url : string) : Prop :=
  JsString.truthy (JsString.trim url) = true /\ URL_parses url = true.

Definition image_checked (image : UploadedImage) : Prop :=
  match image with
  | ImageFile file => file_checked file
  | ImageUrl url => url_checked url
  end.

Definition upload_checked (e : ImageUploader.Effect) : Prop :=
  match e with
  | ImageUploader.OnImageUpload image => image_checked image
  | _ => True
  end.

(** Whatever source the matcher stores has passed the uploader's checks. *)
Definition sources_checked (m : ProductMatcher.State) : Prop :=
  (forall file, ProductMatcher.uploadedFile m = Some file -> file_checked file) /\
  (forall url, ProductMatcher.imageUrl m = Some url -> url_checked url).

End Checked.

End Validity.

(** ** Sessions and responses, used to run the page *)
Module Scenarios.
Import JsNumber Model.

(** Shoes on, Bags on, Shoes off, everything off, Home on. *)
Definition chips_clicked : list App.Event :=
  [App.CategoryToggled "Shoes"; App.CategoryToggled "Bags";
   App.CategoryToggled "Shoes"; App.CategoryToggled "All";
   App.CategoryToggled "Home"].

(** A backend that answers every JSON request with an HTML error page. *)
Definition unavailable {B : Type} (url : string) : ApiRequests.Settled B :=
  ApiRequests.HttpStatus 503 "Service Unavailable"
    (Api.JsonSyntaxError "Unexpected token < in JSON at position 0").

(** A backend that finds the bag, once with and once without a percentage. *)
Definition two_bags : SearchResponse :=
  {| query_id := "q-1";
     results := [Samples.bag_with_percentage; Samples.bag];
     total_results := 2;
     timestamp := "2024-01-01T00:00:00" |}.

Definition finds_two_bags (request : Api.Request) : Api.FetchOutcome :=
  Api.HttpOk (Api.JsonValue two_bags).

(** A file is chosen and the slider is set to 80. *)
Definition photo_chosen : list App.Event :=
  [App.FilesChosen [Samples.photo] "4f0c" "9a1d"; App.ThresholdMoved (of_Z 80)].

(** A backend that refuses the search with an empty [detail]. *)
Definition refuses (request : Api.Request) : Api.FetchOutcome :=
  Api.HttpError 422 "Unprocessable Entity" (Api.JsonValue (Some EmptyString)).

(** A generator whose draws are all [1 - 2 ^ -53], the largest double below
    1. *)
Definition almost_one : Rng :=
  {| draws := fun _ => S754_finite false 9007199254740991 (-53); cursor := 0 |}.

(** A backend that finds the bag and scores it by the raw similarity only. *)
Definition raw_bag : SearchResponse :=
  {| query_id := "q-2"; results := [Samples.bag]; total_results := 1;
     timestamp := "2024-01-01T00:00:00" |}.

Definition finds_raw_bag (request : Api.Request) : Api.FetchOutcome :=
  Api.HttpOk (Api.JsonValue raw_bag).

(** Only a file is chosen. *)
Definition photo_only : list App.Event :=
  [App.FilesChosen [Samples.photo] "4f0c" "9a1d"].

(** A backend that answers a form carrying a file and no URL, and fails on
    any other. *)
Definition wants_file_only (request : Api.Request) : Api.FetchOutcome :=
  match Api.get (Api.request_body request) "file",
        Api.get (Api.request_body request) "image_url" with
  | Some (Api.FormFile _), None => Api.HttpOk (Api.JsonValue two_bags)
  | _, _ => Api.NetworkFailure "unexpected form"
  end.

(** A backend that answers a form carrying both a file and a URL, and fails
    on any other. *)
Definition wants_both (request : Api.Request) : Api.FetchOutcome :=
  match Api.get (Api.request_body request) "file",
        Api.get (Api.request_body request) "image_url" with
  | Some (Api.FormFile _), Some (Api.FormString _) =>
      Api.HttpOk (Api.JsonValue two_bags)
  | _, _ => Api.NetworkFailure "unexpected form"
  end.



End Scenarios.

(* ===================================================================== *)
(** * Part II: properties                                                 *)
(* ===================================================================== *)

Import JsNumber Model.

(** ** Numbers: the comparison is a total preorder away from NaN *)

Lemma scaled_lower x e e' :
  e' <= e -> e <= expo x -> scaled x e' = scaled x e * 2 ^ (e - e').
Proof.
  intros H1 H2. unfold scaled.
  rewrite <- Z.mul_assoc, <- Z.pow_add_r by lia.
  f_equal. f_equal. lia.
Qed.

Lemma num_compare_fin x y e :
  finite_like x = true -> finite_like y = true ->
  e <= expo x -> e <= expo y ->
  num_compare x y = Some (scaled x e ?= scaled y e).
Proof.
  intros Fx Fy Hx Hy.
  set (e0 := Z.min (expo x) (expo y)).
  assert (G : num_compare x y = Some (scaled x e0 ?= scaled y e0)).
  { destruct x, y; try discriminate; reflexivity. }
  rewrite G. f_equal.
  rewrite (scaled_lower x e0 e) by (unfold e0; lia).
  rewrite (scaled_lower y e0 e) by (unfold e0; lia).
  apply Zmult_compare_compat_r.
  apply Z.lt_gt, Z.pow_pos_nonneg; lia.
Qed.

Lemma num_compare_fin3 x y z :
  finite_like x = true -> finite_like y = true -> finite_like z = true ->
  exists a b c : Z,
    num_compare x y = Some (a ?= b) /\ num_compare y x = Some (b ?= a) /\
    num_compare y z = Some (b ?= c) /\ num_compare z y = Some (c ?= b) /\
    num_compare x z = Some (a ?= c) /\ num_compare z x = Some (c ?= a).
Proof.
  intros Fx Fy Fz.
  set (e := Z.min (expo x) (Z.min (expo y) (expo z))).
  exists (scaled x e), (scaled y e), (scaled z e).
  repeat split; apply num_compare_fin; auto; unfold e; lia.
Qed.

(** Cases in which an operand is an infinity or NaN are settled by
    computation. *)
Ltac order_by_cases x y z :=
  destruct x as [sx|sx| |sx mx ex], y as [sy|sy| |sy my ey], z as [sz|sz| |sz mz ez];
  try discriminate;
  try (destruct sx); try (destruct sy); try (destruct sz);
  try discriminate; try reflexivity.

Ltac order_by_cases2 x y :=
  destruct x as [sx|sx| |sx mx ex], y as [sy|sy| |sy my ey];
  try discriminate;
  try (destruct sx); try (destruct sy);
  try discriminate; try reflexivity.

(** Three finite operands are compared as three integers at a common
    exponent. *)
Ltac order_fin3 x y z :=
  let a := fresh "a" in let b := fresh "b" in let c := fresh "c" in
  let H := fresh "H" in
  destruct (num_compare_fin3 x y z) as (a & b & c & H); auto;
  destruct H as (?H & ?H & ?H & ?H & ?H & ?H).

Lemma num_leb_trans x y z :
  num_leb x y = true -> num_leb y z = true -> num_leb x z = true.
Proof.
  destruct (finite_like x) eqn:Fx, (finite_like y) eqn:Fy, (finite_like z) eqn:Fz;
    try (order_by_cases x y z; fail).
  order_fin3 x y z. unfold num_leb.
  repeat match goal with H : num_compare _ _ = _ |- _ => rewrite H; clear H end.
  destruct (Z.compare_spec a b), (Z.compare_spec b c), (Z.compare_spec a c);
    intros; try discriminate; try reflexivity; lia.
Qed.

Lemma num_ltb_leb x y : num_ltb x y = true -> num_leb x y = true.
Proof. unfold num_ltb, num_leb. destruct (num_compare x y) as [[]|]; auto. Qed.

Lemma num_leb_total x y :
  is_nan x = false -> is_nan y = false -> num_ltb x y = false -> num_leb y x = true.
Proof.
  intros Nx Ny.
  destruct (finite_like x) eqn:Fx, (finite_like y) eqn:Fy;
    try (order_by_cases2 x y; fail).
  unfold num_ltb, num_leb.
  rewrite (num_compare_fin x y (Z.min (expo x) (expo y))) by (auto; lia).
  rewrite (num_compare_fin y x (Z.min (expo x) (expo y))) by (auto; lia).
  destruct (Z.compare_spec (scaled x (Z.min (expo x) (expo y)))
                           (scaled y (Z.min (expo x) (expo y)))),
           (Z.compare_spec (scaled y (Z.min (expo x) (expo y)))
                           (scaled x (Z.min (expo x) (expo y))));
    intros; try discriminate; try reflexivity; lia.
Qed.

Lemma num_eqb_not_ltb x y v :
  num_eqb x v = true -> num_eqb y v = true -> num_ltb x y = false.
Proof.
  destruct (finite_like x) eqn:Fx, (finite_like y) eqn:Fy, (finite_like v) eqn:Fv;
    try (order_by_cases x y v; fail).
  order_fin3 x y v. unfold num_ltb, num_eqb.
  repeat match goal with H : num_compare _ _ = _ |- _ => rewrite H; clear H end.
  destruct (Z.compare_spec a c), (Z.compare_spec b c), (Z.compare_spec a b);
    intros; try discriminate; try reflexivity; lia.
Qed.

(** ** Rounding never loses the sign of a value scaled at or above [emin] *)

Lemma digits2_pos_size p : digits2_pos p = Pos.size p.
Proof. induction p; simpl; congruence. Qed.

Lemma digits2_pos_lower p : 2 ^ (Zpos (digits2_pos p) - 1) <= Zpos p.
Proof.
  rewrite digits2_pos_size.
  pose proof (Pos.size_le p) as H.
  apply Pos2Z.pos_le_pos in H. rewrite Pos2Z.inj_pow in H.
  change (Zpos p~0) with (2 * Zpos p) in H.
  assert (E : 2 ^ Zpos (Pos.size p) = 2 * 2 ^ (Zpos (Pos.size p) - 1)).
  { rewrite <- Z.pow_succ_r by lia. f_equal. lia. }
  lia.
Qed.

Lemma shr_1_m mrs : 0 <= shr_m mrs -> shr_m (shr_1 mrs) = shr_m mrs / 2.
Proof.
  destruct mrs as [m r s]. simpl. intros Hm.
  destruct m as [|[p|p|]|p]; cbn [shr_m]; try reflexivity; try lia.
  - apply Z.div_unique with 1; lia.
  - apply Z.div_unique with 0; lia.
Qed.

Lemma shr_1_nonneg mrs : 0 <= shr_m mrs -> 0 <= shr_m (shr_1 mrs).
Proof. intros H. rewrite shr_1_m by assumption. apply Z.div_pos; lia. Qed.

Lemma iter_shr_1_m p : forall mrs,
  0 <= shr_m mrs ->
  shr_m (iter_pos shr_1 p mrs) = shr_m mrs / 2 ^ Zpos p.
Proof.
  induction p as [p IH|p IH|]; intros mrs Hm; simpl iter_pos;
    try assert (Hp : 0 < 2 ^ Zpos p) by (apply Z.pow_pos_nonneg; lia).
  - assert (H1 : 0 <= shr_m (shr_1 mrs)) by (apply shr_1_nonneg; assumption).
    assert (H2 : 0 <= shr_m (iter_pos shr_1 p (shr_1 mrs))).
    { rewrite IH by assumption. apply Z.div_pos; [assumption|]. apply Z.pow_pos_nonneg; lia. }
    rewrite IH, IH, shr_1_m by assumption.
    rewrite !Z.div_div by lia.
    f_equal. rewrite Pos2Z.inj_xI.
    rewrite <- Z.pow_add_r, <- Z.pow_succ_r by lia. f_equal. lia.
  - assert (H2 : 0 <= shr_m (iter_pos shr_1 p mrs)).
    { rewrite IH by assumption. apply Z.div_pos; [assumption|]. apply Z.pow_pos_nonneg; lia. }
    rewrite IH, IH by assumption.
    rewrite Z.div_div by lia.
    f_equal. rewrite Pos2Z.inj_xO, <- Z.pow_add_r by lia. f_equal. lia.
  - rewrite shr_1_m by assumption. reflexivity.
Qed.

Lemma shr_record_of_loc_m m l : shr_m (shr_record_of_loc m l) = m.
Proof. destruct l as [|[]]; reflexivity. Qed.

Lemma shr_fexp_exponent m e l :
  emin prec emax <= snd (shr_fexp prec emax m e l).
Proof.
  unfold shr_fexp, shr, fexp, emin, prec, emax.
  destruct (Z.max (Zdigits2 m + e - 53) (3 - 1024 - 53) - e) eqn:E; simpl; lia.
Qed.

Lemma shr_fexp_positive m e l :
  0 < m -> emin prec emax <= e ->
  0 < shr_m (fst (shr_fexp prec emax m e l)).
Proof.
  intros Hm He. unfold shr_fexp, shr.
  destruct (fexp prec emax (Zdigits2 m + e) - e) as [|n|n] eqn:E; simpl;
    rewrite ?shr_record_of_loc_m; try assumption.
  rewrite iter_shr_1_m by (rewrite shr_record_of_loc_m; lia).
  rewrite shr_record_of_loc_m.
  destruct m as [|p|p]; try lia. simpl Zdigits2 in E.
  pose proof (digits2_pos_lower p) as Hd.
  unfold fexp, emin, prec, emax in *.
  assert (Hn : Zpos n <= Zpos (digits2_pos p) - 1) by lia.
  apply Z.div_str_pos. split; [apply Z.pow_pos_nonneg; lia|].
  apply Z.le_trans with (2 ^ (Zpos (digits2_pos p) - 1)); [|assumption].
  apply Z.pow_le_mono_r; lia.
Qed.

Lemma round_nearest_even_ge m l : m <= round_nearest_even m l.
Proof. destruct l as [|[]]; simpl; try lia. destruct (Z.even m); lia. Qed.

Lemma binary_round_aux_emin_ok s m e l : emin_ok (binary_round_aux prec emax s m e l).
Proof.
  unfold binary_round_aux.
  destruct (shr_fexp prec emax m e l) as [mrs' e'].
  pose proof (shr_fexp_exponent
                (round_nearest_even (shr_m mrs') (loc_of_shr_record mrs')) e' loc_Exact) as H.
  destruct (shr_fexp prec emax _ e' loc_Exact) as [mrs'' e'']. simpl in H.
  destruct (shr_m mrs''); cbn [emin_ok]; auto.
  destruct (e'' <=? emax - prec); cbn [emin_ok]; auto.
Qed.

Lemma binary_round_aux_sign s m e l :
  0 < m -> emin prec emax <= e ->
  exists m' e', binary_round_aux prec emax s m e l = S754_finite s m' e'
             \/ binary_round_aux prec emax s m e l = S754_infinity s.
Proof.
  intros Hm He. unfold binary_round_aux.
  pose proof (shr_fexp_positive m e l Hm He) as H1.
  pose proof (shr_fexp_exponent m e l) as H1'.
  destruct (shr_fexp prec emax m e l) as [mrs' e']. simpl in H1, H1'.
  pose proof (round_nearest_even_ge (shr_m mrs') (loc_of_shr_record mrs')) as Hr.
  pose proof (shr_fexp_positive
                (round_nearest_even (shr_m mrs') (loc_of_shr_record mrs')) e' loc_Exact
                ltac:(lia) H1') as H2.
  destruct (shr_fexp prec emax _ e' loc_Exact) as [mrs'' e'']. simpl in H2.
  destruct (shr_m mrs'') as [|p|p]; try lia.
  exists p, e''. destruct (e'' <=? emax - prec); auto.
Qed.


Lemma binary_round_sign s m e :
  emin prec emax <= e ->
  exists m' e', binary_round prec emax s m e = S754_finite s m' e'
             \/ binary_round prec emax s m e = S754_infinity s.
Proof.
  intros He. unfold binary_round.
  destruct (shl_align m e (fexp prec emax (Zpos (digits2_pos m) + e))) as [mz ez] eqn:E.
  apply binary_round_aux_sign; [lia|].
  unfold shl_align, fexp, emin, prec, emax in *.
  destruct (Z.max (Zpos (digits2_pos m) + e - 53) (3 - 1024 - 53) - e);
    inversion E; subst; lia.
Qed.

Lemma binary_round_emin_ok s m e : emin_ok (binary_round prec emax s m e).
Proof.
  unfold binary_round.
  destruct (shl_align m e (fexp prec emax (Zpos (digits2_pos m) + e))) as [mz ez].
  apply binary_round_aux_emin_ok.
Qed.

Lemma binary_normalize_emin_ok m e sz : emin_ok (binary_normalize prec emax m e sz).
Proof. destruct m; simpl; auto using binary_round_emin_ok. Qed.

Lemma num_mul_emin_ok x y : emin_ok (num_mul x y).
Proof.
  destruct x, y; simpl; auto. apply binary_round_aux_emin_ok.
Qed.

Lemma num_add_emin_ok x y : emin_ok x -> emin_ok y -> emin_ok (num_add x y).
Proof.
  destruct x as [sx|sx| |sx mx ex], y as [sy|sy| |sy my ey]; simpl; auto;
    try (destruct sx, sy; simpl; auto; fail).
  intros _ _. apply binary_normalize_emin_ok.
Qed.

Lemma pos_iter_xO m d : Zpos (Pos.iter xO m d) = Zpos m * 2 ^ Zpos d.
Proof.
  induction d as [|d IH] using Pos.peano_ind.
  - simpl. lia.
  - rewrite Pos.iter_succ, Pos2Z.inj_xO, IH, Pos2Z.inj_succ, Z.pow_succ_r by lia. lia.
Qed.

Lemma shl_align_scaled m e e' :
  e' <= e -> Zpos (fst (shl_align m e e')) = Zpos m * 2 ^ (e - e').
Proof.
  intros H. unfold shl_align.
  destruct (e' - e) as [|d|d] eqn:E; simpl fst.
  - replace (e - e') with 0 by lia. lia.
  - lia.
  - rewrite pos_iter_xO. f_equal. f_equal. lia.
Qed.

Lemma sign_of_finite s m e : sign_of (S754_finite s m e) = if s then Lt else Gt.
Proof.
  unfold sign_of, num_gtb, num_ltb, num_compare, scaled, zero; cbn [mant expo].
  assert (H : 0 < 2 ^ (e - Z.min e 0)) by (apply Z.pow_pos_nonneg; lia).
  assert (H' : 0 < 2 ^ (e - Z.min 0 e)) by (apply Z.pow_pos_nonneg; lia).
  destruct s; cbn [cond_Zopp];
    destruct (Z.compare_spec (0 * 2 ^ (0 - Z.min 0 e)) (Zpos m * 2 ^ (e - Z.min 0 e)));
    destruct (Z.compare_spec (Zpos m * 2 ^ (e - Z.min e 0)) (0 * 2 ^ (0 - Z.min e 0)));
    destruct (Z.compare_spec (0 * 2 ^ (0 - Z.min 0 e)) (- Zpos m * 2 ^ (e - Z.min 0 e)));
    destruct (Z.compare_spec (- Zpos m * 2 ^ (e - Z.min e 0)) (0 * 2 ^ (0 - Z.min e 0)));
    try reflexivity; nia.
Qed.

Lemma num_sub_sign x y c :
  emin_ok x -> emin_ok y ->
  num_compare x y = Some c -> sign_of (num_sub x y) = c.
Proof.
  intros Hx Hy H.
  destruct x as [sx|sx| |sx mx ex], y as [sy|sy| |sy my ey];
    try discriminate H;
    try (repeat match goal with s : bool |- _ => destruct s end;
         simpl in H; inversion H; reflexivity).
  - (* 0 - finite *)
    cbn [num_sub SFsub]. rewrite sign_of_finite.
    unfold num_compare, scaled in H; cbn [mant expo] in H.
    assert (Hp : 0 < 2 ^ (ey - Z.min 0 ey)) by (apply Z.pow_pos_nonneg; lia).
    assert (E : c = (0 * 2 ^ (0 - Z.min 0 ey) ?= cond_Zopp sy (Zpos my) * 2 ^ (ey - Z.min 0 ey)))
      by congruence.
    rewrite E; clear E H.
    destruct sy; cbn [negb cond_Zopp]; symmetry;
      [apply Z.compare_gt_iff | apply Z.compare_lt_iff]; nia.
  - (* finite - 0 *)
    cbn [num_sub SFsub]. rewrite sign_of_finite.
    unfold num_compare, scaled in H; cbn [mant expo] in H.
    assert (Hp : 0 < 2 ^ (ex - Z.min ex 0)) by (apply Z.pow_pos_nonneg; lia).
    assert (E : c = (cond_Zopp sx (Zpos mx) * 2 ^ (ex - Z.min ex 0) ?= 0 * 2 ^ (0 - Z.min ex 0)))
      by congruence.
    rewrite E; clear E H.
    destruct sx; cbn [cond_Zopp]; symmetry;
      [apply Z.compare_lt_iff | apply Z.compare_gt_iff]; nia.
  - (* finite - finite *)
    cbn [emin_ok] in Hx, Hy.
    unfold num_compare, scaled in H; cbn [mant expo] in H.
    assert (E : c = (cond_Zopp sx (Zpos mx) * 2 ^ (ex - Z.min ex ey)
                     ?= cond_Zopp sy (Zpos my) * 2 ^ (ey - Z.min ex ey))) by congruence.
    rewrite E; clear E H.
    unfold num_sub; cbn [SFsub].
    assert (Ex : cond_Zopp sx (Zpos (fst (shl_align mx ex (Z.min ex ey))))
                 = cond_Zopp sx (Zpos mx) * 2 ^ (ex - Z.min ex ey)).
    { rewrite shl_align_scaled by lia. destruct sx; cbn [cond_Zopp]; ring. }
    assert (Ey : cond_Zopp sy (Zpos (fst (shl_align my ey (Z.min ex ey))))
                 = cond_Zopp sy (Zpos my) * 2 ^ (ey - Z.min ex ey)).
    { rewrite shl_align_scaled by lia. destruct sy; cbn [cond_Zopp]; ring. }
    rewrite Ex, Ey.
    set (a := cond_Zopp sx (Zpos mx) * 2 ^ (ex - Z.min ex ey)).
    set (b := cond_Zopp sy (Zpos my) * 2 ^ (ey - Z.min ex ey)).
    destruct (a - b) as [|p|p] eqn:D; cbn [binary_normalize].
    + symmetry. apply Z.compare_eq_iff. lia.
    + destruct (binary_round_sign false p (Z.min ex ey)) as (m' & e' & [R|R]);
        [lia| |]; rewrite R.
      * rewrite sign_of_finite. symmetry. apply Z.compare_gt_iff. lia.
      * symmetry. apply Z.compare_gt_iff. lia.
    + destruct (binary_round_sign true p (Z.min ex ey)) as (m' & e' & [R|R]);
        [lia| |]; rewrite R.
      * rewrite sign_of_finite. symmetry. apply Z.compare_lt_iff. lia.
      * symmetry. apply Z.compare_lt_iff. lia.
Qed.

Lemma num_compare_antisym x y :
  num_compare y x = option_map CompOpp (num_compare x y).
Proof.
  destruct (finite_like x) eqn:Fx, (finite_like y) eqn:Fy;
    try (order_by_cases2 x y; fail).
  rewrite (num_compare_fin x y (Z.min (expo x) (expo y))) by (auto; lia).
  rewrite (num_compare_fin y x (Z.min (expo x) (expo y))) by (auto; lia).
  simpl. f_equal. apply Z.compare_antisym.
Qed.

Lemma num_compare_some x y :
  is_nan x = false -> is_nan y = false -> exists c, num_compare x y = Some c.
Proof.
  destruct x, y; try discriminate; intros _ _; simpl; eauto.
Qed.

Lemma num_eqb_refl x : is_nan x = false -> num_eqb x x = true.
Proof.
  destruct x as [s|[]| |s m e]; try discriminate; intros _; try reflexivity.
  unfold num_eqb, num_compare. rewrite Z.compare_refl. reflexivity.
Qed.

Lemma sign_of_Gt v : num_gtb v zero = true <-> sign_of v = Gt.
Proof.
  unfold sign_of. destruct (num_gtb v zero); [tauto|].
  destruct (num_ltb v zero); split; discriminate.
Qed.

Lemma or_zero_not_nan a : is_nan (or_zero a) = false.
Proof. destruct a as [[]|]; reflexivity. Qed.

(** ** Numbers: results that are never NaN, and [Math.round] *)

Lemma shr_fexp_nonneg m e l : 0 <= m -> 0 <= shr_m (fst (shr_fexp prec emax m e l)).
Proof.
  intros Hm. unfold shr_fexp, shr.
  destruct (fexp prec emax (Zdigits2 m + e) - e) as [|n|n]; cbn [fst];
    rewrite ?shr_record_of_loc_m; try assumption.
  rewrite iter_shr_1_m by (rewrite shr_record_of_loc_m; assumption).
  rewrite shr_record_of_loc_m. apply Z.div_pos; [assumption|].
  apply Z.pow_pos_nonneg; lia.
Qed.

Lemma binary_round_aux_not_nan s m e l :
  0 <= m -> is_nan (binary_round_aux prec emax s m e l) = false.
Proof.
  intros Hm. unfold binary_round_aux.
  pose proof (shr_fexp_nonneg m e l Hm) as H1.
  destruct (shr_fexp prec emax m e l) as [mrs' e']. cbn [fst] in H1.
  pose proof (round_nearest_even_ge (shr_m mrs') (loc_of_shr_record mrs')) as Hr.
  pose proof (shr_fexp_nonneg
                (round_nearest_even (shr_m mrs') (loc_of_shr_record mrs')) e' loc_Exact
                ltac:(lia)) as H2.
  destruct (shr_fexp prec emax _ e' loc_Exact) as [mrs'' e'']. cbn [fst] in H2.
  destruct (shr_m mrs'') as [|p|p]; try lia; [reflexivity|].
  destruct (e'' <=? emax - prec); reflexivity.
Qed.




Lemma binary_normalize_not_nan m e sz :
  emin prec emax <= e -> is_nan (binary_normalize prec emax m e sz) = false.
Proof.
  intros He. destruct m as [|p|p]; cbn [binary_normalize]; [reflexivity| |].
  - destruct (binary_round_sign false p e He) as (m' & e' & [R|R]);
      rewrite R; reflexivity.
  - destruct (binary_round_sign true p e He) as (m' & e' & [R|R]);
      rewrite R; reflexivity.
Qed.

(** ** Numbers: the model against [SpecFloat]'s normal forms *)

Lemma digits2_pos_upper p : Zpos p < 2 ^ Zpos (digits2_pos p).
Proof.
  rewrite digits2_pos_size.
  pose proof (Pos.size_gt p) as H.
  apply Pos2Z.pos_lt_pos in H. rewrite Pos2Z.inj_pow in H. exact H.
Qed.

Lemma valid_finite_exponent s m e :
  valid_binary prec emax (S754_finite s m e) = true ->
  e = Z.max (Zpos (digits2_pos m) + e - 53) (-1074).
Proof.
  cbn [valid_binary]. unfold bounded, canonical_mantissa, fexp, emin, prec, emax.
  intros H. apply andb_true_iff in H. destruct H as [H _].
  apply Z.eqb_eq in H. lia.
Qed.

Lemma magnitude_lt m1 e1 m2 e2 :
  e1 = Z.max (Zpos (digits2_pos m1) + e1 - 53) (-1074) ->
  e2 = Z.max (Zpos (digits2_pos m2) + e2 - 53) (-1074) ->
  e1 < e2 ->
  Zpos m1 * 2 ^ (e1 - Z.min e1 e2) < Zpos m2 * 2 ^ (e2 - Z.min e1 e2).
Proof.
  intros V1 V2 H.
  replace (e1 - Z.min e1 e2) with 0 by lia.
  replace (e2 - Z.min e1 e2) with (Z.succ (e2 - e1 - 1)) by lia.
  rewrite Z.pow_0_r, Z.pow_succ_r by lia.
  assert (D2 : Zpos (digits2_pos m2) = 53) by lia.
  assert (D1 : Zpos (digits2_pos m1) <= 53) by lia.
  pose proof (digits2_pos_lower m2) as L2. rewrite D2 in L2.
  pose proof (digits2_pos_upper m1) as U1.
  assert (U1' : Zpos m1 < 2 ^ 53).
  { apply Z.lt_le_trans with (2 ^ Zpos (digits2_pos m1)); [assumption|].
    apply Z.pow_le_mono_r; lia. }
  assert (P : 1 <= 2 ^ (e2 - e1 - 1)) by (apply Z.lt_pred_le, Z.pow_pos_nonneg; lia).
  change (2 ^ (53 - 1)) with 4503599627370496 in L2.
  change (2 ^ 53) with 9007199254740992 in U1'.
  nia.
Qed.

Lemma magnitude_compare m1 e1 m2 e2 :
  valid_binary prec emax (S754_finite false m1 e1) = true ->
  valid_binary prec emax (S754_finite false m2 e2) = true ->
  (Zpos m1 * 2 ^ (e1 - Z.min e1 e2) ?= Zpos m2 * 2 ^ (e2 - Z.min e1 e2))
  = match e1 ?= e2 with
    | Lt => Lt
    | Gt => Gt
    | Eq => Pos.compare_cont Eq m1 m2
    end.
Proof.
  intros V1 V2.
  apply valid_finite_exponent in V1. apply valid_finite_exponent in V2.
  destruct (Z.compare_spec e1 e2) as [E|L|G].
  - subst e2. rewrite Z.min_id, Z.sub_diag, Z.pow_0_r, !Z.mul_1_r. reflexivity.
  - apply Z.compare_lt_iff. apply magnitude_lt; assumption.
  - apply Z.compare_gt_iff. rewrite (Z.min_comm e1 e2).
    apply magnitude_lt; assumption.
Qed.

(** On doubles in normal form the comparison is [SFcompare]. *)
Lemma num_compare_SFcompare x y :
  valid_binary prec emax x = true -> valid_binary prec emax y = true ->
  num_compare x y = SFcompare x y.
Proof.
  intros Vx Vy.
  destruct x as [sx|sx| |sx mx ex], y as [sy|sy| |sy my ey];
    try reflexivity; try (destruct sx, sy; reflexivity).
  - (* 0 and finite *)
    cbn [SFcompare]. unfold num_compare, scaled; cbn [mant expo]. f_equal.
    assert (P : 0 < 2 ^ (ey - Z.min 0 ey)) by (apply Z.pow_pos_nonneg; lia).
    destruct sy; cbn [cond_Zopp];
      [apply Z.compare_gt_iff | apply Z.compare_lt_iff]; nia.
  - (* finite and 0 *)
    cbn [SFcompare]. unfold num_compare, scaled; cbn [mant expo]. f_equal.
    assert (P : 0 < 2 ^ (ex - Z.min ex 0)) by (apply Z.pow_pos_nonneg; lia).
    destruct sx; cbn [cond_Zopp];
      [apply Z.compare_lt_iff | apply Z.compare_gt_iff]; nia.
  - (* finite and finite *)
    cbn [SFcompare]. unfold num_compare, scaled; cbn [mant expo]. f_equal.
    assert (Px : 0 < 2 ^ (ex - Z.min ex ey)) by (apply Z.pow_pos_nonneg; lia).
    assert (Py : 0 < 2 ^ (ey - Z.min ex ey)) by (apply Z.pow_pos_nonneg; lia).
    pose proof (magnitude_compare mx ex my ey Vx Vy) as M.
    destruct sx, sy; cbn [cond_Zopp].
    + rewrite !Z.mul_opp_l, Z.compare_opp, Z.compare_antisym, M.
      destruct (ex ?= ey); reflexivity.
    + apply Z.compare_lt_iff. nia.
    + apply Z.compare_gt_iff. nia.
    + exact M.
Qed.

Lemma digits2_pos_iter_xO p k :
  digits2_pos (Pos.iter xO p k) = (digits2_pos p + k)%positive.
Proof.
  induction k as [|k IH] using Pos.peano_ind.
  - cbn. lia.
  - rewrite Pos.iter_succ. cbn [digits2_pos]. rewrite IH. lia.
Qed.

Lemma binary_round_aux_exact s m e :
  Zpos (digits2_pos m) = 53 -> -1074 <= e <= 971 ->
  binary_round_aux prec emax s (Zpos m) e loc_Exact = S754_finite s m e.
Proof.
  intros D E.
  assert (S0 : fexp prec emax (Zdigits2 (Zpos m) + e) - e = 0).
  { cbn [Zdigits2]. unfold fexp, emin, prec, emax. lia. }
  unfold binary_round_aux, shr_fexp. rewrite S0. cbn [shr shr_record_of_loc].
  cbn [shr_m loc_of_shr_record round_nearest_even]. rewrite S0.
  cbn [shr shr_record_of_loc shr_m].
  unfold emax, prec. destruct (Z.leb_spec e (1024 - 53)); [reflexivity | lia].
Qed.

(** Integers below [2 ^ 53] are doubles: [of_Z n] is worth [n]. *)
Lemma of_Z_exact n :
  Z.abs n < 2 ^ 53 ->
  expo (of_Z n) <= 0 /\ mant (of_Z n) = n * 2 ^ (- expo (of_Z n)).
Proof.
  intros B. unfold of_Z.
  assert (G : forall s p, Zpos p < 2 ^ 53 ->
            expo (binary_round prec emax s p 0) <= 0 /\
            mant (binary_round prec emax s p 0)
            = cond_Zopp s (Zpos p) * 2 ^ (- expo (binary_round prec emax s p 0))).
  { intros s p Hp. unfold binary_round.
    pose proof (digits2_pos_lower p) as L.
    assert (D : Zpos (digits2_pos p) <= 53).
    { destruct (Z.le_gt_cases (Zpos (digits2_pos p)) 53) as [|G]; [assumption|].
      exfalso. assert (2 ^ 53 <= 2 ^ (Zpos (digits2_pos p) - 1))
        by (apply Z.pow_le_mono_r; lia). lia. }
    assert (F : fexp prec emax (Zpos (digits2_pos p) + 0) = Zpos (digits2_pos p) - 53)
      by (unfold fexp, emin, prec, emax; lia).
    rewrite F. unfold shl_align.
    destruct (Zpos (digits2_pos p) - 53 - 0) as [|k|k] eqn:K; try lia.
    - rewrite binary_round_aux_exact by lia. cbn [expo mant].
      split; [lia|]. rewrite Z.pow_0_r. lia.
    - rewrite binary_round_aux_exact
        by (rewrite ?digits2_pos_iter_xO, ?Pos2Z.inj_add; lia).
      cbn [expo mant]. split; [lia|].
      rewrite pos_iter_xO.
      replace (- (Zpos (digits2_pos p) - 53)) with (Zpos k) by lia.
      destruct s; cbn [cond_Zopp]; ring. }
  destruct n as [|p|p]; cbn [binary_normalize].
  - cbn. lia.
  - apply (G false p). lia.
  - apply (G true p). lia.
Qed.

(** ** [Array.prototype.sort] with a comparator that follows a key *)
Section SortFacts.
Context {A : Type}.
Variable comparefn : A -> A -> number.
Variable key : A -> number.
Variable good : A -> Prop.

(** The comparator orders by descending key: its sign is the comparison of
    the second key with the first. *)
Hypothesis comparefn_sign : forall a b,
  good a -> good b ->
  exists c, num_compare (key b) (key a) = Some c /\ sign_of (comparefn a b) = c.


Lemma comparefn_after a b :
  good a -> good b ->
  num_gtb (comparefn a b) zero = true -> num_ltb (key a) (key b) = true.
Proof.
  intros Ga Gb H. destruct (comparefn_sign a b Ga Gb) as (c & Hc & Hs).
  apply sign_of_Gt in H. rewrite H in Hs. subst c.
  unfold num_ltb. rewrite num_compare_antisym, Hc. reflexivity.
Qed.

Lemma comparefn_before a b :
  good a -> good b ->
  num_gtb (comparefn a b) zero = false -> JsArray.key_desc key a b.
Proof.
  intros Ga Gb H. destruct (comparefn_sign a b Ga Gb) as (c & Hc & Hs).
  unfold JsArray.key_desc, num_geb, num_leb. rewrite Hc.
  destruct c; try reflexivity.
  apply sign_of_Gt in Hs. congruence.
Qed.

Lemma insert_perm x l : Permutation (x :: l) (JsArray.insert comparefn x l).
Proof.
  induction l as [|y l IH]; simpl; [reflexivity|].
  destruct (num_gtb (comparefn x y) zero); [|reflexivity].
  rewrite perm_swap. apply perm_skip, IH.
Qed.

Lemma sort_perm l : Permutation l (JsArray.sort comparefn l).
Proof.
  induction l as [|x l IH]; simpl; [reflexivity|].
  rewrite <- insert_perm. apply perm_skip, IH.
Qed.

Lemma sort_good l : Forall good l -> Forall good (JsArray.sort comparefn l).
Proof.
  intros H. rewrite Forall_forall in *. intros x Hx. apply H.
  apply Permutation_in with (JsArray.sort comparefn l); [|assumption].
  symmetry. apply sort_perm.
Qed.

Lemma insert_sorted x l :
  good x -> Forall good l ->
  StronglySorted (JsArray.key_desc key) l ->
  StronglySorted (JsArray.key_desc key) (JsArray.insert comparefn x l).
Proof.
  intros Gx Gl Hs. induction Hs as [|y l Hs IH Hy]; simpl.
  - repeat constructor.
  - inversion Gl as [|? ? Gy Gl']; subst.
    destruct (num_gtb (comparefn x y) zero) eqn:E.
    + constructor; [apply IH; assumption|].
      rewrite Forall_forall. intros z Hz.
      apply Permutation_in with (l' := x :: l) in Hz;
        [|symmetry; apply insert_perm].
      destruct Hz as [<-|Hz].
      * apply num_ltb_leb, comparefn_after; assumption.
      * rewrite Forall_forall in Hy. apply Hy, Hz.
    + pose proof (comparefn_before x y Gx Gy E) as Hxy.
      constructor; [constructor; assumption|].
      constructor; [assumption|].
      rewrite Forall_forall in *. intros z Hz.
      unfold JsArray.key_desc, num_geb in *.
      apply num_leb_trans with (key y); [apply Hy, Hz|assumption].
Qed.

Lemma sort_sorted l :
  Forall good l -> StronglySorted (JsArray.key_desc key) (JsArray.sort comparefn l).
Proof.
  induction l as [|x l IH]; intros Gl; simpl; [constructor|].
  inversion Gl; subst.
  apply insert_sorted; auto using sort_good.
Qed.

Lemma insert_stable v x l :
  good x -> Forall good l ->
  filter (JsArray.key_is key v) (JsArray.insert comparefn x l)
  = filter (JsArray.key_is key v) (x :: l).
Proof.
  intros Gx Gl. induction l as [|y l IH]; [reflexivity|].
  inversion Gl as [|? ? Gy Gl']; subst.
  cbn [JsArray.insert].
  destruct (num_gtb (comparefn x y) zero) eqn:E; [|reflexivity].
  apply comparefn_after in E; try assumption.
  cbn [filter]. rewrite (IH Gl'). cbn [filter].
  destruct (JsArray.key_is key v x) eqn:Ex, (JsArray.key_is key v y) eqn:Ey; try reflexivity.
  unfold JsArray.key_is in Ex, Ey.
  rewrite (num_eqb_not_ltb _ _ _ Ex Ey) in E. discriminate.
Qed.

Lemma sort_stable v l :
  Forall good l ->
  filter (JsArray.key_is key v) (JsArray.sort comparefn l)
  = filter (JsArray.key_is key v) l.
Proof.
  induction l as [|x l IH]; intros Gl; [reflexivity|].
  inversion Gl; subst. cbn [JsArray.sort fold_right].
  change (fold_right (JsArray.insert comparefn) [] l) with (JsArray.sort comparefn l).
  rewrite insert_stable by auto using sort_good.
  cbn [filter]. rewrite IH by assumption. reflexivity.
Qed.

End SortFacts.

Lemma num_leb_antisym x y :
  num_leb x y = true -> num_leb y x = true -> num_eqb x y = true.
Proof.
  unfold num_leb, num_eqb. rewrite (num_compare_antisym x y).
  destruct (num_compare x y) as [[]|]; simpl; congruence.
Qed.

(** A descending arrangement that keeps equal keys in their given order is
    unique: the order of the output is determined by the scored input. *)
Section StableUnique.
Context {A : Type}.
Variable key : A -> number.

Lemma stable_sorted_unique (l1 l2 : list A) :
  Forall (fun a => is_nan (key a) = false) l1 ->
  Forall (fun a => is_nan (key a) = false) l2 ->
  StronglySorted (JsArray.key_desc key) l1 ->
  StronglySorted (JsArray.key_desc key) l2 ->
  (forall v, filter (JsArray.key_is key v) l1
             = filter (JsArray.key_is key v) l2) ->
  l1 = l2.
Proof.
  revert l2. induction l1 as [|a l1 IH]; intros l2 N1 N2 S1 S2 H.
  - destruct l2 as [|b l2]; [reflexivity|].
    inversion N2 as [|? ? Nb _]; subst.
    specialize (H (key b)). cbn [filter] in H.
    unfold JsArray.key_is at 1 in H.
    rewrite num_eqb_refl in H by assumption. discriminate.
  - inversion N1 as [|? ? Na N1']; subst.
    assert (Ha : JsArray.key_is key (key a) a = true)
      by (apply num_eqb_refl; assumption).
    destruct l2 as [|b l2].
    { specialize (H (key a)). cbn [filter] in H. rewrite Ha in H. discriminate. }
    inversion N2 as [|? ? Nb N2']; subst.
    inversion S1 as [|? ? S1' F1]; subst.
    inversion S2 as [|? ? S2' F2]; subst.
    assert (Hb : JsArray.key_is key (key b) b = true)
      by (apply num_eqb_refl; assumption).
    assert (Ia : In a (b :: l2)).
    { pose proof (H (key a)) as E. cbn [filter] in E. rewrite Ha in E.
      assert (I : In a (a :: filter (JsArray.key_is key (key a)) l1)) by (left; reflexivity).
      rewrite E in I.
      change (In a (filter (JsArray.key_is key (key a)) (b :: l2))) in I.
      apply filter_In in I. tauto. }
    assert (Ib : In b (a :: l1)).
    { pose proof (H (key b)) as E. cbn [filter] in E. rewrite Hb in E.
      assert (I : In b (b :: filter (JsArray.key_is key (key b)) l2)) by (left; reflexivity).
      rewrite <- E in I.
      change (In b (filter (JsArray.key_is key (key b)) (a :: l1))) in I.
      apply filter_In in I. tauto. }
    assert (Eab : JsArray.key_is key (key a) b = true).
    { destruct Ia as [->|Ia]; [assumption|].
      destruct Ib as [<-|Ib]; [assumption|].
      rewrite Forall_forall in F1, F2.
      unfold JsArray.key_is. apply num_leb_antisym; [apply F1, Ib | apply F2, Ia]. }
    assert (a = b).
    { pose proof (H (key a)) as E. cbn [filter] in E. rewrite Ha, Eab in E.
      congruence. }
    subst b. f_equal. apply IH; try assumption.
    intros v. specialize (H v). cbn [filter] in H.
    destruct (JsArray.key_is key v a); congruence.
Qed.

End StableUnique.

(** ** The mock search results *)
Section MockFacts.
Import MockProducts.

Lemma decimal_6_10_emin_ok : emin_ok (decimal 6 10).
Proof. vm_compute. discriminate. Qed.

Lemma random_similarity_emin_ok g : emin_ok (fst (random_similarity g)).
Proof.
  unfold random_similarity, Math_random. cbn [fst].
  apply num_add_emin_ok; [apply num_mul_emin_ok | apply decimal_6_10_emin_ok].
Qed.

Lemma or_zero_emin_ok s : emin_ok s -> emin_ok (or_zero (Some s)).
Proof. cbn [or_zero]. destruct (truthy s); [auto | intros _; exact I]. Qed.

Lemma by_similarity_desc_sign a b :
  sortable a -> sortable b ->
  exists c, num_compare (similarity_or_0 b) (similarity_or_0 a) = Some c
            /\ sign_of (by_similarity_desc a b) = c.
Proof.
  intros Ga Gb.
  destruct (num_compare_some (similarity_or_0 b) (similarity_or_0 a))
    as [c Hc]; try apply or_zero_not_nan.
  exists c. split; [assumption|].
  apply num_sub_sign; assumption.
Qed.

Lemma scored_ids l : forall g,
  map id (fst (JsArray.map_random score l g)) = map id l.
Proof.
  induction l as [|p l IH]; intros g; [reflexivity|].
  cbn [JsArray.map_random]. unfold score at 1.
  destruct (random_similarity g) as [s g1].
  specialize (IH g1). destruct (JsArray.map_random score l g1) as [ys g2].
  cbn [fst map] in *. rewrite IH. reflexivity.
Qed.

Lemma scored_sortable l : forall g,
  Forall sortable (fst (JsArray.map_random score l g)).
Proof.
  induction l as [|p l IH]; intros g; [constructor|].
  cbn [JsArray.map_random]. unfold score at 1.
  pose proof (random_similarity_emin_ok g) as Hs.
  destruct (random_similarity g) as [s g1].
  specialize (IH g1). destruct (JsArray.map_random score l g1) as [ys g2].
  cbn [fst] in *. constructor; [|assumption].
  unfold sortable, similarity_or_0. cbn [similarity with_similarity].
  apply or_zero_emin_ok, Hs.
Qed.

Lemma scored_generator l : forall g,
  snd (JsArray.map_random score l g)
  = {| draws := draws g; cursor := (cursor g + List.length l)%nat |}.
Proof.
  induction l as [|p l IH]; intros g.
  - destruct g as [d c]. cbn. f_equal. lia.
  - cbn [JsArray.map_random]. unfold score at 1, random_similarity at 1, Math_random.
    specialize (IH {| draws := draws g; cursor := S (cursor g) |}).
    destruct (JsArray.map_random score l _) as [ys g2].
    cbn [snd] in *. rewrite IH. cbn. f_equal. lia.
Qed.

Lemma scored_same_draws l : forall g1 g2,
  (forall i, (i < List.length l)%nat ->
             draws g1 (cursor g1 + i)%nat = draws g2 (cursor g2 + i)%nat) ->
  fst (JsArray.map_random score l g1) = fst (JsArray.map_random score l g2).
Proof.
  induction l as [|p l IH]; intros g1 g2 H; [reflexivity|].
  cbn [JsArray.map_random]. unfold score at 1 3, random_similarity, Math_random.
  pose proof (H 0%nat ltac:(simpl; lia)) as H0. rewrite !Nat.add_0_r in H0.
  specialize (IH {| draws := draws g1; cursor := S (cursor g1) |}
                 {| draws := draws g2; cursor := S (cursor g2) |}).
  destruct (JsArray.map_random score l {| draws := draws g1; cursor := S (cursor g1) |})
    as [ys1 h1].
  destruct (JsArray.map_random score l {| draws := draws g2; cursor := S (cursor g2) |})
    as [ys2 h2].
  cbn [fst] in *. rewrite H0. f_equal. apply IH.
  intros i Hi. cbn [draws cursor].
  specialize (H (S i) ltac:(simpl; lia)).
  rewrite !Nat.add_succ_r in H. exact H.
Qed.

Lemma random_similarity_not_nan g :
  is_nan (draws g (cursor g)) = false ->
  is_nan (fst (random_similarity g)) = false.
Proof.
  unfold random_similarity, Math_random. cbn [fst]. intros Hr.
  change (decimal 4 10) with (S754_finite false 7205759403792794 (-54)).
  change (decimal 6 10) with (S754_finite false 5404319552844595 (-53)).
  destruct (draws g (cursor g)) as [s|s| |s m e]; try discriminate Hr.
  - destruct s; reflexivity.
  - destruct s; reflexivity.
  - pose proof (binary_round_aux_emin_ok (xorb s false)
                  (Zpos (m * 7205759403792794)) (e + -54) loc_Exact) as Hok.
    pose proof (binary_round_aux_not_nan (xorb s false)
                  (Zpos (m * 7205759403792794)) (e + -54) loc_Exact ltac:(lia)) as Hnn.
    cbn [num_mul SFmul].
    destruct (binary_round_aux prec emax (xorb s false)
                (Zpos (m * 7205759403792794)) (e + -54) loc_Exact)
      as [s'|s'| |s' m' e']; try discriminate Hnn; try reflexivity.
    cbn [num_add SFadd]. cbn [emin_ok] in Hok.
    apply binary_normalize_not_nan.
    unfold emin, prec, emax in *. lia.
Qed.

Lemma unit_interval_not_nan g i : unit_interval g -> is_nan (draws g i) = false.
Proof.
  intros H. destruct (H i) as [H0 _].
  destruct (draws g i); try reflexivity. discriminate H0.
Qed.

Lemma scored_numbers l : forall g,
  unit_interval g ->
  Forall scored_number (fst (JsArray.map_random score l g)).
Proof.
  induction l as [|p l IH]; intros g Hg; [constructor|].
  cbn [JsArray.map_random]. unfold score at 1.
  pose proof (random_similarity_not_nan g (unit_interval_not_nan g _ Hg)) as Hs.
  assert (Hg1 : unit_interval (snd (random_similarity g))) by exact Hg.
  destruct (random_similarity g) as [s g1]. cbn [fst snd] in *.
  specialize (IH g1 Hg1). destruct (JsArray.map_random score l g1) as [ys g2].
  cbn [fst] in *. constructor; [|assumption].
  exists s. split; [reflexivity | assumption].
Qed.

Lemma or_zero_compare_l x y :
  is_nan x = false -> num_compare (or_zero (Some x)) y = num_compare x y.
Proof.
  destruct x as [s|s| |s m e]; try discriminate; intros _; reflexivity.
Qed.

Lemma or_zero_compare_r x y :
  is_nan y = false -> num_compare x (or_zero (Some y)) = num_compare x y.
Proof.
  intros Hy. rewrite (num_compare_antisym (or_zero (Some y)) x).
  rewrite or_zero_compare_l by assumption.
  rewrite <- num_compare_antisym. reflexivity.
Qed.

Lemma similarity_desc_geb a b :
  scored_number a -> scored_number b ->
  similarity_desc a b -> similarity_geb a b = true.
Proof.
  intros (x & Hx & Nx) (y & Hy & Ny).
  unfold similarity_desc, similarity_geb, similarity_or_0, num_geb, num_leb.
  rewrite Hx, Hy, or_zero_compare_l, or_zero_compare_r by assumption.
  auto.
Qed.

Lemma StronglySorted_weaken {A : Type} (P : A -> Prop) (R R' : A -> A -> Prop) l :
  (forall a b, P a -> P b -> R a b -> R' a b) ->
  Forall P l -> StronglySorted R l -> StronglySorted R' l.
Proof.
  intros HR HP HS. induction HS as [|a l HS IH Ha]; [constructor|].
  inversion HP as [|? ? Pa Pl]; subst.
  constructor; [apply IH, Pl|].
  rewrite Forall_forall in *. intros b Hb. apply HR; auto.
Qed.

End MockFacts.

(** C2. Whatever the query and whatever [Math.random] draws, the list
    [generateMockSearchResults] returns is the scored catalog rearranged:
    it is ordered descending by similarity score (by [similarity || 0] as the
    comparator reads it, and by [similarity] itself for the draws
    [Math.random] can make), results with equal scores keep their catalog
    order, and it is the only arrangement of the scored catalog with these
    properties, so the order is determined by the scored input. *)
Theorem generateMockSearchResults_sorted_stable
    (uploadedImage : option string) (g : Rng) :
  let out := fst (MockProducts.generateMockSearchResults uploadedImage g) in
  let scored := fst (MockProducts.scored_catalog g) in
  map id scored = map id MockProducts.mockProducts /\
  Permutation scored out /\
  StronglySorted MockProducts.similarity_desc out /\
  (unit_interval g ->
   StronglySorted (fun a b => MockProducts.similarity_geb a b = true) out) /\
  (forall v, MockProducts.with_score v out = MockProducts.with_score v scored) /\
  (forall l,
     StronglySorted MockProducts.similarity_desc l ->
     (forall v, MockProducts.with_score v l = MockProducts.with_score v scored) ->
     l = out).
Proof.
  cbv zeta.
  unfold MockProducts.generateMockSearchResults, MockProducts.scored_catalog.
  pose proof (scored_ids MockProducts.mockProducts g) as Hids.
  pose proof (scored_sortable MockProducts.mockProducts g) as Hgood.
  pose proof (scored_numbers MockProducts.mockProducts g) as Hnum.
  destruct (JsArray.map_random MockProducts.score MockProducts.mockProducts g)
    as [scored g'].
  cbn [fst] in *.
  pose proof (sort_perm MockProducts.by_similarity_desc scored) as Hperm.
  assert (Hsorted : StronglySorted MockProducts.similarity_desc
                      (JsArray.sort MockProducts.by_similarity_desc scored)).
  { apply (sort_sorted _ MockProducts.similarity_or_0 MockProducts.sortable
             by_similarity_desc_sign scored Hgood). }
  assert (Hstable : forall v,
             MockProducts.with_score v
               (JsArray.sort MockProducts.by_similarity_desc scored)
             = MockProducts.with_score v scored).
  { intros v.
    apply (sort_stable _ MockProducts.similarity_or_0 MockProducts.sortable
             by_similarity_desc_sign v scored Hgood). }
  split; [exact Hids|]. split; [exact Hperm|]. split; [exact Hsorted|].
  split; [|split; [exact Hstable|]].
  - intros Hg.
    apply (StronglySorted_weaken MockProducts.scored_number
             MockProducts.similarity_desc); [|
      | exact Hsorted].
    + intros a b. apply similarity_desc_geb.
    + apply Forall_forall. intros p Hp.
      pose proof (Hnum Hg) as Hall. rewrite Forall_forall in Hall.
      apply Hall. apply Permutation_in with (2 := Hp). symmetry. exact Hperm.
  - intros l Sl Hl.
    apply (stable_sorted_unique MockProducts.similarity_or_0); try assumption.
    + apply Forall_forall. intros p _. apply or_zero_not_nan.
    + apply Forall_forall. intros p _. apply or_zero_not_nan.
    + intros v. change (MockProducts.with_score v l
                        = MockProducts.with_score v
                            (JsArray.sort MockProducts.by_similarity_desc scored)).
      rewrite Hstable. apply Hl.
Qed.

(** C5, as stated, fails: with the same catalog and the same query image, a
    second invocation reads the generator where the first left it and returns
    another order and other scores. *)
Lemma generateMockSearchResults_two_runs_differ :
  let first :=
    MockProducts.generateMockSearchResults Samples.query_image
      Samples.rising_then_falling in
  let second :=
    MockProducts.generateMockSearchResults Samples.query_image (snd first) in
  map id (fst first) <> map id (fst second) /\
  map similarity (fst first) <> map similarity (fst second).
Proof.
  vm_compute. split; intros E; discriminate E.
Qed.

(** C5, amended. Each invocation returns every catalog product once and moves
    the generator eight draws ahead; two invocations return the same order
    and the same scores whenever they read the same eight draws, whatever
    the query images. *)
Theorem generateMockSearchResults_same_draws
    (image1 image2 : option string) (g1 g2 : Rng)
    (H : forall i, (i < 8)%nat ->
                   draws g1 (cursor g1 + i)%nat = draws g2 (cursor g2 + i)%nat) :
  fst (MockProducts.generateMockSearchResults image1 g1)
  = fst (MockProducts.generateMockSearchResults image2 g2) /\
  Permutation (map id (fst (MockProducts.generateMockSearchResults image1 g1)))
              (map id MockProducts.mockProducts) /\
  snd (MockProducts.generateMockSearchResults image1 g1)
  = {| draws := draws g1; cursor := (cursor g1 + 8)%nat |}.
Proof.
  unfold MockProducts.generateMockSearchResults, MockProducts.scored_catalog.
  pose proof (scored_same_draws MockProducts.mockProducts g1 g2 H) as Hsame.
  pose proof (scored_ids MockProducts.mockProducts g1) as Hids.
  pose proof (scored_generator MockProducts.mockProducts g1) as Hgen.
  destruct (JsArray.map_random MockProducts.score MockProducts.mockProducts g1)
    as [scored1 h1].
  destruct (JsArray.map_random MockProducts.score MockProducts.mockProducts g2)
    as [scored2 h2].
  cbn [fst snd] in *. subst scored2. repeat split.
  - rewrite <- Hids. apply Permutation_map. symmetry. apply sort_perm.
  - exact Hgen.
Qed.

Lemma generateMockSearchResults_same_draws_witness :
  fst (MockProducts.generateMockSearchResults Samples.query_image
         Samples.rising_then_falling)
  = fst (MockProducts.generateMockSearchResults None Samples.rising_then_zero).
Proof.
  refine (proj1 (generateMockSearchResults_same_draws
                   Samples.query_image None
                   Samples.rising_then_falling Samples.rising_then_zero _)).
  intros i Hi. simpl.
  destruct (Nat.ltb_spec i 8); [reflexivity | lia].
Defined.

(** ** Filtering the results *)

Lemma filter_filter_implied {A : Type} (f g : A -> bool) (l : list A) :
  (forall a, f a = true -> g a = true) ->
  filter f (filter g l) = filter f l.
Proof.
  intros H. induction l as [|a l IH]; [reflexivity|].
  cbn [filter]. destruct (g a) eqn:G.
  - cbn [filter]. rewrite IH. reflexivity.
  - destruct (f a) eqn:F; [|assumption].
    apply H in F. congruence.
Qed.

Lemma meetsThreshold_lower t1 t2 p :
  num_ltb t1 t2 = true ->
  ProductMatcher.meetsThreshold t2 p = true ->
  ProductMatcher.meetsThreshold t1 p = true.
Proof.
  unfold ProductMatcher.meetsThreshold, num_geb. intros H12 H2.
  apply num_leb_trans with t2; [apply num_ltb_leb|]; assumption.
Qed.

(** C1, as stated, fails in both directions: a result whose similarity
    reaches the threshold is discarded when its category is not selected, and
    a result whose similarity is below the threshold is kept when its
    similarity percentage reaches it. *)
Lemma filteredResults_not_by_similarity_alone :
  (ProductMatcher.similarity_at_least (decimal 5 10) Samples.bag = true /\
   ~ In Samples.bag
        (ProductMatcher.filteredResults [Samples.bag] (decimal 5 10) ["Shoes"%string]))
  /\
  (ProductMatcher.similarity_at_least (of_Z 50) Samples.bag_with_percentage = false /\
   In Samples.bag_with_percentage
      (ProductMatcher.filteredResults [Samples.bag_with_percentage] (of_Z 50) [])).
Proof.
  split; split.
  - reflexivity.
  - vm_compute. intros [].
  - reflexivity.
  - vm_compute. left. reflexivity.
Qed.

(** C1, amended. The filtered list contains precisely the results whose
    shown similarity ([similarity_percentage || similarity || 0]) is at least
    the threshold and whose category is selected; for thresholds [t1 < t2]
    and the same results and categories, the list for [t2] is contained in
    the list for [t1], and is what filtering the latter at [t2] gives. *)
Theorem filteredResults_threshold
    (searchResults : list Product) (selected : list string) (t1 t2 : number)
    (H : num_ltb t1 t2 = true) :
  (forall t p,
     In p (ProductMatcher.filteredResults searchResults t selected) <->
     In p searchResults /\
     num_geb (ProductMatcher.shown_similarity p) t = true /\
     ProductMatcher.meetsCategory selected p = true) /\
  (forall p,
     In p (ProductMatcher.filteredResults searchResults t2 selected) ->
     In p (ProductMatcher.filteredResults searchResults t1 selected)) /\
  ProductMatcher.filteredResults
    (ProductMatcher.filteredResults searchResults t1 selected) t2 selected
  = ProductMatcher.filteredResults searchResults t2 selected.
Proof.
  unfold ProductMatcher.filteredResults. split; [|split].
  - intros t p. rewrite filter_In.
    unfold ProductMatcher.passes, ProductMatcher.meetsThreshold.
    rewrite andb_true_iff. tauto.
  - intros p Hp. apply filter_In in Hp. destruct Hp as [Hin Hp].
    apply filter_In. split; [assumption|].
    unfold ProductMatcher.passes in *. apply andb_true_iff in Hp.
    destruct Hp as [Ht Hc]. rewrite Hc, (meetsThreshold_lower t1 t2 p H Ht).
    reflexivity.
  - apply filter_filter_implied. intros p Hp.
    unfold ProductMatcher.passes in *. apply andb_true_iff in Hp.
    destruct Hp as [Ht Hc]. rewrite Hc, (meetsThreshold_lower t1 t2 p H Ht).
    reflexivity.
Qed.

Lemma filteredResults_threshold_witness :
  num_ltb (of_Z 50) (of_Z 75) = true /\
  ProductMatcher.filteredResults
    (ProductMatcher.filteredResults
       [Samples.bag; Samples.bag_with_percentage] (of_Z 50) []) (of_Z 75) []
  = ProductMatcher.filteredResults
      [Samples.bag; Samples.bag_with_percentage] (of_Z 75) [].
Proof.
  split; [reflexivity|].
  refine (proj2 (proj2 (filteredResults_threshold
                          [Samples.bag; Samples.bag_with_percentage] []
                          (of_Z 50) (of_Z 75) _))).
  reflexivity.
Defined.

(** ** The upload state machine *)

Lemma trim_truthy s :
  JsString.truthy (JsString.trim s) = true -> JsString.truthy s = true.
Proof. destruct s; [discriminate | reflexivity]. Qed.

Lemma sources_ok_same_sources m m' :
  ProductMatcher.uploadedImage m' = ProductMatcher.uploadedImage m ->
  ProductMatcher.uploadedFile m' = ProductMatcher.uploadedFile m ->
  ProductMatcher.imageUrl m' = ProductMatcher.imageUrl m ->
  App.sources_ok m -> App.sources_ok m'.
Proof. unfold App.sources_ok. intros -> -> ->. auto. Qed.

Lemma handleImageUpload_sources_ok image uuid m :
  App.well_formed image -> App.sources_ok (ProductMatcher.handleImageUpload image uuid m).
Proof.
  destruct image as [file|url]; intros W; unfold App.sources_ok; cbn.
  - split; [reflexivity|]. left. eauto.
  - split; [exact W|]. right. auto.
Qed.

Lemma handleImageUpload_exactly_one image uuid m :
  let m' := ProductMatcher.handleImageUpload image uuid m in
  (ProductMatcher.uploadedFile m' = None /\ ProductMatcher.imageUrl m' <> None)
  \/ (ProductMatcher.uploadedFile m' <> None /\ ProductMatcher.imageUrl m' = None).
Proof.
  destruct image as [file|url]; cbn; [right | left]; split; congruence.
Qed.

Lemma deliver_sources_ok effects uuid : forall m,
  Forall App.upload_well_formed effects -> App.sources_ok m ->
  App.sources_ok (App.deliver effects uuid m).
Proof.
  induction effects as [|e effects IH]; intros m W Hm; [assumption|].
  inversion W as [|? ? We W']; subst.
  destruct e as [t|image|url]; cbn [App.deliver]; auto.
  apply IH; [assumption|]. apply handleImageUpload_sources_ok, We.
Qed.

Lemma handleFiles_well_formed files uuid u :
  Forall App.upload_well_formed (snd (ImageUploader.handleFiles files uuid u)).
Proof.
  unfold ImageUploader.handleFiles. destruct files as [|file rest]; [constructor|].
  destruct (negb _); [repeat constructor|].
  destruct (_ <? _)%N; repeat constructor.
Qed.

Lemma handleDrop_well_formed files uuid u :
  Forall App.upload_well_formed (snd (ImageUploader.handleDrop files uuid u)).
Proof.
  unfold ImageUploader.handleDrop. destruct files; [constructor|].
  apply handleFiles_well_formed.
Qed.

Lemma handleUrlSubmit_well_formed URL_parses u :
  Forall App.upload_well_formed (snd (ImageUploader.handleUrlSubmit URL_parses u)).
Proof.
  unfold ImageUploader.handleUrlSubmit.
  destruct (JsString.truthy (JsString.trim (ImageUploader.urlInput u))) eqn:T;
    cbn [negb]; [|constructor].
  destruct (URL_parses _); repeat constructor.
  cbn. apply trim_truthy, T.
Qed.

Lemma clearPreview_well_formed u :
  Forall App.upload_well_formed (snd (ImageUploader.clearPreview u)).
Proof.
  unfold ImageUploader.clearPreview. cbn [snd].
  destruct (JsString.startsWith _ _); repeat constructor.
Qed.

Lemma handleSearch_same_sources searchProducts m :
  let m' := fst (ProductMatcher.handleSearch searchProducts m) in
  ProductMatcher.uploadedImage m' = ProductMatcher.uploadedImage m /\
  ProductMatcher.uploadedFile m' = ProductMatcher.uploadedFile m /\
  ProductMatcher.imageUrl m' = ProductMatcher.imageUrl m.
Proof.
  unfold ProductMatcher.handleSearch.
  destruct (ProductMatcher.string_falsy _); [cbn; auto|].
  destruct (searchProducts _ _ _ _); cbn; auto.
Qed.

Lemma reachable_sources_ok baseUrl URL_parses st :
  App.reachable baseUrl URL_parses st -> App.sources_ok (App.matcher st).
Proof.
  induction 1 as [|ev st R IH].
  - cbn. auto.
  - destruct ev; cbn [App.step App.from_uploader fst App.matcher]; try exact IH.
    + apply deliver_sources_ok; [apply handleFiles_well_formed | exact IH].
    + apply deliver_sources_ok; [apply handleDrop_well_formed | exact IH].
    + apply deliver_sources_ok; [apply handleUrlSubmit_well_formed | exact IH].
    + apply deliver_sources_ok; [apply clearPreview_well_formed | exact IH].
    + destruct (handleSearch_same_sources
                  (Api.searchSimilarProducts baseUrl fetch) (App.matcher st))
        as (E1 & E2 & E3).
      apply (sources_ok_same_sources (App.matcher st)); assumption.
    + unfold ProductMatcher.handleCategoryToggle.
      destruct (String.eqb _ _); exact IH.
Qed.

Lemma sources_ok_not_both m :
  App.sources_ok m ->
  ProductMatcher.uploadedFile m = None \/ ProductMatcher.imageUrl m = None.
Proof.
  unfold App.sources_ok. destruct (ProductMatcher.uploadedImage m); tauto.
Qed.

(** C3. In every state the page can reach, a search issued while neither an
    uploaded file nor an image URL is stored fails with the "No image
    selected" error toast, leaves the state as it is, and does not call
    [searchProducts]: whatever function stands for it, the number of calls
    made is 0, and the only effect of the click is the toast. *)
Theorem handleSearch_without_image
    (baseUrl : string) (URL_parses : string -> bool) (st : App.State)
    (R : App.reachable baseUrl URL_parses st)
    (Hfile : ProductMatcher.uploadedFile (App.matcher st) = None)
    (Hurl : ProductMatcher.imageUrl (App.matcher st) = None) :
  (forall searchProducts,
     ProductMatcher.handleSearch searchProducts (App.matcher st)
     = (App.matcher st, [ProductMatcher.ShowToast ProductMatcher.no_image_selected])) /\
  (forall searchProducts,
     List.length
       (filter ProductMatcher.is_search_call
          (snd (ProductMatcher.handleSearch searchProducts (App.matcher st))))
     = 0%nat) /\
  (forall fetch,
     App.step baseUrl URL_parses (App.SearchClicked fetch) st
     = (st, [App.FromMatcher
               (ProductMatcher.ShowToast ProductMatcher.no_image_selected)])) /\
  variant ProductMatcher.no_image_selected = Some VariantDestructive.
Proof.
  assert (Hnone : ProductMatcher.uploadedImage (App.matcher st) = None).
  { pose proof (reachable_sources_ok _ _ _ R) as Hok. unfold App.sources_ok in Hok.
    destruct (ProductMatcher.uploadedImage (App.matcher st)) as [shown|];
      [|reflexivity].
    destruct Hok as [_ [[[file Hf] _]|[_ Hu]]]; congruence. }
  assert (Hsearch : forall searchProducts,
             ProductMatcher.handleSearch searchProducts (App.matcher st)
             = (App.matcher st,
                [ProductMatcher.ShowToast ProductMatcher.no_image_selected])).
  { intros searchProducts. unfold ProductMatcher.handleSearch.
    rewrite Hnone. reflexivity. }
  split; [exact Hsearch|]. split; [|split; [|reflexivity]].
  - intros searchProducts. rewrite Hsearch. reflexivity.
  - intros fetch. cbn [App.step]. rewrite Hsearch.
    destruct st as [u m]. reflexivity.
Qed.

Lemma run_reachable baseUrl URL_parses events :
  App.reachable baseUrl URL_parses (App.run baseUrl URL_parses events).
Proof.
  unfold App.run.
  assert (G : forall st, App.reachable baseUrl URL_parses st ->
                         App.reachable baseUrl URL_parses
                           (fold_left (fun st ev => fst (App.step baseUrl URL_parses ev st))
                                      events st)).
  { induction events as [|ev events IH]; intros st R; [exact R|].
    cbn [fold_left]. apply IH. constructor. exact R. }
  apply G. constructor.
Qed.

Lemma handleSearch_without_image_witness :
  ProductMatcher.handleSearch
    (Api.searchSimilarProducts "http://localhost:8000" Samples.offline)
    (App.matcher (App.run "http://localhost:8000" Samples.parses_http
                          Samples.blank_url_submitted))
  = (App.matcher (App.run "http://localhost:8000" Samples.parses_http
                          Samples.blank_url_submitted),
     [ProductMatcher.ShowToast ProductMatcher.no_image_selected]).
Proof.
  refine (proj1 (handleSearch_without_image
                   "http://localhost:8000" Samples.parses_http
                   (App.run "http://localhost:8000" Samples.parses_http
                            Samples.blank_url_submitted)
                   (run_reachable _ _ _) _ _) _); reflexivity.
Defined.

(** C9. Every image-upload event leaves exactly one of the two request
    sources stored: a URL clears the stored file and a file clears the stored
    URL.  Hence in every state the page can reach at most one of
    [uploadedFile] and [imageUrl] is non-null, and a search issued there
    passes at most one of them to [searchProducts]. *)
Theorem upload_sources_exclusive
    (baseUrl : string) (URL_parses : string -> bool) (st : App.State)
    (R : App.reachable baseUrl URL_parses st) :
  (forall image uuid,
     let m' := ProductMatcher.handleImageUpload image uuid (App.matcher st) in
     (ProductMatcher.uploadedFile m' = None /\ ProductMatcher.imageUrl m' <> None)
     \/ (ProductMatcher.uploadedFile m' <> None /\ ProductMatcher.imageUrl m' = None)) /\
  (ProductMatcher.uploadedFile (App.matcher st) = None
   \/ ProductMatcher.imageUrl (App.matcher st) = None) /\
  (forall fetch file url topK threshold,
     In (App.FromMatcher (ProductMatcher.CallSearchProducts file url topK threshold))
        (snd (App.step baseUrl URL_parses (App.SearchClicked fetch) st)) ->
     file = None \/ url = None).
Proof.
  pose proof (sources_ok_not_both _ (reachable_sources_ok _ _ _ R)) as Hnot.
  split; [|split].
  - intros image uuid. apply handleImageUpload_exactly_one.
  - exact Hnot.
  - intros fetch file url topK threshold Hin.
    cbn [App.step snd] in Hin. apply in_map_iff in Hin.
    destruct Hin as (e & He & Hin). injection He as ->.
    unfold ProductMatcher.handleSearch in Hin.
    destruct (ProductMatcher.string_falsy _).
    + destruct Hin as [Hin|[]]. discriminate Hin.
    + assert (Hcall : file = ProductMatcher.uploadedFile (App.matcher st) /\
                      url = ProductMatcher.string_or_undefined
                              (ProductMatcher.imageUrl (App.matcher st))).
      { destruct (Api.searchSimilarProducts _ _ _ _ _ _);
          cbn [snd] in Hin;
          destruct Hin as [Hin|[Hin|[Hin|[]]]]; try discriminate Hin;
          injection Hin as <- <- _ _; auto. }
      destruct Hcall as [-> ->]. destruct Hnot as [->| ->]; auto.
Qed.

Lemma upload_sources_exclusive_witness :
  ProductMatcher.uploadedFile
    (App.matcher (App.run "http://localhost:8000" Samples.parses_http
                          Samples.file_url_file)) = None
  \/ ProductMatcher.imageUrl
       (App.matcher (App.run "http://localhost:8000" Samples.parses_http
                             Samples.file_url_file)) = None.
Proof.
  exact (proj1 (proj2 (upload_sources_exclusive
                         "http://localhost:8000" Samples.parses_http
                         (App.run "http://localhost:8000" Samples.parses_http
                                  Samples.file_url_file)
                         (run_reachable _ _ _)))).
Defined.

(** ** The search request *)

(** C4, as stated, fails: when a file and a URL are both supplied, the URL is
    not ignored; the form carries it next to the file, and the request posted
    is not the one posted for the file alone. *)
Lemma search_form_keeps_url :
  Api.get (Api.search_form (Some Samples.photo) (Some Samples.shoe_url) None None)
          "image_url"
  = Some (Api.FormString Samples.shoe_url) /\
  Api.search_form (Some Samples.photo) (Some Samples.shoe_url) None None
  <> Api.search_form (Some Samples.photo) None None None /\
  Api.searchSimilarProducts "http://localhost:8000" Scenarios.wants_file_only
    (Some Samples.photo) (Some Samples.shoe_url) None None
  <> Api.searchSimilarProducts "http://localhost:8000" Scenarios.wants_file_only
       (Some Samples.photo) None None None.
Proof.
  split; [reflexivity|]. split; vm_compute; intros E; discriminate E.
Qed.

(** C4, amended. The client applies no precedence.  Called with a file and a
    non-empty URL, [searchSimilarProducts] makes one request, a POST to
    [/api/search] whose form carries both, the file as [file] and the URL as
    [image_url], before [top_k] and [similarity_threshold]: the outcome of the
    call is the one this request's response determines.  [handleSearch]
    passes the stored file and the stored URL on as they are. *)
Theorem searchSimilarProducts_sends_both
    (baseUrl : string) (file : File) (url : string) (topK threshold : option number)
    (Hurl : JsString.truthy url = true) :
  let request :=
    {| Api.request_url := String.append baseUrl "/api/search";
       Api.request_method := "POST";
       Api.request_body :=
         [("file", Api.FormFile file); ("image_url", Api.FormString url);
          ("top_k",
           Api.FormNumber (match topK with Some k => k | None => of_Z 11 end));
          ("similarity_threshold",
           Api.FormNumber (match threshold with Some t => t | None => zero end))
         ]%string |} in
  (forall fetch,
     Api.searchSimilarProducts baseUrl fetch (Some file) (Some url) topK threshold
     = Api.searchSimilarProducts baseUrl (fun _ => fetch request)
         (Some file) (Some url) topK threshold) /\
  (forall fetch response,
     fetch request = Api.HttpOk (Api.JsonValue response) ->
     Api.searchSimilarProducts baseUrl fetch (Some file) (Some url) topK threshold
     = Api.Returned response) /\
  (forall fetch message,
     fetch request = Api.NetworkFailure message ->
     Api.searchSimilarProducts baseUrl fetch (Some file) (Some url) topK threshold
     = Api.ThrewError message) /\
  (forall searchProducts m,
     ProductMatcher.string_falsy (ProductMatcher.uploadedImage m) = false ->
     filter ProductMatcher.is_search_call
            (snd (ProductMatcher.handleSearch searchProducts m))
     = [ProductMatcher.CallSearchProducts
          (ProductMatcher.uploadedFile m)
          (ProductMatcher.string_or_undefined (ProductMatcher.imageUrl m))
          (Some (of_Z 11)) (Some zero)]).
Proof.
  cbv zeta.
  assert (F : Api.search_form (Some file) (Some url) topK threshold
              = [("file", Api.FormFile file); ("image_url", Api.FormString url);
                 ("top_k",
                  Api.FormNumber (match topK with Some k => k | None => of_Z 11 end));
                 ("similarity_threshold",
                  Api.FormNumber
                    (match threshold with Some t => t | None => zero end))]%string).
  { unfold Api.search_form. rewrite Hurl. reflexivity. }
  unfold Api.searchSimilarProducts. cbv zeta. rewrite F.
  split; [reflexivity|]. split; [|split].
  - intros fetch response E. rewrite E. reflexivity.
  - intros fetch message E. rewrite E. reflexivity.
  - intros searchProducts m Image.
    unfold ProductMatcher.handleSearch. rewrite Image.
    destruct (searchProducts _ _ _ _); reflexivity.
Qed.

Lemma searchSimilarProducts_sends_both_witness :
  JsString.truthy Samples.shoe_url = true /\
  Api.searchSimilarProducts "http://localhost:8000" Scenarios.wants_both
    (Some Samples.photo) (Some Samples.shoe_url) None None
  = Api.Returned Scenarios.two_bags /\
  filter ProductMatcher.is_search_call
         (snd (ProductMatcher.handleSearch
                 (Api.searchSimilarProducts "http://localhost:8000" Samples.offline)
                 (App.matcher (App.run "http://localhost:8000" Samples.parses_http
                                       Samples.file_url_file))))
  = [ProductMatcher.CallSearchProducts (Some Samples.photo) None
       (Some (of_Z 11)) (Some zero)].
Proof.
  split; [reflexivity|].
  pose proof (searchSimilarProducts_sends_both
                "http://localhost:8000" Samples.photo Samples.shoe_url None None
                eq_refl) as (_ & Answered & _ & Forwarded).
  split.
  - exact (Answered Scenarios.wants_both Scenarios.two_bags eq_refl).
  - exact (Forwarded
             (Api.searchSimilarProducts "http://localhost:8000" Samples.offline)
             (App.matcher (App.run "http://localhost:8000" Samples.parses_http
                                   Samples.file_url_file))
             eq_refl).
Defined.

(** C7. When the caller omits [topK] and [similarityThreshold], the request
    [searchSimilarProducts] makes is a POST to [/api/search] whose form
    carries, after the file and the URL if any, [top_k = 11] and
    [similarity_threshold = 0]: the outcome of the call is the one this
    request's response determines, and it is the outcome of the call made
    with [topK = 11] and [similarityThreshold = 0.0]. *)
Theorem searchSimilarProducts_defaults
    (baseUrl : string) (file : option File) (imageUrl : option string) :
  let sources :=
    (match file with
     | Some f => [("file"%string, Api.FormFile f)]
     | None => []
     end)
    ++ (match imageUrl with
        | Some u =>
            if JsString.truthy u then [("image_url"%string, Api.FormString u)]
            else []
        | None => []
        end) in
  let request :=
    {| Api.request_url := String.append baseUrl "/api/search";
       Api.request_method := "POST";
       Api.request_body :=
         sources ++ [("top_k", Api.FormNumber (of_Z 11));
                     ("similarity_threshold", Api.FormNumber zero)]%string |} in
  Api.get (Api.request_body request) "top_k" = Some (Api.FormNumber (of_Z 11)) /\
  Api.get (Api.request_body request) "similarity_threshold"
  = Some (Api.FormNumber zero) /\
  (forall fetch,
     Api.searchSimilarProducts baseUrl fetch file imageUrl None None
     = Api.searchSimilarProducts baseUrl (fun _ => fetch request)
         file imageUrl None None) /\
  (forall fetch response,
     fetch request = Api.HttpOk (Api.JsonValue response) ->
     Api.searchSimilarProducts baseUrl fetch file imageUrl None None
     = Api.Returned response) /\
  (forall fetch message,
     fetch request = Api.NetworkFailure message ->
     Api.searchSimilarProducts baseUrl fetch file imageUrl None None
     = Api.ThrewError message) /\
  (forall fetch,
     Api.searchSimilarProducts baseUrl fetch file imageUrl None None
     = Api.searchSimilarProducts baseUrl fetch file imageUrl
         (Some (of_Z 11)) (Some zero)).
Proof.
  cbv zeta.
  set (sources :=
         (match file with
          | Some f => [("file"%string, Api.FormFile f)]
          | None => []
          end)
         ++ (match imageUrl with
             | Some u =>
                 if JsString.truthy u then [("image_url"%string, Api.FormString u)]
                 else []
             | None => []
             end)).
  assert (F : Api.search_form file imageUrl None None
              = sources ++ [("top_k", Api.FormNumber (of_Z 11));
                            ("similarity_threshold", Api.FormNumber zero)]%string).
  { unfold Api.search_form, sources.
    destruct file as [f|], imageUrl as [u|];
      try destruct (JsString.truthy u); reflexivity. }
  cbn [Api.request_body].
  split; [|split].
  - unfold sources. destruct file as [f|], imageUrl as [u|];
      try destruct (JsString.truthy u); reflexivity.
  - unfold sources. destruct file as [f|], imageUrl as [u|];
      try destruct (JsString.truthy u); reflexivity.
  - unfold Api.searchSimilarProducts. cbv zeta. rewrite F.
    split; [reflexivity|]. split; [|split].
    + intros fetch response E. rewrite E. reflexivity.
    + intros fetch message E. rewrite E. reflexivity.
    + intros fetch. rewrite <- F. reflexivity.
Qed.

(** ** Accepting files *)

(** C6, as stated, fails: a GIF is none of the advertised formats, yet the
    uploader accepts it and hands it to [onImageUpload]. *)
Lemma handleFiles_accepts_gif :
  ImageUploader.advertised_format (file_type Samples.animation) = false /\
  snd (ImageUploader.handleFiles [Samples.animation] "4f0c" ImageUploader.initial)
  = [ImageUploader.OnImageUpload (ImageFile Samples.animation)].
Proof. split; reflexivity. Qed.

Lemma advertised_format_image mime :
  ImageUploader.advertised_format mime = true ->
  JsString.startsWith mime "image/" = true.
Proof.
  unfold ImageUploader.advertised_format, JsString.includes. cbn [existsb].
  rewrite !orb_true_iff, !String.eqb_eq.
  intros [->|[->|[->|[->|H]]]]; try reflexivity. discriminate H.
Qed.

(** C6, amended. A file whose content type does not start with [image/] is
    rejected with the "Invalid file type" error and never reaches the search
    state; a file whose type starts with [image/] is accepted when it is at
    most 10MB and rejected with "File too large" otherwise.  JPEG, PNG and
    WebP files are among the accepted types. *)
Theorem handleFiles_image_types
    (file : File) (rest : list File) (uuid : string) (u : ImageUploader.State) :
  (JsString.startsWith (file_type file) "image/" = false ->
   ImageUploader.handleFiles (file :: rest) uuid u
   = (u, [ImageUploader.ShowToast ImageUploader.invalid_file_type]) /\
   forall m uploadUuid,
     App.deliver (snd (ImageUploader.handleFiles (file :: rest) uuid u)) uploadUuid m
     = m) /\
  (JsString.startsWith (file_type file) "image/" = true ->
   (file_size file <= ImageUploader.max_size)%N ->
   ImageUploader.handleFiles (file :: rest) uuid u
   = (ImageUploader.setPreviewUrl (createObjectURL uuid) u,
      [ImageUploader.OnImageUpload (ImageFile file)])) /\
  (JsString.startsWith (file_type file) "image/" = true ->
   (ImageUploader.max_size < file_size file)%N ->
   ImageUploader.handleFiles (file :: rest) uuid u
   = (u, [ImageUploader.ShowToast ImageUploader.file_too_large])) /\
  (ImageUploader.advertised_format (file_type file) = true ->
   JsString.startsWith (file_type file) "image/" = true).
Proof.
  unfold ImageUploader.handleFiles. split; [|split; [|split]].
  - intros Htype. rewrite Htype. split; [reflexivity|].
    intros m uploadUuid. reflexivity.
  - intros Htype Hsize. rewrite Htype. cbn [negb].
    apply N.ltb_ge in Hsize. rewrite Hsize. reflexivity.
  - intros Htype Hsize. rewrite Htype. cbn [negb].
    apply N.ltb_lt in Hsize. rewrite Hsize. reflexivity.
  - apply advertised_format_image.
Qed.

Lemma handleFiles_image_types_witness :
  ImageUploader.handleFiles [Samples.photo] "4f0c" ImageUploader.initial
  = (ImageUploader.setPreviewUrl (createObjectURL "4f0c") ImageUploader.initial,
     [ImageUploader.OnImageUpload (ImageFile Samples.photo)]).
Proof.
  refine (proj1 (proj2 (handleFiles_image_types
                          Samples.photo [] "4f0c" ImageUploader.initial)) _ _).
  - reflexivity.
  - vm_compute. discriminate.
Defined.

(** ** The similarity badge *)




(** ** Image URLs *)

Lemma prefix_append p : forall a b,
  String.prefix p a = true -> String.prefix p (String.append a b) = true.
Proof.
  induction p as [|c p IH]; intros a b H;
    [destruct (String.append a b); reflexivity|].
  destruct a as [|c' a]; [discriminate H|].
  cbn [String.prefix String.append] in *.
  destruct (Ascii.ascii_dec c c'); [apply IH; assumption | discriminate H].
Qed.

(** C10. With a base URL that starts with "http", [getImageUrl] is
    idempotent: a path that starts with "http" is returned as it is, every
    other path is turned into one that does.  So each card, which applies
    [getImageUrl] to the path the matcher has already resolved, shows the
    path it was given. *)
Theorem getImageUrl_idempotent (baseUrl : string)
    (Hbase : JsString.startsWith baseUrl "http" = true) (imagePath : string) :
  Api.getImageUrl baseUrl (Api.getImageUrl baseUrl imagePath)
  = Api.getImageUrl baseUrl imagePath /\
  JsString.startsWith (Api.getImageUrl baseUrl imagePath) "http" = true /\
  (forall (st : ProductMatcher.State) (product : Product),
     In product (ProductMatcher.card_products baseUrl st) ->
     ProductCard.img_src baseUrl product = image_path product).
Proof.
  assert (Hhttp : forall p,
             JsString.startsWith (Api.getImageUrl baseUrl p) "http" = true).
  { intros p. unfold Api.getImageUrl.
    destruct (JsString.startsWith p "http") eqn:E; [exact E|].
    unfold JsString.startsWith in *. apply prefix_append, Hbase. }
  assert (Hidem : forall p,
             Api.getImageUrl baseUrl (Api.getImageUrl baseUrl p)
             = Api.getImageUrl baseUrl p).
  { intros p. unfold Api.getImageUrl at 1. rewrite Hhttp. reflexivity. }
  split; [apply Hidem|]. split; [apply Hhttp|].
  intros st product Hin. unfold ProductMatcher.card_products in Hin.
  apply in_map_iff in Hin. destruct Hin as (original & <- & _).
  unfold ProductCard.img_src. cbn [image_path with_image_path].
  apply Hidem.
Qed.

Lemma getImageUrl_idempotent_witness :
  JsString.startsWith "http://localhost:8000" "http" = true /\
  Api.getImageUrl "http://localhost:8000"
    (Api.getImageUrl "http://localhost:8000" "images/bag.jpg")
  = Api.getImageUrl "http://localhost:8000" "images/bag.jpg".
Proof.
  split; [reflexivity|].
  exact (proj1 (getImageUrl_idempotent "http://localhost:8000" eq_refl
                                       "images/bag.jpg")).
Defined.

(* ===================================================================== *)
(** * Part III: further properties of the components *)
(* ===================================================================== *)

(** ** The category selection *)

Lemma includes_In arr s : JsString.includes arr s = true <-> In s arr.
Proof.
  unfold JsString.includes. rewrite existsb_exists. split.
  - intros (x & I & E). apply String.eqb_eq in E. subst. exact I.
  - intros I. exists s. split; [exact I | apply String.eqb_refl].
Qed.

Lemma includes_not_In arr s : JsString.includes arr s = false <-> ~ In s arr.
Proof.
  rewrite <- includes_In. destruct (JsString.includes arr s); split; intros;
    congruence.
Qed.

Lemma In_without c x l :
  In x (filter (fun c' => negb (String.eqb c' c)) l) <-> In x l /\ x <> c.
Proof.
  rewrite filter_In. rewrite Bool.negb_true_iff, String.eqb_neq. tauto.
Qed.

Lemma without_absent c l :
  ~ In c l -> filter (fun c' => negb (String.eqb c' c)) l = l.
Proof.
  induction l as [|x l IH]; intros N; [reflexivity|]. cbn.
  destruct (String.eqb_spec x c) as [->|D]; cbn.
  - exfalso. apply N. left. reflexivity.
  - f_equal. apply IH. intros I. apply N. right. exact I.
Qed.

(** The selection is duplicate-free and never holds the pseudo-category. *)
Lemma handleCategoryToggle_selection c m :
  NoDup (ProductMatcher.selectedCategories m) ->
  ~ In "All"%string (ProductMatcher.selectedCategories m) ->
  NoDup (ProductMatcher.selectedCategories (ProductMatcher.handleCategoryToggle c m))
  /\ ~ In "All"%string
       (ProductMatcher.selectedCategories (ProductMatcher.handleCategoryToggle c m)).
Proof.
  intros D A. unfold ProductMatcher.handleCategoryToggle.
  destruct (String.eqb_spec c "All") as [->|NA]; cbn.
  - split; [constructor | tauto].
  - destruct (JsString.includes _ c) eqn:I; cbn.
    + split; [apply NoDup_filter, D|]. rewrite In_without. tauto.
    + apply includes_not_In in I. rewrite (without_absent "All") by exact A.
      split.
      * apply NoDup_incl_NoDup with (l := c :: ProductMatcher.selectedCategories m).
        -- constructor; assumption.
        -- rewrite length_app. cbn. lia.
        -- intros x Hx. apply in_or_app. cbn in *. tauto.
      * intros Hx. apply in_app_or in Hx. cbn in Hx.
        destruct Hx as [Hx|[Hx|[]]]; [tauto | congruence].
Qed.

Lemma deliver_filters effects uuid : forall m,
  ProductMatcher.selectedCategories (App.deliver effects uuid m)
  = ProductMatcher.selectedCategories m /\
  ProductMatcher.similarityThreshold (App.deliver effects uuid m)
  = ProductMatcher.similarityThreshold m /\
  ProductMatcher.searchResults (App.deliver effects uuid m)
  = ProductMatcher.searchResults m.
Proof.
  induction effects as [|e effects IH]; intros m; [auto|].
  destruct e as [t|image|url]; cbn [App.deliver]; auto.
  destruct (IH (ProductMatcher.handleImageUpload image uuid m)) as (E1 & E2 & E3).
  rewrite E1, E2, E3. destruct image; cbn; auto.
Qed.

Lemma handleSearch_filters searchProducts m :
  ProductMatcher.selectedCategories (fst (ProductMatcher.handleSearch searchProducts m))
  = ProductMatcher.selectedCategories m /\
  ProductMatcher.similarityThreshold (fst (ProductMatcher.handleSearch searchProducts m))
  = ProductMatcher.similarityThreshold m.
Proof.
  unfold ProductMatcher.handleSearch.
  destruct (ProductMatcher.string_falsy _); [cbn; auto|].
  destruct (searchProducts _ _ _ _); cbn; auto.
Qed.

Lemma reachable_selection baseUrl URL_parses st :
  App.reachable baseUrl URL_parses st ->
  NoDup (ProductMatcher.selectedCategories (App.matcher st)) /\
  ~ In "All"%string (ProductMatcher.selectedCategories (App.matcher st)).
Proof.
  induction 1 as [|ev st R IH].
  - cbn. split; [constructor | tauto].
  - destruct ev; cbn [App.step App.from_uploader fst App.matcher]; try exact IH;
      try (rewrite (proj1 (deliver_filters _ _ _)); exact IH).
    + rewrite (proj1 (handleSearch_filters _ _)). exact IH.
    + apply handleCategoryToggle_selection; tauto.
    + cbn. split; [constructor | tauto].
Qed.

Lemma includes_Permutation l l' s :
  Permutation l l' -> JsString.includes l s = JsString.includes l' s.
Proof.
  intros P. destruct (JsString.includes l' s) eqn:I.
  - apply includes_In. apply includes_In in I.
    apply Permutation_in with (l := l'); [symmetry; exact P | exact I].
  - apply includes_not_In. apply includes_not_In in I. intros J. apply I.
    apply Permutation_in with (l := l); assumption.
Qed.

Lemma meetsCategory_Permutation l l' product :
  Permutation l l' ->
  ProductMatcher.meetsCategory l product = ProductMatcher.meetsCategory l' product.
Proof.
  intros P. unfold ProductMatcher.meetsCategory.
  rewrite (Permutation_length P), (includes_Permutation _ _ _ P).
  rewrite (includes_Permutation _ _ (category product) P). reflexivity.
Qed.

Lemma without_present c l :
  NoDup l -> In c l ->
  Permutation (filter (fun c' => negb (String.eqb c' c)) l ++ [c]) l.
Proof.
  intros D I. apply NoDup_Permutation; [| exact D |].
  - apply NoDup_incl_NoDup
      with (l := c :: filter (fun c' => negb (String.eqb c' c)) l).
    + constructor; [rewrite In_without; tauto | apply NoDup_filter, D].
    + rewrite length_app. cbn. lia.
    + intros x Hx. apply in_or_app. cbn in *. tauto.
  - intros x. rewrite in_app_iff, In_without. cbn.
    destruct (String.eqb_spec x c) as [->|N]; intuition congruence.
Qed.

(** X1. In every state the page can reach, the selected categories hold no
    duplicate and never the pseudo-category ['All']: clicking 'All' empties
    the selection instead of storing it. So the 'All' chip of the filter panel
    is highlighted exactly when nothing is selected, and a result passes the
    category filter exactly when nothing is selected or its own category is. *)
Theorem selectedCategories_never_All
    (baseUrl : string) (URL_parses : string -> bool) (st : App.State)
    (R : App.reachable baseUrl URL_parses st) :
  let selected := ProductMatcher.selectedCategories (App.matcher st) in
  NoDup selected /\
  JsString.includes selected "All" = false /\
  FilterPanel.chip_highlighted selected "All" = (List.length selected =? 0)%nat /\
  forall product,
    ProductMatcher.meetsCategory selected product
    = (List.length selected =? 0)%nat || JsString.includes selected (category product).
Proof.
  cbv zeta. destruct (reachable_selection _ _ _ R) as (D & A).
  apply includes_not_In in A.
  split; [exact D|]. split; [exact A|]. split.
  - unfold FilterPanel.chip_highlighted, FilterPanel.isAllSelected. rewrite A. cbn.
    destruct (_ =? 0)%nat; reflexivity.
  - intros product. unfold ProductMatcher.meetsCategory. rewrite A.
    destruct (_ =? 0)%nat; reflexivity.
Qed.

(** X2. In a reachable state, clicking the chip of a category other than
    'All' twice restores the selection up to order, and with it the results
    displayed; when the category was not selected before, the selection is
    restored exactly. *)
Theorem handleCategoryToggle_twice
    (baseUrl : string) (URL_parses : string -> bool) (st : App.State)
    (category : string)
    (R : App.reachable baseUrl URL_parses st)
    (NotAll : category <> "All"%string) :
  let m := App.matcher st in
  let m2 :=
    ProductMatcher.handleCategoryToggle category
      (ProductMatcher.handleCategoryToggle category m) in
  Permutation (ProductMatcher.selectedCategories m2)
              (ProductMatcher.selectedCategories m) /\
  MatcherView.displayed m2 = MatcherView.displayed m /\
  (JsString.includes (ProductMatcher.selectedCategories m) category = false ->
   m2 = m).
Proof.
  cbv zeta. destruct (reachable_selection _ _ _ R) as (D & A).
  set (m := App.matcher st) in *.
  assert (P : Permutation
                (ProductMatcher.selectedCategories
                   (ProductMatcher.handleCategoryToggle category
                      (ProductMatcher.handleCategoryToggle category m)))
                (ProductMatcher.selectedCategories m) /\
              (JsString.includes (ProductMatcher.selectedCategories m) category = false ->
               ProductMatcher.selectedCategories
                 (ProductMatcher.handleCategoryToggle category
                    (ProductMatcher.handleCategoryToggle category m))
               = ProductMatcher.selectedCategories m)).
  { unfold ProductMatcher.handleCategoryToggle.
    apply String.eqb_neq in NotAll. rewrite NotAll.
    destruct (JsString.includes (ProductMatcher.selectedCategories m) category) eqn:I;
      cbn [ProductMatcher.selectedCategories ProductMatcher.setSelectedCategories].
    - apply includes_In in I.
      assert (N : JsString.includes
                    (filter (fun c => negb (String.eqb c category))
                            (ProductMatcher.selectedCategories m)) category = false).
      { apply includes_not_In. rewrite In_without. tauto. }
      rewrite N. split; [|discriminate].
      rewrite (without_absent "All") by (rewrite In_without; tauto).
      apply without_present; assumption.
    - apply includes_not_In in I.
      assert (Y : JsString.includes
                    (filter (fun c => negb (String.eqb c "All"))
                            (ProductMatcher.selectedCategories m) ++ [category])
                    category = true).
      { apply includes_In, in_or_app. right. left. reflexivity. }
      rewrite Y. rewrite (without_absent "All") by exact A.
      assert (E : filter (fun c => negb (String.eqb c category))
                         (ProductMatcher.selectedCategories m ++ [category])
                  = ProductMatcher.selectedCategories m).
      { rewrite filter_app. cbn. rewrite String.eqb_refl. cbn.
        rewrite app_nil_r. apply without_absent, I. }
      rewrite E. split; [apply Permutation_refl | reflexivity]. }
  destruct P as (P & E). split; [exact P|]. split.
  - unfold MatcherView.displayed, ProductMatcher.filteredResults.
    replace (ProductMatcher.searchResults
               (ProductMatcher.handleCategoryToggle category
                  (ProductMatcher.handleCategoryToggle category m)))
      with (ProductMatcher.searchResults m)
      by (unfold ProductMatcher.handleCategoryToggle;
          repeat destruct (String.eqb _ _); reflexivity).
    replace (ProductMatcher.similarityThreshold
               (ProductMatcher.handleCategoryToggle category
                  (ProductMatcher.handleCategoryToggle category m)))
      with (ProductMatcher.similarityThreshold m)
      by (unfold ProductMatcher.handleCategoryToggle;
          repeat destruct (String.eqb _ _); reflexivity).
    apply filter_ext. intros product. unfold ProductMatcher.passes.
    f_equal. apply meetsCategory_Permutation, P.
  - intros I. specialize (E I). revert E.
    unfold ProductMatcher.handleCategoryToggle.
    apply String.eqb_neq in NotAll. rewrite NotAll.
    cbn [ProductMatcher.selectedCategories ProductMatcher.setSelectedCategories].
    intros ->. destruct m; reflexivity.
Qed.

Lemma selectedCategories_never_All_witness :
  let selected :=
    ProductMatcher.selectedCategories
      (App.matcher (App.run "http://localhost:8000" Samples.parses_http
                            Scenarios.chips_clicked)) in
  NoDup selected /\
  JsString.includes selected "All" = false /\
  FilterPanel.chip_highlighted selected "All" = (List.length selected =? 0)%nat /\
  forall product,
    ProductMatcher.meetsCategory selected product
    = (List.length selected =? 0)%nat || JsString.includes selected (category product).
Proof.
  exact (selectedCategories_never_All
           "http://localhost:8000" Samples.parses_http
           (App.run "http://localhost:8000" Samples.parses_http
                    Scenarios.chips_clicked)
           (run_reachable _ _ _)).
Defined.

Lemma handleCategoryToggle_twice_witness :
  "Home"%string <> "All"%string /\
  Permutation
    (ProductMatcher.selectedCategories
       (ProductMatcher.handleCategoryToggle "Home"
          (ProductMatcher.handleCategoryToggle "Home"
             (App.matcher (App.run "http://localhost:8000" Samples.parses_http
                                   Scenarios.chips_clicked)))))
    (ProductMatcher.selectedCategories
       (App.matcher (App.run "http://localhost:8000" Samples.parses_http
                             Scenarios.chips_clicked))).
Proof.
  split; [intros E; discriminate E|].
  refine (proj1 (handleCategoryToggle_twice
                   "http://localhost:8000" Samples.parses_http
                   (App.run "http://localhost:8000" Samples.parses_http
                            Scenarios.chips_clicked)
                   "Home" (run_reachable _ _ _) _)).
  intros E; discriminate E.
Defined.

Lemma includes_without c l x :
  JsString.includes (filter (fun c' => negb (String.eqb c' c)) l) x
  = JsString.includes l x && negb (String.eqb x c).
Proof.
  apply Bool.eq_iff_eq_true.
  rewrite Bool.andb_true_iff, !includes_In, Bool.negb_true_iff, String.eqb_neq.
  apply In_without.
Qed.

Lemma includes_app l l' x :
  JsString.includes (l ++ l') x = JsString.includes l x || JsString.includes l' x.
Proof. unfold JsString.includes. apply existsb_app. Qed.

Lemma includes_single c x : JsString.includes [c] x = String.eqb x c.
Proof. unfold JsString.includes. cbn [existsb]. apply Bool.orb_false_r. Qed.

(** X3. What a click on a category chip does to the results, in a reachable
    state and for a category other than 'All'.  If the category was not
    selected, the results that pass afterwards are those of this category and
    of the categories selected before (so the first click narrows the results
    from every category to this one).  If it was selected, its results are
    removed, and removing the last selected category shows every category
    again. *)
Theorem handleCategoryToggle_filter
    (baseUrl : string) (URL_parses : string -> bool) (st : App.State)
    (clicked : string)
    (R : App.reachable baseUrl URL_parses st)
    (NotAll : clicked <> "All"%string) :
  let selected := ProductMatcher.selectedCategories (App.matcher st) in
  let selected' :=
    ProductMatcher.selectedCategories
      (ProductMatcher.handleCategoryToggle clicked (App.matcher st)) in
  forall product,
    ProductMatcher.meetsCategory selected' product
    = if JsString.includes selected clicked
      then (List.length selected =? 1)%nat
           || (JsString.includes selected (category product)
               && negb (String.eqb (category product) clicked))
      else String.eqb (category product) clicked
           || JsString.includes selected (category product).
Proof.
  cbv zeta. destruct (reachable_selection _ _ _ R) as (D & A). intros product.
  unfold ProductMatcher.handleCategoryToggle, ProductMatcher.meetsCategory.
  apply String.eqb_neq in NotAll. rewrite NotAll.
  set (selected := ProductMatcher.selectedCategories (App.matcher st)) in *.
  destruct (JsString.includes selected clicked) eqn:I;
    cbn [ProductMatcher.selectedCategories ProductMatcher.setSelectedCategories].
  - apply includes_In in I.
    pose proof (Permutation_length (without_present clicked selected D I)) as L.
    rewrite length_app in L. cbn in L.
    rewrite !includes_without. apply includes_not_In in A. rewrite A. cbn.
    f_equal.
    destruct (Nat.eqb_spec
                (List.length (filter (fun c => negb (String.eqb c clicked)) selected)) 0),
             (Nat.eqb_spec (List.length selected) 1); try reflexivity; lia.
  - rewrite (without_absent "All") by exact A.
    rewrite !includes_app, length_app, !includes_single.
    apply includes_not_In in A. rewrite A.
    rewrite (String.eqb_sym "All" clicked), NotAll.
    cbn [List.length]. rewrite Nat.add_1_r. cbn [Nat.eqb].
    destruct (JsString.includes selected (category product)),
             (String.eqb (category product) clicked); reflexivity.
Qed.

Lemma handleCategoryToggle_filter_witness :
  "Bags"%string <> "All"%string /\
  forall product,
    ProductMatcher.meetsCategory
      (ProductMatcher.selectedCategories
         (ProductMatcher.handleCategoryToggle "Bags"
            (App.matcher (App.run "http://localhost:8000" Samples.parses_http
                                  Scenarios.chips_clicked))))
      product
    = String.eqb (category product) "Bags" || String.eqb (category product) "Home".
Proof.
  split; [intros E; discriminate E|]. intros product.
  refine (eq_trans
            (handleCategoryToggle_filter
               "http://localhost:8000" Samples.parses_http
               (App.run "http://localhost:8000" Samples.parses_http
                        Scenarios.chips_clicked)
               "Bags" (run_reachable _ _ _) _ product) _).
  - intros E; discriminate E.
  - cbn. rewrite Bool.orb_false_r. reflexivity.
Defined.

(** X4. The filter panel and the result filter agree on every selection: a
    result passes the category filter exactly when the 'All' chip or the chip
    of its category is drawn highlighted. *)
Theorem chip_highlighted_meetsCategory
    (selectedCategories : list string) (product : Product) :
  ProductMatcher.meetsCategory selectedCategories product
  = FilterPanel.chip_highlighted selectedCategories "All"
    || FilterPanel.chip_highlighted selectedCategories (category product).
Proof.
  unfold ProductMatcher.meetsCategory, FilterPanel.chip_highlighted,
    FilterPanel.isAllSelected, FilterPanel.isSelected.
  destruct (String.eqb (category product) "All") eqn:E.
  - apply String.eqb_eq in E. rewrite E.
    destruct (List.length selectedCategories =? 0)%nat,
             (JsString.includes selectedCategories "All"); reflexivity.
  - destruct (List.length selectedCategories =? 0)%nat,
             (JsString.includes selectedCategories "All"),
             (JsString.includes selectedCategories (category product)); reflexivity.
Qed.

(** ** The similarity threshold *)

(** X5. Clearing the filters resets the threshold to 0, below the slider's
    minimum of 50, and empties the selection: afterwards exactly the results
    with a non-negative displayed similarity are shown, whatever their
    category.  The Clear button itself stays on the panel, since a threshold
    of 0 still counts as an active filter. *)
Theorem handleClearFilters_shows_all (m : ProductMatcher.State) :
  let m' := ProductMatcher.handleClearFilters m in
  (forall product,
     In product (MatcherView.displayed m')
     <-> In product (ProductMatcher.searchResults m) /\
         num_geb (ProductMatcher.shown_similarity product) zero = true) /\
  num_ltb (ProductMatcher.similarityThreshold m') FilterPanel.slider_min = true /\
  MatcherView.clear_button_shown m' = true.
Proof.
  cbv zeta. split; [|split; reflexivity].
  intros product. unfold MatcherView.displayed, ProductMatcher.filteredResults.
  rewrite filter_In. cbn. unfold ProductMatcher.passes, ProductMatcher.meetsThreshold.
  cbn. rewrite Bool.andb_true_r. reflexivity.
Qed.

Lemma fraction_scored_below_slider threshold product :
  MatcherView.fraction_scored product ->
  num_leb FilterPanel.slider_min threshold = true ->
  ProductMatcher.meetsThreshold threshold product = false.
Proof.
  intros (P & S) Slider.
  unfold ProductMatcher.meetsThreshold, ProductMatcher.shown_similarity, num_geb.
  rewrite P. cbn [or_else].
  destruct (num_leb threshold (or_zero (similarity product))) eqn:L; [|reflexivity].
  pose proof (num_leb_trans _ _ _ Slider (num_leb_trans _ _ _ L S)) as C.
  vm_compute in C. discriminate C.
Qed.

(** X6. The threshold is compared with [similarity_percentage || similarity],
    so a result that carries no percentage is compared by its raw score: when
    no result has a percentage and every raw score is at most 1, any threshold
    of the slider's range (50 and above) filters every result out, whatever
    the selected categories. *)
Theorem filteredResults_fraction_scores
    (searchResults : list Product) (similarityThreshold : number)
    (selectedCategories : list string)
    (Scores : Forall MatcherView.fraction_scored searchResults)
    (Slider : num_leb FilterPanel.slider_min similarityThreshold = true) :
  ProductMatcher.filteredResults searchResults similarityThreshold selectedCategories
  = [].
Proof.
  unfold ProductMatcher.filteredResults.
  induction Scores as [|product rest S _ IH]; [reflexivity|].
  cbn [filter]. rewrite IH. unfold ProductMatcher.passes.
  rewrite (fraction_scored_below_slider _ _ S Slider). reflexivity.
Qed.

Lemma filteredResults_fraction_scores_witness :
  Forall MatcherView.fraction_scored [Samples.bag] /\
  num_leb FilterPanel.slider_min (of_Z 50) = true /\
  ProductMatcher.filteredResults [Samples.bag] (of_Z 50) [] = [].
Proof.
  assert (S : Forall MatcherView.fraction_scored [Samples.bag]).
  { repeat constructor. }
  split; [exact S|]. split; [reflexivity|].
  exact (filteredResults_fraction_scores [Samples.bag] (of_Z 50) [] S eq_refl).
Defined.

(** ** Image URLs *)

Lemma length_append s1 s2 :
  String.length (String.append s1 s2) = (String.length s1 + String.length s2)%nat.
Proof. induction s1 as [|c s1 IH]; cbn; [reflexivity | rewrite IH; reflexivity]. Qed.

Lemma prefix_nil s : String.prefix "" s = true.
Proof. destruct s; reflexivity. Qed.

(** A string that starts with "http" once a slash and more is appended
    started with it before. *)
Lemma prefix_http_slash b x :
  String.prefix "http" (String.append b (String "/" x)) = true ->
  String.prefix "http" b = true.
Proof.
  destruct b as [|c1 [|c2 [|c3 [|c4 b]]]];
    cbn [String.append String.prefix]; intros H;
    repeat match type of H with
           | context [Ascii.ascii_dec ?a ?b] =>
               destruct (Ascii.ascii_dec a b); try discriminate; subst
           end;
    try discriminate H.
  cbn. apply prefix_nil.
Qed.

Lemma getImageUrl_longer baseUrl imagePath :
  JsString.startsWith imagePath "http" = false ->
  (String.length imagePath < String.length (Api.getImageUrl baseUrl imagePath))%nat.
Proof.
  intros H. unfold Api.getImageUrl. rewrite H.
  destruct (JsString.startsWith imagePath "static/");
    rewrite !length_append; cbn; lia.
Qed.

Lemma getImageUrl_not_http baseUrl imagePath :
  JsString.startsWith baseUrl "http" = false ->
  JsString.startsWith imagePath "http" = false ->
  JsString.startsWith (Api.getImageUrl baseUrl imagePath) "http" = false.
Proof.
  intros B P. unfold Api.getImageUrl. rewrite P. unfold JsString.startsWith in *.
  destruct (String.prefix "http" (String.append baseUrl _)) eqn:E; [|reflexivity].
  apply prefix_http_slash in E. congruence.
Qed.

(** X7. [ProductMatcher] hands each card a product whose [image_path] has
    already gone through [getImageUrl], and the card applies [getImageUrl]
    again.  When the configured base URL does not start with "http" (a
    relative base such as "/backend") and the product's path is not absolute,
    the second application prefixes the base once more: the [src] of the
    card's image is strictly longer than, hence different from, the URL
    [getImageUrl] gives for the product's path. *)
Theorem card_image_prefixed_twice (baseUrl : string) (product : Product)
    (Base : JsString.startsWith baseUrl "http" = false)
    (Path : JsString.startsWith (image_path product) "http" = false) :
  let card :=
    with_image_path product (Api.getImageUrl baseUrl (image_path product)) in
  (String.length (Api.getImageUrl baseUrl (image_path product))
   < String.length (ProductCard.img_src baseUrl card))%nat /\
  ProductCard.img_src baseUrl card <> Api.getImageUrl baseUrl (image_path product).
Proof.
  cbv zeta. unfold ProductCard.img_src. cbn [image_path with_image_path].
  pose proof (getImageUrl_longer baseUrl _ (getImageUrl_not_http _ _ Base Path)) as L.
  split; [exact L|]. intros E. rewrite E in L. lia.
Qed.

Lemma card_image_prefixed_twice_witness :
  JsString.startsWith "/backend" "http" = false /\
  JsString.startsWith (image_path Samples.bag) "http" = false /\
  ProductCard.img_src "/backend"
    (with_image_path Samples.bag (Api.getImageUrl "/backend" (image_path Samples.bag)))
  <> Api.getImageUrl "/backend" (image_path Samples.bag).
Proof.
  split; [reflexivity|]. split; [reflexivity|].
  exact (proj2 (card_image_prefixed_twice "/backend" Samples.bag eq_refl eq_refl)).
Defined.

(** X8. [getImageUrl] resolves a path given with and without the leading
    "static/" to the same URL, the base followed by "/static/" and the rest. *)
Theorem getImageUrl_static (baseUrl : string) (path : string)
    (Relative : JsString.startsWith path "http" = false)
    (Bare : JsString.startsWith path "static/" = false) :
  Api.getImageUrl baseUrl (String.append "static/" path)
  = Api.getImageUrl baseUrl path /\
  Api.getImageUrl baseUrl path
  = String.append baseUrl (String.append "/static/" path).
Proof.
  unfold Api.getImageUrl. rewrite Relative, Bare.
  unfold JsString.startsWith. cbn. rewrite prefix_nil. split; reflexivity.
Qed.

Lemma getImageUrl_static_witness :
  JsString.startsWith "images/bag.jpg" "http" = false /\
  JsString.startsWith "images/bag.jpg" "static/" = false /\
  Api.getImageUrl "http://localhost:8000" "static/images/bag.jpg"
  = Api.getImageUrl "http://localhost:8000" "images/bag.jpg".
Proof.
  split; [reflexivity|]. split; [reflexivity|].
  exact (proj1 (getImageUrl_static "http://localhost:8000" "images/bag.jpg"
                                   eq_refl eq_refl)).
Defined.

(** ** The JSON requests of the client *)

Lemma http_message_truthy status statusText :
  JsString.truthy (Api.http_message status statusText) = true.
Proof. reflexivity. Qed.

(** X9. [request] turns every failure into a thrown [Error]: it never throws
    anything else (a rejection of [fetch] with a non-Error value becomes
    "Network error occurred"), it returns a value exactly when the response
    has a 2xx status and a body that parses, and for any other status the
    Error carries a non-empty message (the body's [detail], "Unknown error"
    for a body that does not parse, or the status line). *)
Theorem request_outcomes (baseUrl : string) {B : Type}
    (fetch : string -> ApiRequests.Settled B) (endpoint : string) :
  let url := String.append baseUrl endpoint in
  ApiRequests.request baseUrl fetch endpoint <> Api.ThrewOther /\
  (forall value,
     ApiRequests.request baseUrl fetch endpoint = Api.Returned value
     <-> fetch url = ApiRequests.Http2xx (Api.JsonValue value)) /\
  (fetch url = ApiRequests.Rejected ApiRequests.OtherValue ->
   ApiRequests.request baseUrl fetch endpoint
   = Api.ThrewError "Network error occurred") /\
  (forall status statusText body,
     fetch url = ApiRequests.HttpStatus status statusText body ->
     exists message,
       ApiRequests.request baseUrl fetch endpoint = Api.ThrewError message /\
       JsString.truthy message = true /\
       (forall syntaxError, body = Api.JsonSyntaxError syntaxError ->
                            message = "Unknown error"%string)).
Proof.
  cbv zeta. unfold ApiRequests.request.
  destruct (fetch (String.append baseUrl endpoint))
    as [e|body|status statusText body].
  - split; [destruct e; discriminate|].
    split; [intros value; destruct e; split; discriminate|].
    split; [intros E; inversion E; reflexivity | discriminate].
  - split; [destruct body; discriminate|].
    split; [intros value; destruct body; split; intros E; try discriminate E;
            congruence|].
    split; discriminate.
  - assert (X : exists message,
              (let detail :=
                 match body with
                 | Api.JsonValue d => d
                 | Api.JsonSyntaxError _ => Some "Unknown error"%string
                 end in
               match detail with
               | Some d =>
                   if JsString.truthy d then Api.ThrewError d
                   else Api.ThrewError (Api.http_message status statusText)
               | None => Api.ThrewError (Api.http_message status statusText)
               end) = @Api.ThrewError B message /\
              JsString.truthy message = true /\
              (forall syntaxError, body = Api.JsonSyntaxError syntaxError ->
                                   message = "Unknown error"%string)).
    { destruct body as [[detail|]|syntaxError]; cbv beta iota zeta.
      - destruct (JsString.truthy detail) eqn:T; eexists;
          (split; [reflexivity|]); (split; [first [exact T | reflexivity]|]);
          discriminate.
      - eexists. split; [reflexivity|]. split; [reflexivity | discriminate].
      - eexists. split; [reflexivity|]. split; reflexivity. }
    destruct X as (message & E & T & U). cbv zeta in E |- *. rewrite E.
    split; [discriminate|]. split; [intros value; split; discriminate|].
    split; [discriminate|].
    intros status' statusText' body' E'. inversion E'; subst.
    exists message. auto.
Qed.

Lemma append_same_left s t : String.append s t = s -> t = EmptyString.
Proof.
  induction s as [|c s IH]; cbn; intros E; [exact E|].
  apply IH. congruence.
Qed.

Lemma params_toString_truthy key value rest :
  JsString.truthy (ApiRequests.params_toString ((key, value) :: rest)) = true.
Proof.
  cbn [ApiRequests.params_toString].
  assert (T : forall s t, JsString.truthy (String.append s (String "=" t)) = true)
    by (intros [|? ?] ?; reflexivity).
  destruct rest.
  - apply T.
  - destruct (ApiRequests.urlencode key); reflexivity.
Qed.

(** X10. [getProducts] leaves out the filters that select nothing: the
    category 'All' or an empty category, and a limit of 0 or NaN, give the
    request made without them, while [available = false] is sent.  The
    endpoint is the bare "/api/products", without a question mark, exactly
    when no filter is sent. *)
Theorem getProducts_filters (baseUrl : string) (Number_toString : number -> string)
    (fetch : string -> ApiRequests.Settled ApiRequests.ProductsResponse)
    (category : option string) (available : option bool) (limit : option number) :
  let get := ApiRequests.getProducts baseUrl Number_toString fetch in
  let endpoint := ApiRequests.products_endpoint Number_toString in
  get (Some "All"%string) available limit = get None available limit /\
  get (Some EmptyString) available limit = get None available limit /\
  (forall l, truthy l = false ->
             get category available (Some l) = get category available None) /\
  endpoint None (Some false) None = "/api/products?available=false"%string /\
  (endpoint category available limit = "/api/products"%string
   <-> (category = None \/ category = Some EmptyString
        \/ category = Some "All"%string) /\
       available = None /\
       (limit = None \/ exists l, limit = Some l /\ truthy l = false)).
Proof.
  cbv zeta. unfold ApiRequests.getProducts.
  split; [reflexivity|]. split; [reflexivity|].
  split; [intros l F; unfold ApiRequests.products_endpoint; rewrite F; reflexivity|].
  split; [reflexivity|].
  unfold ApiRequests.products_endpoint, ApiRequests.params_append. cbv zeta.
  split.
  - intros E. apply append_same_left in E.
    assert (Q : forall q, (if JsString.truthy q then String "?" q else EmptyString)
                          = EmptyString -> JsString.truthy q = false)
      by (intros [|? ?]; [reflexivity | discriminate]).
    apply Q in E. clear Q. revert E.
    destruct category as [c|]; [destruct (JsString.truthy c) eqn:Tc;
                                [destruct (String.eqb_spec c "All")|]|];
      cbn [andb negb app];
      (destruct limit as [l|]; [destruct (truthy l) eqn:Tl|]);
      destruct available as [a|]; cbn [app];
      try (rewrite params_toString_truthy; discriminate); intros _;
      repeat split; eauto.
    all: try (left; destruct c; [right|]; try discriminate Tc; fail).
    all: try (right; left; destruct c; [reflexivity | discriminate Tc]).
    all: try (right; right; congruence).
  - intros (C & -> & L).
    assert (Lim : match limit with
                  | Some l => truthy l = false
                  | None => True
                  end).
    { destruct L as [->|(l & -> & F)]; [exact I | exact F]. }
    destruct C as [->|[->| ->]]; cbn [JsString.truthy andb String.eqb negb];
      destruct limit as [l|]; try rewrite Lim; reflexivity.
Qed.

(** X11. Whatever goes wrong with the categories request (a rejected
    [fetch], a status outside 2xx, a body that does not parse),
    [loadCategories] neither throws nor leaves the placeholder list: the
    panel gets the seven default categories, 'All' first, and nothing else
    of the state changes. *)
Theorem loadCategories_fallback (baseUrl : string)
    (fetch : string -> ApiRequests.Settled ApiRequests.CategoriesResponse)
    (m : ProductMatcher.State)
    (Failed : forall response,
        fetch (String.append baseUrl "/api/categories")
        <> ApiRequests.Http2xx (Api.JsonValue response)) :
  ApiRequests.loadCategories baseUrl fetch m
  = ProductMatcher.setCategories
      ["All"; "Electronics"; "Shoes"; "Bags"; "Clothing"; "Home";
       "Accessories"]%string m.
Proof.
  unfold ApiRequests.loadCategories, ApiRequests.getCategories, ApiRequests.request.
  cbv zeta.
  destruct (fetch (String.append baseUrl "/api/categories"))
    as [[message|]|[response|message]|status statusText [[detail|]|syntaxError]];
    try reflexivity.
  - exfalso. exact (Failed response eq_refl).
  - destruct (JsString.truthy detail); reflexivity.
Qed.

Lemma loadCategories_fallback_witness :
  ProductMatcher.categories
    (ApiRequests.loadCategories "http://localhost:8000" Scenarios.unavailable
                                ProductMatcher.initial)
  = ["All"; "Electronics"; "Shoes"; "Bags"; "Clothing"; "Home"; "Accessories"]%string.
Proof.
  refine (f_equal ProductMatcher.categories
            (loadCategories_fallback "http://localhost:8000" Scenarios.unavailable
                                     ProductMatcher.initial _)).
  intros response E. discriminate E.
Defined.

(** ** A search, step by step *)

(** X12. In every reachable state that shows an image, a click on the search
    button makes exactly one call of [searchProducts], with exactly one
    source: the stored file and no URL, or no file and the stored URL, which
    is the image shown.  Through [searchSimilarProducts] the page then makes
    one request, a POST to [/api/search] whose form carries that source,
    [top_k] 11 and [similarity_threshold] 0, whatever threshold the slider is
    set to: the click does what the response to this request determines, and
    the results of a 2xx response to it become the stored results. *)
Theorem handleSearch_posts_one_source
    (baseUrl : string) (URL_parses : string -> bool) (st : App.State)
    (R : App.reachable baseUrl URL_parses st)
    (Image : ProductMatcher.uploadedImage (App.matcher st) <> None) :
  let m := App.matcher st in
  exists source : string * Api.FormValue,
    ((exists f,
        ProductMatcher.uploadedFile m = Some f /\
        ProductMatcher.imageUrl m = None /\
        source = ("file"%string, Api.FormFile f))
     \/
     (exists u,
        ProductMatcher.uploadedFile m = None /\
        ProductMatcher.imageUrl m = Some u /\
        ProductMatcher.uploadedImage m = Some u /\
        source = ("image_url"%string, Api.FormString u))) /\
    let request :=
      {| Api.request_url := String.append baseUrl "/api/search";
         Api.request_method := "POST";
         Api.request_body :=
           [source; ("top_k", Api.FormNumber (of_Z 11));
            ("similarity_threshold", Api.FormNumber zero)]%string |} in
    (forall fetch,
       App.step baseUrl URL_parses (App.SearchClicked fetch) st
       = App.step baseUrl URL_parses (App.SearchClicked (fun _ => fetch request)) st) /\
    (forall fetch response,
       fetch request = Api.HttpOk (Api.JsonValue response) ->
       ProductMatcher.searchResults
         (App.matcher (fst (App.step baseUrl URL_parses (App.SearchClicked fetch) st)))
       = results response) /\
    (forall fetch message,
       fetch request = Api.NetworkFailure message ->
       ProductMatcher.error
         (App.matcher (fst (App.step baseUrl URL_parses (App.SearchClicked fetch) st)))
       = Some message) /\
    (forall fetch,
       filter ProductMatcher.is_search_call
              (snd (ProductMatcher.handleSearch
                      (Api.searchSimilarProducts baseUrl fetch) m))
       = [ProductMatcher.CallSearchProducts
            (ProductMatcher.uploadedFile m)
            (ProductMatcher.string_or_undefined (ProductMatcher.imageUrl m))
            (Some (of_Z 11)) (Some zero)]).
Proof.
  cbv zeta. pose proof (reachable_sources_ok _ _ _ R) as S.
  unfold App.sources_ok in S.
  destruct (ProductMatcher.uploadedImage (App.matcher st)) as [shown|] eqn:U;
    [|congruence].
  destruct S as (T & S).
  assert (Shown : ProductMatcher.string_falsy
                    (ProductMatcher.uploadedImage (App.matcher st)) = false).
  { rewrite U. cbn. rewrite T. reflexivity. }
  assert (Posted : exists source,
             ((exists f,
                 ProductMatcher.uploadedFile (App.matcher st) = Some f /\
                 ProductMatcher.imageUrl (App.matcher st) = None /\
                 source = ("file"%string, Api.FormFile f))
              \/
              (exists u,
                 ProductMatcher.uploadedFile (App.matcher st) = None /\
                 ProductMatcher.imageUrl (App.matcher st) = Some u /\
                 Some shown = Some u /\
                 source = ("image_url"%string, Api.FormString u))) /\
             Api.search_form (ProductMatcher.uploadedFile (App.matcher st))
               (ProductMatcher.string_or_undefined
                  (ProductMatcher.imageUrl (App.matcher st)))
               (Some (of_Z 11)) (Some zero)
             = [source; ("top_k", Api.FormNumber (of_Z 11));
                ("similarity_threshold", Api.FormNumber zero)]%string).
  { destruct S as [((f & F) & N)|(F & N)]; rewrite F, N.
    - exists ("file"%string, Api.FormFile f). split; [|reflexivity].
      left. exists f. auto.
    - exists ("image_url"%string, Api.FormString shown). split.
      + right. exists shown. auto.
      + cbn [ProductMatcher.string_or_undefined]. rewrite T.
        unfold Api.search_form. rewrite T. reflexivity. }
  destruct Posted as (source & Which & Form). exists source.
  split; [exact Which|].
  cbn [App.step fst snd App.matcher].
  unfold ProductMatcher.handleSearch. rewrite Shown.
  unfold Api.searchSimilarProducts. cbv zeta. rewrite Form.
  split; [reflexivity|]. split; [|split].
  - intros fetch response E. rewrite E. reflexivity.
  - intros fetch message E. rewrite E. reflexivity.
  - intros fetch.
    destruct (fetch _) as [message|[response|message]|status statusText [[d|]|e]];
      try reflexivity.
    destruct (JsString.truthy d); reflexivity.
Qed.

Lemma handleSearch_posts_one_source_witness :
  ProductMatcher.searchResults
    (App.matcher
       (fst (App.step "http://localhost:8000" Samples.parses_http
                      (App.SearchClicked Scenarios.wants_file_only)
                      (App.run "http://localhost:8000" Samples.parses_http
                               Samples.file_url_file))))
  = results Scenarios.two_bags.
Proof.
  destruct (handleSearch_posts_one_source
              "http://localhost:8000" Samples.parses_http
              (App.run "http://localhost:8000" Samples.parses_http
                       Samples.file_url_file)
              (run_reachable _ _ _))
    as (source & Which & _ & Answered & _).
  - intros E. discriminate E.
  - apply (Answered Scenarios.wants_file_only Scenarios.two_bags).
    destruct Which as [(f & _ & _ & ->)|(u & F & _)];
      [reflexivity | discriminate F].
Defined.

(** X13. A search that succeeds replaces the results, clears the error and
    opens the results section without an error card; the number announced by
    the "Search completed!" toast is the number of products displayed in the
    new state, under the threshold and categories in force. *)
Theorem handleSearch_success
    (searchProducts :
       option File -> option string -> option number -> option number ->
       Api.Outcome SearchResponse)
    (m : ProductMatcher.State) (response : SearchResponse)
    (Image : ProductMatcher.string_falsy (ProductMatcher.uploadedImage m) = false)
    (Succeeds :
       searchProducts (ProductMatcher.uploadedFile m)
         (ProductMatcher.string_or_undefined (ProductMatcher.imageUrl m))
         (Some (of_Z 11)) (Some zero)
       = Api.Returned response) :
  let m' := fst (ProductMatcher.handleSearch searchProducts m) in
  ProductMatcher.searchResults m' = results response /\
  ProductMatcher.error m' = None /\
  MatcherView.results_section_shown m' = true /\
  MatcherView.error_card_shown m' = false /\
  filter (fun e => negb (ProductMatcher.is_search_call e))
         (snd (ProductMatcher.handleSearch searchProducts m))
  = [ProductMatcher.ShowToast ProductMatcher.searching;
     ProductMatcher.ShowToast
       (ProductMatcher.search_completed (List.length (MatcherView.displayed m')))].
Proof.
  cbv zeta. unfold ProductMatcher.handleSearch. rewrite Image, Succeeds.
  repeat split; reflexivity.
Qed.

Lemma handleSearch_success_witness :
  filter (fun e => negb (ProductMatcher.is_search_call e))
         (snd (ProductMatcher.handleSearch
                 (Api.searchSimilarProducts "http://localhost:8000"
                                            Scenarios.finds_two_bags)
                 (App.matcher (App.run "http://localhost:8000" Samples.parses_http
                                       Scenarios.photo_chosen))))
  = [ProductMatcher.ShowToast ProductMatcher.searching;
     ProductMatcher.ShowToast (ProductMatcher.search_completed 1)].
Proof.
  exact (proj2 (proj2 (proj2 (proj2
    (handleSearch_success
       (Api.searchSimilarProducts "http://localhost:8000" Scenarios.finds_two_bags)
       (App.matcher (App.run "http://localhost:8000" Samples.parses_http
                             Scenarios.photo_chosen))
       Scenarios.two_bags eq_refl eq_refl))))).
Defined.

(** X14. A search that fails keeps the results and the [hasSearched] flag as
    they were and stores the message.  The error card sits inside the results
    section, which is rendered only when [hasSearched] is set, and choosing an
    image resets that flag: so when the first search after choosing an image
    fails, neither the results section nor the error card is rendered and the
    message appears in the toast only; when a search had succeeded before, the
    earlier results stay displayed next to the error card. *)
Theorem handleSearch_failure
    (searchProducts :
       option File -> option string -> option number -> option number ->
       Api.Outcome SearchResponse)
    (m : ProductMatcher.State) (message : string)
    (Image : ProductMatcher.string_falsy (ProductMatcher.uploadedImage m) = false)
    (Fails :
       searchProducts (ProductMatcher.uploadedFile m)
         (ProductMatcher.string_or_undefined (ProductMatcher.imageUrl m))
         (Some (of_Z 11)) (Some zero)
       = Api.ThrewError message) :
  let m' := fst (ProductMatcher.handleSearch searchProducts m) in
  ProductMatcher.error m' = Some message /\
  MatcherView.displayed m' = MatcherView.displayed m /\
  MatcherView.results_section_shown m' = ProductMatcher.hasSearched m /\
  MatcherView.error_card_shown m'
  = ProductMatcher.hasSearched m && JsString.truthy message /\
  (forall image uuid before,
     m = ProductMatcher.handleImageUpload image uuid before ->
     MatcherView.results_section_shown m' = false /\
     MatcherView.error_card_shown m' = false) /\
  In (ProductMatcher.ShowToast (ProductMatcher.search_failed message))
     (snd (ProductMatcher.handleSearch searchProducts m)).
Proof.
  cbv zeta. unfold ProductMatcher.handleSearch. rewrite Image, Fails.
  unfold MatcherView.error_card_shown, MatcherView.results_section_shown.
  cbn. rewrite !Bool.andb_true_r, Bool.negb_involutive.
  repeat split; try reflexivity.
  - rewrite H. destruct image; reflexivity.
  - rewrite H. destruct image; reflexivity.
  - right. right. left. reflexivity.
Qed.

Lemma handleSearch_failure_witness :
  let m' :=
    fst (ProductMatcher.handleSearch
           (Api.searchSimilarProducts "http://localhost:8000" Samples.offline)
           (App.matcher (App.run "http://localhost:8000" Samples.parses_http
                                 Scenarios.photo_chosen))) in
  ProductMatcher.error m' = Some "Failed to fetch"%string /\
  MatcherView.error_card_shown m' = false.
Proof.
  pose proof (handleSearch_failure
                (Api.searchSimilarProducts "http://localhost:8000" Samples.offline)
                (App.matcher (App.run "http://localhost:8000" Samples.parses_http
                                      Scenarios.photo_chosen))
                "Failed to fetch" eq_refl eq_refl) as (E & _ & _ & C & _).
  split; [exact E | exact C].
Defined.


(** ** The uploader inside the page *)

(** X15. Removing the preview does not unselect the image: [clearPreview]
    empties the uploader's preview and URL field but never calls
    [onImageUpload], so the matcher's state is untouched, the search button
    stays, and a search started afterwards does exactly what it would have
    done before, with the image that was removed from view. *)
Theorem clearPreview_keeps_image
    (baseUrl : string) (URL_parses : string -> bool) (st : App.State) :
  let st' := fst (App.step baseUrl URL_parses App.PreviewCleared st) in
  ImageUploader.previewUrl (App.uploader st') = EmptyString /\
  App.matcher st' = App.matcher st /\
  MatcherView.search_button_shown (App.matcher st')
  = MatcherView.search_button_shown (App.matcher st) /\
  forall fetch,
    snd (App.step baseUrl URL_parses (App.SearchClicked fetch) st')
    = snd (App.step baseUrl URL_parses (App.SearchClicked fetch) st).
Proof.
  cbv zeta.
  assert (M : App.matcher (fst (App.step baseUrl URL_parses App.PreviewCleared st))
              = App.matcher st).
  { cbn. destruct (JsString.startsWith _ _); reflexivity. }
  split; [reflexivity|]. split; [exact M|].
  split; [exact (f_equal MatcherView.search_button_shown M)|].
  intros fetch.
  cbn [App.step App.from_uploader App.matcher App.uploader fst snd] in M |- *.
  rewrite M. reflexivity.
Qed.

Lemma deliver_sources_checked URL_parses effects uuid : forall m,
  Forall (Validity.upload_checked URL_parses) effects ->
  Validity.sources_checked URL_parses m ->
  Validity.sources_checked URL_parses (App.deliver effects uuid m).
Proof.
  induction effects as [|e effects IH]; intros m W Hm; [assumption|].
  inversion W as [|? ? We W']; subst.
  destruct e as [t|image|url]; cbn [App.deliver]; auto.
  apply IH; [assumption|].
  destruct image as [file|url]; split; cbn; intros x E;
    try discriminate E; inversion E; subst; exact We.
Qed.

Lemma handleFiles_checked URL_parses files uuid u :
  Forall (Validity.upload_checked URL_parses)
         (snd (ImageUploader.handleFiles files uuid u)).
Proof.
  unfold ImageUploader.handleFiles. destruct files as [|file rest]; [constructor|].
  destruct (JsString.startsWith (file_type file) "image/") eqn:T; cbn [negb];
    [|repeat constructor].
  destruct (N.ltb_spec ImageUploader.max_size (file_size file));
    repeat constructor; cbn; assumption.
Qed.

Lemma handleUrlSubmit_checked URL_parses u :
  Forall (Validity.upload_checked URL_parses)
         (snd (ImageUploader.handleUrlSubmit URL_parses u)).
Proof.
  unfold ImageUploader.handleUrlSubmit.
  destruct (JsString.truthy (JsString.trim (ImageUploader.urlInput u))) eqn:T;
    cbn [negb]; [|constructor].
  destruct (URL_parses (ImageUploader.urlInput u)) eqn:P; repeat constructor;
    assumption.
Qed.

Lemma reachable_sources_checked baseUrl URL_parses st :
  App.reachable baseUrl URL_parses st ->
  Validity.sources_checked URL_parses (App.matcher st).
Proof.
  induction 1 as [|ev st R IH].
  - split; cbn; discriminate.
  - destruct ev; cbn [App.step App.from_uploader fst App.matcher]; try exact IH.
    + apply deliver_sources_checked; [apply handleFiles_checked | exact IH].
    + apply deliver_sources_checked; [|exact IH].
      unfold ImageUploader.handleDrop. destruct files; [constructor|].
      apply handleFiles_checked.
    + apply deliver_sources_checked; [apply handleUrlSubmit_checked | exact IH].
    + apply deliver_sources_checked; [|exact IH].
      unfold ImageUploader.clearPreview. cbn [snd].
      destruct (JsString.startsWith _ _); repeat constructor.
    + destruct (handleSearch_same_sources
                  (Api.searchSimilarProducts baseUrl fetch) (App.matcher st))
        as (E1 & E2 & E3).
      unfold Validity.sources_checked. cbv zeta in E2, E3. rewrite E2, E3. exact IH.
    + unfold ProductMatcher.handleCategoryToggle.
      destruct (String.eqb _ _); exact IH.
Qed.

(** X16. The uploader's checks hold of whatever the page later searches
    with: in every reachable state, a file passed to [searchProducts] has a
    type that starts with "image/" and a size of at most 10MB, and a URL
    passed to it is not blank and was accepted by [new URL]. *)
Theorem searched_sources_checked
    (baseUrl : string) (URL_parses : string -> bool) (st : App.State)
    (R : App.reachable baseUrl URL_parses st) :
  forall fetch file url topK threshold,
    In (App.FromMatcher (ProductMatcher.CallSearchProducts file url topK threshold))
       (snd (App.step baseUrl URL_parses (App.SearchClicked fetch) st)) ->
    (forall f, file = Some f ->
               JsString.startsWith (file_type f) "image/" = true /\
               (file_size f <= 10 * 1024 * 1024)%N) /\
    (forall u, url = Some u ->
               JsString.truthy (JsString.trim u) = true /\ URL_parses u = true).
Proof.
  intros fetch file url topK threshold I.
  destruct (reachable_sources_checked _ _ _ R) as (F & U).
  cbn [App.step snd] in I. apply in_map_iff in I. destruct I as (e & E & I).
  inversion E; subst e. clear E.
  unfold ProductMatcher.handleSearch in I.
  destruct (ProductMatcher.string_falsy _);
    [cbn in I; destruct I as [I|[]]; discriminate I|].
  assert (C : ProductMatcher.CallSearchProducts file url topK threshold
              = ProductMatcher.CallSearchProducts
                  (ProductMatcher.uploadedFile (App.matcher st))
                  (ProductMatcher.string_or_undefined
                     (ProductMatcher.imageUrl (App.matcher st)))
                  (Some (of_Z 11)) (Some zero)).
  { destruct (Api.searchSimilarProducts _ _ _ _ _ _); cbn in I;
      destruct I as [I|[I|[I|[]]]]; try discriminate I; symmetry; exact I. }
  inversion C; subst. split.
  - intros f E. exact (F f E).
  - intros u E. apply U.
    destruct (ProductMatcher.imageUrl (App.matcher st)) as [u'|];
      [|discriminate E].
    cbn in E. destruct (JsString.truthy u'); [exact E | discriminate E].
Qed.

Lemma searched_sources_checked_witness :
  In (App.FromMatcher
        (ProductMatcher.CallSearchProducts (Some Samples.photo) None
                                           (Some (of_Z 11)) (Some zero)))
     (snd (App.step "http://localhost:8000" Samples.parses_http
                    (App.SearchClicked Samples.offline)
                    (App.run "http://localhost:8000" Samples.parses_http
                             Samples.file_url_file))) /\
  JsString.startsWith (file_type Samples.photo) "image/" = true /\
  (file_size Samples.photo <= 10 * 1024 * 1024)%N.
Proof.
  assert (I : In (App.FromMatcher
                    (ProductMatcher.CallSearchProducts (Some Samples.photo) None
                                                       (Some (of_Z 11)) (Some zero)))
                 (snd (App.step "http://localhost:8000" Samples.parses_http
                                (App.SearchClicked Samples.offline)
                                (App.run "http://localhost:8000" Samples.parses_http
                                         Samples.file_url_file)))).
  { right. left. reflexivity. }
  split; [exact I|].
  exact (proj1 (searched_sources_checked
                  "http://localhost:8000" Samples.parses_http
                  (App.run "http://localhost:8000" Samples.parses_http
                           Samples.file_url_file)
                  (run_reachable _ _ _) Samples.offline
                  (Some Samples.photo) None (Some (of_Z 11)) (Some zero) I)
               Samples.photo eq_refl).
Defined.

(** X17. The URL field, as the page sees it.  A blank input does nothing at
    all, not even a toast.  An input that [new URL] rejects shows the
    "Invalid URL" toast and changes nothing, so a previously chosen image
    stays selected.  An accepted input becomes the image shown and the stored
    URL exactly as typed (it is trimmed for the blank test only), clears the
    stored file, the error and the [hasSearched] flag, and closes and empties
    the field.  Blank means empty once [trim] has stripped the white space,
    NO-BREAK SPACE included; inputs are strings of code units below 256. *)
Theorem handleUrlSubmit_page
    (baseUrl : string) (URL_parses : string -> bool) (st : App.State) :
  let input := ImageUploader.urlInput (App.uploader st) in
  let r := App.step baseUrl URL_parses App.UrlSubmitted st in
  (JsString.truthy (JsString.trim input) = false -> r = (st, [])) /\
  (JsString.truthy (JsString.trim input) = true -> URL_parses input = false ->
   r = (st, [App.FromUploader (ImageUploader.ShowToast ImageUploader.invalid_url)])) /\
  (JsString.truthy (JsString.trim input) = true -> URL_parses input = true ->
   ProductMatcher.uploadedImage (App.matcher (fst r)) = Some input /\
   ProductMatcher.imageUrl (App.matcher (fst r)) = Some input /\
   ProductMatcher.uploadedFile (App.matcher (fst r)) = None /\
   ProductMatcher.error (App.matcher (fst r)) = None /\
   ProductMatcher.hasSearched (App.matcher (fst r)) = false /\
   ImageUploader.previewUrl (App.uploader (fst r)) = input /\
   ImageUploader.urlInput (App.uploader (fst r)) = EmptyString /\
   ImageUploader.showUrlInput (App.uploader (fst r)) = false /\
   snd r = [App.FromUploader (ImageUploader.OnImageUpload (ImageUrl input))]).
Proof.
  cbv zeta. destruct st as [u m].
  cbn [App.step App.uploader App.matcher]. unfold App.from_uploader.
  unfold ImageUploader.handleUrlSubmit.
  destruct (JsString.truthy (JsString.trim (ImageUploader.urlInput u)));
    destruct (URL_parses (ImageUploader.urlInput u)); cbn;
    repeat split; intros; try discriminate; reflexivity.
Qed.

(** X18. The filters outlive uploads and searches: no event other than a
    move of the slider, a click on a category chip or on Clear changes the
    threshold or the selected categories, and no event other than a search
    changes the stored results.  A new search is therefore filtered by the
    settings left from the previous one. *)
Theorem filters_persist
    (baseUrl : string) (URL_parses : string -> bool) (ev : App.Event) (st : App.State) :
  let m := App.matcher st in
  let m' := App.matcher (fst (App.step baseUrl URL_parses ev st)) in
  (match ev with
   | App.ThresholdMoved _ | App.FiltersCleared => True
   | _ => ProductMatcher.similarityThreshold m' = ProductMatcher.similarityThreshold m
   end) /\
  (match ev with
   | App.CategoryToggled _ | App.FiltersCleared => True
   | _ => ProductMatcher.selectedCategories m' = ProductMatcher.selectedCategories m
   end) /\
  (match ev with
   | App.SearchClicked _ => True
   | _ => ProductMatcher.searchResults m' = ProductMatcher.searchResults m
   end).
Proof.
  cbv zeta.
  destruct ev; cbn [App.step App.from_uploader fst App.matcher];
    repeat split; try reflexivity;
    try apply (deliver_filters _ _ (App.matcher st));
    try apply (handleSearch_filters _ (App.matcher st));
    unfold ProductMatcher.handleCategoryToggle;
    destruct (String.eqb _ _); reflexivity.
Qed.

(** X19. When the backend answers a search with a status outside 2xx, the
    page stores and toasts a message that is never empty: the body's
    [detail] when it is a non-empty string, "Search failed" when the body
    does not parse, and the status line "HTTP <status>: <text>" otherwise.
    The results are left as they were. *)
Theorem search_http_error
    (baseUrl : string) (URL_parses : string -> bool) (st : App.State)
    (fetch : Api.Request -> Api.FetchOutcome)
    (status : nat) (statusText : string) (body : Api.Json (option string))
    (Image : ProductMatcher.string_falsy
               (ProductMatcher.uploadedImage (App.matcher st)) = false)
    (Refused : forall request, fetch request = Api.HttpError status statusText body) :
  let message :=
    match body with
    | Api.JsonValue (Some detail) =>
        if JsString.truthy detail then detail
        else Api.http_message status statusText
    | Api.JsonValue None => Api.http_message status statusText
    | Api.JsonSyntaxError _ => "Search failed"%string
    end in
  let r := App.step baseUrl URL_parses (App.SearchClicked fetch) st in
  JsString.truthy message = true /\
  ProductMatcher.error (App.matcher (fst r)) = Some message /\
  ProductMatcher.searchResults (App.matcher (fst r))
  = ProductMatcher.searchResults (App.matcher st) /\
  filter (fun e =>
            match e with
            | App.FromMatcher (ProductMatcher.ShowToast _) => true
            | _ => false
            end) (snd r)
  = [App.FromMatcher (ProductMatcher.ShowToast ProductMatcher.searching);
     App.FromMatcher
       (ProductMatcher.ShowToast (ProductMatcher.search_failed message))].
Proof.
  cbv zeta. cbn [App.step fst snd App.matcher].
  unfold ProductMatcher.handleSearch. rewrite Image.
  unfold Api.searchSimilarProducts. cbv zeta. rewrite Refused.
  destruct body as [[detail|]|syntaxError]; cbv beta iota;
    [destruct (JsString.truthy detail) eqn:T| |];
    (split; [first [exact T | reflexivity]|]); repeat split; reflexivity.
Qed.

Lemma search_http_error_witness :
  let r :=
    App.step "http://localhost:8000" Samples.parses_http
      (App.SearchClicked Scenarios.refuses)
      (App.run "http://localhost:8000" Samples.parses_http Scenarios.photo_chosen) in
  ProductMatcher.error (App.matcher (fst r))
  = Some "HTTP 422: Unprocessable Entity"%string.
Proof.
  exact (proj1 (proj2 (search_http_error
                         "http://localhost:8000" Samples.parses_http
                         (App.run "http://localhost:8000" Samples.parses_http
                                  Scenarios.photo_chosen)
                         Scenarios.refuses 422 "Unprocessable Entity"
                         (Api.JsonValue (Some EmptyString))
                         eq_refl (fun _ => eq_refl)))).
Defined.

(** ** Rounding against representable bounds

    [binary_round_aux] rounds to nearest: a double that bounds the exact value
    from above (or below) also bounds the rounded one.  This is what makes
    [Math.random() * 0.4 + 0.6] stay between 0.6 and 1. *)

(** A right shift that drops only zero bits reports an exact location. *)
Lemma shr_1_exact mrs :
  0 <= shr_m mrs -> shr_r mrs = false -> shr_s mrs = false ->
  (2 | shr_m mrs) ->
  shr_r (shr_1 mrs) = false /\ shr_s (shr_1 mrs) = false.
Proof.
  destruct mrs as [m r s]. cbn. intros Hm -> -> D.
  destruct m as [|[p|p|]|p]; cbn; auto; try lia.
  - exfalso. destruct D as [k D]. lia.
  - exfalso. destruct D as [k D]. lia.
Qed.

Lemma iter_shr_1_exact p : forall mrs,
  0 <= shr_m mrs -> shr_r mrs = false -> shr_s mrs = false ->
  (2 ^ Zpos p | shr_m mrs) ->
  shr_r (iter_pos shr_1 p mrs) = false /\ shr_s (iter_pos shr_1 p mrs) = false.
Proof.
  induction p as [p IH|p IH|]; intros mrs Hm Hr Hs D; cbn [iter_pos].
  - assert (Hp : 0 < 2 ^ Zpos p) by (apply Z.pow_pos_nonneg; lia).
    destruct D as [k D].
    assert (P : 2 ^ Zpos p~1 = 2 * 2 ^ Zpos p * 2 ^ Zpos p).
    { replace (Zpos p~1) with (Zpos p + Zpos p + 1) by lia.
      rewrite !Z.pow_add_r by lia. ring. }
    rewrite P in D.
    destruct (shr_1_exact mrs Hm Hr Hs) as (R1 & S1); [exists (k * 2 ^ Zpos p * 2 ^ Zpos p); lia|].
    assert (M1 : shr_m (shr_1 mrs) = k * 2 ^ Zpos p * 2 ^ Zpos p).
    { rewrite shr_1_m by assumption. rewrite D. symmetry. apply Z.div_unique_exact; [lia | ring]. }
    assert (N1 : 0 <= shr_m (shr_1 mrs)) by (apply shr_1_nonneg; assumption).
    destruct (IH (shr_1 mrs) N1 R1 S1) as (R2 & S2); [exists (k * 2 ^ Zpos p); lia|].
    assert (M2 : shr_m (iter_pos shr_1 p (shr_1 mrs)) = k * 2 ^ Zpos p).
    { rewrite iter_shr_1_m by assumption. rewrite M1. symmetry. apply Z.div_unique_exact; [lia | ring]. }
    apply IH; auto.
    + rewrite iter_shr_1_m by assumption. apply Z.div_pos; lia.
    + exists k. lia.
  - assert (Hp : 0 < 2 ^ Zpos p) by (apply Z.pow_pos_nonneg; lia).
    destruct D as [k D].
    assert (P : 2 ^ Zpos p~0 = 2 ^ Zpos p * 2 ^ Zpos p).
    { replace (Zpos p~0) with (Zpos p + Zpos p) by lia.
      rewrite !Z.pow_add_r by lia. ring. }
    rewrite P in D.
    destruct (IH mrs Hm Hr Hs) as (R2 & S2); [exists (k * 2 ^ Zpos p); lia|].
    assert (M2 : shr_m (iter_pos shr_1 p mrs) = k * 2 ^ Zpos p).
    { rewrite iter_shr_1_m by assumption. rewrite D. symmetry. apply Z.div_unique_exact; [lia | ring]. }
    apply IH; auto.
    + rewrite iter_shr_1_m by assumption. apply Z.div_pos; lia.
    + exists k. lia.
  - apply shr_1_exact; auto.
Qed.

Lemma shr_fexp_exact_spec m e :
  let N := Z.max (fexp prec emax (Zpos (digits2_pos m) + e) - e) 0 in
  exists mrs,
    shr_fexp prec emax (Zpos m) e loc_Exact = (mrs, e + N) /\
    shr_m mrs = Zpos m / 2 ^ N /\
    (loc_of_shr_record mrs = loc_Exact \/ ~ (2 ^ N | Zpos m)).
Proof.
  cbv zeta. unfold shr_fexp, shr. cbn [Zdigits2 shr_record_of_loc].
  destruct (fexp prec emax (Zpos (digits2_pos m) + e) - e) as [|n|n] eqn:E.
  - eexists. split; [rewrite Z.add_0_r; reflexivity|]. cbn.
    split; [rewrite Z.div_1_r; reflexivity | left; reflexivity].
  - replace (Z.max (Zpos n) 0) with (Zpos n) by lia.
    eexists. split; [reflexivity|].
    split; [apply iter_shr_1_m; cbn; lia|].
    assert (Hp : 0 < 2 ^ Zpos n) by (apply Z.pow_pos_nonneg; lia).
    destruct (Z.eq_dec (Zpos m mod 2 ^ Zpos n) 0) as [Z|NZ].
    + left. apply Z.mod_divide in Z; [|lia].
      destruct (iter_shr_1_exact n {| shr_m := Zpos m; shr_r := false; shr_s := false |})
        as (R & S); cbn; auto; try lia.
      destruct (iter_pos shr_1 n _) as [m' r' s']. cbn in *. subst. reflexivity.
    + right. intros D. apply NZ. apply Z.mod_divide; [lia | exact D].
  - replace (Z.max (Zneg n) 0) with 0 by lia.
    eexists. split; [rewrite Z.add_0_r; reflexivity|]. cbn.
    split; [rewrite Z.div_1_r; reflexivity | left; reflexivity].
Qed.

Lemma round_nearest_even_cases q l :
  round_nearest_even q l = q \/
  (round_nearest_even q l = q + 1 /\ l <> loc_Exact).
Proof.
  destruct l as [|[]]; cbn; auto.
  - destruct (Z.even q); [left; reflexivity | right; split; [reflexivity | discriminate]].
  - right. split; [reflexivity | discriminate].
Qed.

Lemma digits2_pos_le p k : 0 <= k -> Zpos p < 2 ^ k -> Zpos (digits2_pos p) <= k.
Proof.
  intros K H. pose proof (digits2_pos_lower p) as L.
  destruct (Z.le_gt_cases (Zpos (digits2_pos p)) k) as [|G]; [assumption|].
  exfalso. assert (2 ^ k <= 2 ^ (Zpos (digits2_pos p) - 1))
    by (apply Z.pow_le_mono_r; lia). lia.
Qed.

Lemma shr_fexp_second mr e1 :
  0 < mr <= 2 ^ 53 -> -1074 <= e1 ->
  exists mrs m3 e3,
    shr_fexp prec emax mr e1 loc_Exact = (mrs, e3) /\
    shr_m mrs = Zpos m3 /\ e1 <= e3 /\
    Zpos m3 * 2 ^ (e3 - e1) = mr /\
    (e3 = e1 /\ Zpos m3 = mr \/ Zpos m3 = 2 ^ 52).
Proof.
  intros (P & U) E. destruct mr as [|pr|pr]; try lia.
  destruct (Z.eq_dec (Zpos pr) (2 ^ 53)) as [T|NT].
  - inversion T; subst pr.
    unfold shr_fexp, shr. cbn [Zdigits2 digits2_pos Pos.succ].
    replace (fexp prec emax (54 + e1) - e1) with 1
      by (unfold fexp, emin, prec, emax; lia).
    eexists. exists (4503599627370496)%positive, (e1 + 1).
    split; [reflexivity|]. cbn [iter_pos shr_1 shr_record_of_loc shr_m].
    split; [reflexivity|]. split; [lia|].
    replace (e1 + 1 - e1) with 1 by lia. split; [reflexivity|].
    right. reflexivity.
  - assert (D : Zpos (digits2_pos pr) <= 53) by (apply digits2_pos_le; lia).
    unfold shr_fexp, shr. cbn [Zdigits2].
    assert (F : fexp prec emax (Zpos (digits2_pos pr) + e1) - e1 <= 0)
      by (unfold fexp, emin, prec, emax; lia).
    eexists. exists pr, e1.
    split; [destruct (fexp prec emax (Zpos (digits2_pos pr) + e1) - e1);
            try lia; reflexivity|].
    cbn [shr_record_of_loc shr_m]. rewrite Z.sub_diag, Z.pow_0_r.
    split; [reflexivity|]. split; [lia|].
    split; [lia|]. left. split; reflexivity.
Qed.

Lemma binary_round_aux_value s m e :
  exists N mr,
    0 <= N /\ 0 <= mr /\ -1074 <= e + N /\
    (mr - 1) * 2 ^ N < Zpos m < (mr + 1) * 2 ^ N /\
    (N = 0 \/ e + N = -1074 \/ (2 ^ 52 * 2 ^ N <= Zpos m /\ 2 ^ 52 <= mr)) /\
    (mr = 0 /\ binary_round_aux prec emax s (Zpos m) e loc_Exact = S754_zero s
     \/ exists m3 e3,
          e + N <= e3 /\ Zpos m3 * 2 ^ (e3 - (e + N)) = mr /\
          (N = 0 /\ e3 = e \/ e3 = -1074 \/ 2 ^ 52 <= Zpos m3) /\
          binary_round_aux prec emax s (Zpos m) e loc_Exact
          = if e3 <=? 971 then S754_finite s m3 e3 else S754_infinity s).
Proof.
  destruct (shr_fexp_exact_spec m e) as (mrs & E1 & Q & X).
  set (N := Z.max (fexp prec emax (Zpos (digits2_pos m) + e) - e) 0) in *.
  assert (N0 : 0 <= N) by (unfold N; lia).
  assert (Hp : 0 < 2 ^ N) by (apply Z.pow_pos_nonneg; lia).
  pose proof (digits2_pos_lower m) as L. pose proof (digits2_pos_upper m) as U.
  assert (E1' : -1074 <= e + N) by (unfold N, fexp, emin, prec, emax; lia).
  assert (ND : Zpos (digits2_pos m) - 53 <= N)
    by (unfold N, fexp, emin, prec, emax; lia).
  set (d := Zpos (digits2_pos m)) in *.
  assert (Hd : 0 < d) by (unfold d; lia).
  set (q := shr_m mrs) in *.
  assert (Q1 : q * 2 ^ N <= Zpos m)
    by (rewrite Q, Z.mul_comm; apply Z.mul_div_le; lia).
  assert (Q2 : Zpos m < (q + 1) * 2 ^ N).
  { rewrite Q, Z.mul_comm. apply Z.mul_succ_div_gt. lia. }
  assert (Q0 : 0 <= q) by (rewrite Q; apply Z.div_pos; lia).
  assert (Q3 : q < 2 ^ 53).
  { rewrite Q. apply Z.div_lt_upper_bound; [lia|].
    apply Z.lt_le_trans with (2 ^ d); [exact U|].
    rewrite <- Z.pow_add_r by lia. apply Z.pow_le_mono_r; lia. }
  assert (Q4 : N = 0 \/ e + N = -1074 \/ 2 ^ 52 * 2 ^ N <= Zpos m /\ 2 ^ 52 <= q).
  { destruct (Z.eq_dec N 0) as [|NZ]; [auto|].
    destruct (Z.eq_dec (e + N) (-1074)); [auto|]. right. right.
    assert (N = d - 53) by (unfold N, d, fexp, emin, prec, emax in *; lia).
    assert (2 ^ 52 * 2 ^ N <= Zpos m).
    { rewrite <- Z.pow_add_r by lia. replace (52 + N) with (d - 1) by lia. exact L. }
    split; [assumption|]. rewrite Q. apply Z.div_le_lower_bound; lia. }
  unfold binary_round_aux. rewrite E1. fold q.
  set (mr := round_nearest_even q (loc_of_shr_record mrs)).
  assert (M : mr = q \/ mr = q + 1 /\ q * 2 ^ N < Zpos m).
  { destruct (round_nearest_even_cases q (loc_of_shr_record mrs)) as [R|(R & NE)];
      [left; exact R|]. right. split; [exact R|].
    destruct X as [X|X]; [contradiction|].
    destruct (Z.eq_dec (q * 2 ^ N) (Zpos m)) as [Eq|]; [|lia].
    exfalso. apply X. exists q. lia. }
  exists N, mr. split; [exact N0|]. split; [lia|]. split; [exact E1'|].
  split; [nia|]. split; [intuition lia|].
  destruct (Z.eq_dec mr 0) as [Z|NZ].
  - left. split; [exact Z|]. rewrite Z.
    unfold shr_fexp, shr. cbn [Zdigits2 shr_record_of_loc].
    destruct (fexp prec emax (0 + (e + N)) - (e + N)) eqn:F;
      try reflexivity.
    exfalso. unfold fexp, emin, prec, emax in F. lia.
  - right.
    destruct (shr_fexp_second mr (e + N)) as (mrs2 & m3 & e3 & E2 & S2 & Le & V & C);
      [lia | lia|].
    exists m3, e3. rewrite E2, S2. unfold emax, prec. cbn [Z.sub].
    split; [exact Le|]. split; [exact V|]. split; [|reflexivity].
    destruct C as [(-> & C)|C]; [|right; right; lia].
    destruct Q4 as [Z|[Z|Z]]; [left; split; lia | right; left; lia |].
    right. right. lia.
Qed.

Lemma num_leb_fin x y e :
  finite_like x = true -> finite_like y = true ->
  e <= expo x -> e <= expo y ->
  scaled x e <= scaled y e -> num_leb x y = true.
Proof.
  intros Fx Fy Hx Hy H. unfold num_leb.
  rewrite (num_compare_fin x y e) by assumption.
  destruct (Z.compare_spec (scaled x e) (scaled y e)); auto; lia.
Qed.

Lemma round_upper m e mb eb :
  Zpos mb < 2 ^ 53 -> -1074 <= eb <= 971 -> e <= 971 ->
  Zpos m * 2 ^ (e - Z.min e eb) <= Zpos mb * 2 ^ (eb - Z.min e eb) ->
  num_leb (binary_round_aux prec emax false (Zpos m) e loc_Exact)
          (S754_finite false mb eb) = true.
Proof.
  intros Hmb Heb He H.
  destruct (binary_round_aux_value false m e)
    as (N & mr & N0 & M0 & E1 & (Lo & Hi) & Nrm & Res).
  set (E := Z.min e eb) in *.
  assert (HN : 0 < 2 ^ N) by (apply Z.pow_pos_nonneg; lia).
  assert (Ha : 0 < 2 ^ (e - E)) by (apply Z.pow_pos_nonneg; lia).
  assert (Hb : 0 < 2 ^ (eb - E)) by (apply Z.pow_pos_nonneg; lia).
  assert (P53 : 2 ^ 53 = 2 * 2 ^ 52) by reflexivity.
  assert (P52 : 0 < 2 ^ 52) by reflexivity.
  assert (V : mr * 2 ^ N * 2 ^ (e - E) <= Zpos mb * 2 ^ (eb - E)).
  { destruct (Z.le_gt_cases (mr * 2 ^ N) (Zpos m)) as [C|C]; [nia|].
    assert (NZ : N <> 0).
    { intros Z. rewrite Z, Z.pow_0_r in *. lia. }
    destruct (Z.le_gt_cases (e + N) eb) as [G|G].
    - assert (EE : E = e) by (unfold E; lia). rewrite EE in *.
      rewrite Z.sub_diag, Z.pow_0_r in *.
      assert (B : 2 ^ (eb - e) = 2 ^ (eb - e - N) * 2 ^ N)
        by (rewrite <- Z.pow_add_r by lia; f_equal; lia).
      rewrite B in *.
      assert (HK : 0 < 2 ^ (eb - e - N)) by (apply Z.pow_pos_nonneg; lia).
      assert (K : mr - 1 < Zpos mb * 2 ^ (eb - e - N)) by nia.
      nia.
    - destruct Nrm as [Z|[Z|(Z & _)]]; [lia | lia |].
      exfalso.
      assert (X : 2 ^ 53 * 2 ^ (eb - E) <= 2 ^ 52 * 2 ^ N * 2 ^ (e - E)).
      { rewrite <- !Z.pow_add_r by lia. apply Z.pow_le_mono_r; lia. }
      nia. }
  destruct Res as [(Z & R)|(m3 & e3 & Le & Vm & C & R)]; rewrite R.
  - apply (num_leb_fin _ _ (Z.min 0 eb)); cbn [finite_like expo]; auto; try lia.
    unfold scaled. cbn [mant expo cond_Zopp].
    assert (0 < 2 ^ (eb - Z.min 0 eb)) by (apply Z.pow_pos_nonneg; lia). nia.
  - assert (S3 : 2 ^ (e3 - E) = 2 ^ (e3 - (e + N)) * 2 ^ N * 2 ^ (e - E)).
    { rewrite <- !Z.pow_add_r by lia. f_equal. lia. }
    destruct (Z.leb_spec e3 971) as [F|F].
    + apply (num_leb_fin _ _ E); cbn [finite_like expo]; auto; try lia.
      unfold scaled. cbn [mant expo cond_Zopp]. rewrite S3. nia.
    + exfalso. destruct C as [C|[C|C]]; [lia | lia |].
      assert (X : 2 ^ 53 * 2 ^ (eb - E) <= 2 ^ 52 * 2 ^ (e3 - E)).
      { rewrite <- !Z.pow_add_r by lia. apply Z.pow_le_mono_r; lia. }
      rewrite S3 in X. nia.
Qed.

Lemma round_lower m e mb eb :
  Zpos mb < 2 ^ 53 -> -1074 <= eb ->
  Zpos mb * 2 ^ (eb - Z.min e eb) <= Zpos m * 2 ^ (e - Z.min e eb) ->
  num_leb (S754_finite false mb eb)
          (binary_round_aux prec emax false (Zpos m) e loc_Exact) = true.
Proof.
  intros Hmb Heb H.
  destruct (binary_round_aux_value false m e)
    as (N & mr & N0 & M0 & E1 & (Lo & Hi) & Nrm & Res).
  set (E := Z.min e eb) in *.
  assert (HN : 0 < 2 ^ N) by (apply Z.pow_pos_nonneg; lia).
  assert (Ha : 0 < 2 ^ (e - E)) by (apply Z.pow_pos_nonneg; lia).
  assert (Hb : 0 < 2 ^ (eb - E)) by (apply Z.pow_pos_nonneg; lia).
  assert (P53 : 2 ^ 53 = 2 * 2 ^ 52) by reflexivity.
  assert (P52 : 0 < 2 ^ 52) by reflexivity.
  assert (V : Zpos mb * 2 ^ (eb - E) <= mr * 2 ^ N * 2 ^ (e - E)).
  { destruct (Z.le_gt_cases (Zpos m) (mr * 2 ^ N)) as [C|C]; [nia|].
    assert (NZ : N <> 0).
    { intros Z. rewrite Z, Z.pow_0_r in *. lia. }
    destruct (Z.le_gt_cases (e + N) eb) as [G|G].
    - assert (EE : E = e) by (unfold E; lia). rewrite EE in *.
      rewrite Z.sub_diag, Z.pow_0_r in *.
      assert (B : 2 ^ (eb - e) = 2 ^ (eb - e - N) * 2 ^ N)
        by (rewrite <- Z.pow_add_r by lia; f_equal; lia).
      rewrite B in *.
      assert (HK : 0 < 2 ^ (eb - e - N)) by (apply Z.pow_pos_nonneg; lia).
      assert (K : Zpos mb * 2 ^ (eb - e - N) < mr + 1) by nia.
      nia.
    - destruct Nrm as [Z|[Z|(_ & Z)]]; [lia | lia |].
      assert (X : 2 ^ 53 * 2 ^ (eb - E) <= 2 ^ 52 * 2 ^ N * 2 ^ (e - E)).
      { rewrite <- !Z.pow_add_r by lia. apply Z.pow_le_mono_r; lia. }
      nia. }
  destruct Res as [(Z & R)|(m3 & e3 & Le & Vm & C & R)]; rewrite R.
  - exfalso. rewrite Z in V. lia.
  - destruct (Z.leb_spec e3 971) as [F|F]; [|reflexivity].
    assert (S3 : 2 ^ (e3 - E) = 2 ^ (e3 - (e + N)) * 2 ^ N * 2 ^ (e - E)).
    { rewrite <- !Z.pow_add_r by lia. f_equal. lia. }
    apply (num_leb_fin _ _ E); cbn [finite_like expo]; auto; try lia.
    unfold scaled. cbn [mant expo cond_Zopp]. rewrite S3. nia.
Qed.

Lemma num_leb_fin_inv x y e :
  finite_like x = true -> finite_like y = true ->
  e <= expo x -> e <= expo y ->
  num_leb x y = true -> scaled x e <= scaled y e.
Proof.
  intros Fx Fy Hx Hy. unfold num_leb.
  rewrite (num_compare_fin x y e) by assumption.
  destruct (Z.compare_spec (scaled x e) (scaled y e)); intros; try discriminate; lia.
Qed.

Lemma num_ltb_fin_inv x y e :
  finite_like x = true -> finite_like y = true ->
  e <= expo x -> e <= expo y ->
  num_ltb x y = true -> scaled x e < scaled y e.
Proof.
  intros Fx Fy Hx Hy. unfold num_ltb.
  rewrite (num_compare_fin x y e) by assumption.
  destruct (Z.compare_spec (scaled x e) (scaled y e)); intros; try discriminate; lia.
Qed.

(** A positive double below 1 has a negative exponent and a mantissa below
    [2 ^ - e]. *)
Lemma below_one m e :
  num_ltb (S754_finite false m e) (of_Z 1) = true ->
  e < 0 /\ Zpos m < 2 ^ (- e).
Proof.
  change (of_Z 1) with (S754_finite false 4503599627370496 (-52)). intros H.
  apply (num_ltb_fin_inv _ _ (Z.min e (-52))) in H; cbn [finite_like expo]; auto;
    try lia.
  unfold scaled in H. cbn [mant expo cond_Zopp] in H.
  change (Zpos 4503599627370496) with (2 ^ 52) in H.
  rewrite <- Z.pow_add_r in H by lia.
  destruct (Z.le_gt_cases 0 e) as [P|P].
  - exfalso. replace (Z.min e (-52)) with (-52) in H by lia.
    replace (52 + (-52 - -52)) with 52 in H by lia.
    assert (2 ^ 52 <= 2 ^ (e - -52)) by (apply Z.pow_le_mono_r; lia).
    assert (0 < 2 ^ 52) by reflexivity. nia.
  - split; [exact P|].
    destruct (Z.le_gt_cases e (-52)) as [Q|Q].
    + replace (Z.min e (-52)) with e in H by lia.
      rewrite Z.sub_diag, Z.pow_0_r in H.
      replace (52 + (-52 - e)) with (- e) in H by lia. lia.
    + replace (Z.min e (-52)) with (-52) in H by lia.
      replace (52 + (-52 - -52)) with (e - -52 + - e) in H by lia.
      rewrite Z.pow_add_r in H by lia.
      assert (0 < 2 ^ (e - -52)) by (apply Z.pow_pos_nonneg; lia). nia.
Qed.

Lemma round_upper_at G m e mb eb :
  Zpos mb < 2 ^ 53 -> -1074 <= eb <= 971 -> e <= 971 ->
  G <= e -> G <= eb ->
  Zpos m * 2 ^ (e - G) <= Zpos mb * 2 ^ (eb - G) ->
  num_leb (binary_round_aux prec emax false (Zpos m) e loc_Exact)
          (S754_finite false mb eb) = true.
Proof.
  intros Hmb Heb He Ge Gb H. apply round_upper; auto.
  assert (Sa : 2 ^ (e - G) = 2 ^ (e - Z.min e eb) * 2 ^ (Z.min e eb - G))
    by (rewrite <- Z.pow_add_r by lia; f_equal; lia).
  assert (Sb : 2 ^ (eb - G) = 2 ^ (eb - Z.min e eb) * 2 ^ (Z.min e eb - G))
    by (rewrite <- Z.pow_add_r by lia; f_equal; lia).
  assert (0 < 2 ^ (Z.min e eb - G)) by (apply Z.pow_pos_nonneg; lia).
  rewrite Sa, Sb in H. nia.
Qed.

Lemma round_lower_at G m e mb eb :
  Zpos mb < 2 ^ 53 -> -1074 <= eb ->
  G <= e -> G <= eb ->
  Zpos mb * 2 ^ (eb - G) <= Zpos m * 2 ^ (e - G) ->
  num_leb (S754_finite false mb eb)
          (binary_round_aux prec emax false (Zpos m) e loc_Exact) = true.
Proof.
  intros Hmb Heb Ge Gb H. apply round_lower; auto.
  assert (Sa : 2 ^ (e - G) = 2 ^ (e - Z.min e eb) * 2 ^ (Z.min e eb - G))
    by (rewrite <- Z.pow_add_r by lia; f_equal; lia).
  assert (Sb : 2 ^ (eb - G) = 2 ^ (eb - Z.min e eb) * 2 ^ (Z.min e eb - G))
    by (rewrite <- Z.pow_add_r by lia; f_equal; lia).
  assert (0 < 2 ^ (Z.min e eb - G)) by (apply Z.pow_pos_nonneg; lia).
  rewrite Sa, Sb in H. nia.
Qed.

(** [r * 0.4] for a draw [0 <= r < 1]: a zero, or a positive double of at
    most 0.4. *)
Lemma draw_times_04 r :
  num_leb zero r = true -> num_ltb r (of_Z 1) = true ->
  (exists s, num_mul r (decimal 4 10) = S754_zero s) \/
  (exists m e, num_mul r (decimal 4 10) = S754_finite false m e /\
               -1074 <= e /\
               num_leb (S754_finite false m e) (decimal 4 10) = true).
Proof.
  change (decimal 4 10) with (S754_finite false 7205759403792794 (-54)).
  intros H0 H1. destruct r as [s|s| |s m e].
  - left. exists (xorb s false). reflexivity.
  - destruct s; discriminate.
  - discriminate.
  - destruct s.
    { exfalso. apply (num_leb_fin_inv _ _ (Z.min 0 e)) in H0;
        cbn [finite_like expo zero]; auto; try lia.
      unfold scaled, zero in H0. cbn [mant expo cond_Zopp] in H0.
      assert (0 < 2 ^ (e - Z.min 0 e)) by (apply Z.pow_pos_nonneg; lia). nia. }
    destruct (below_one m e H1) as (En & Mb).
    cbn [num_mul SFmul xorb].
    pose proof (round_upper_at (e + -54) (m * 7205759403792794) (e + -54)
                  7205759403792794 (-54)) as U.
    pose proof (binary_round_aux_emin_ok false
                  (Zpos (m * 7205759403792794)) (e + -54) loc_Exact) as Ok.
    destruct (binary_round_aux_value false (m * 7205759403792794) (e + -54))
      as (_ & _ & _ & _ & _ & _ & _ & [(_ & R)|(m3 & e3 & _ & _ & _ & R)]).
    + left. exists false. exact R.
    + assert (L : num_leb (binary_round_aux prec emax false
                             (Zpos (m * 7205759403792794)) (e + -54) loc_Exact)
                          (S754_finite false 7205759403792794 (-54)) = true).
      { apply U; [reflexivity | lia | lia | lia | lia |].
        rewrite Z.sub_diag, Z.pow_0_r, Pos2Z.inj_mul.
        replace (-54 - (e + -54)) with (- e) by lia. nia. }
      rewrite R in L, Ok |- *.
      destruct (e3 <=? 971); [|discriminate L].
      right. exists m3, e3. split; [reflexivity|]. split; [|exact L].
      cbn [emin_ok] in Ok. unfold emin, prec, emax in Ok. lia.
Qed.

Lemma shl_align_spec m e e' :
  exists mz ez,
    shl_align m e e' = (mz, ez) /\ ez = Z.min e e' /\
    Zpos mz = Zpos m * 2 ^ (e - ez).
Proof.
  unfold shl_align. destruct (e' - e) as [|d|d] eqn:E.
  - exists m, e. split; [reflexivity|]. split; [lia|].
    rewrite Z.sub_diag, Z.pow_0_r. lia.
  - exists m, e. split; [reflexivity|]. split; [lia|].
    rewrite Z.sub_diag, Z.pow_0_r. lia.
  - exists (Pos.iter xO m d), e'. split; [reflexivity|]. split; [lia|].
    rewrite pos_iter_xO. f_equal. f_equal. lia.
Qed.

(** [p + 0.6] for a positive double [p <= 0.4] lies between 0.6 and 1. *)
Lemma plus_06_range m e :
  -1074 <= e ->
  num_leb (S754_finite false m e) (decimal 4 10) = true ->
  num_leb (decimal 6 10) (num_add (S754_finite false m e) (decimal 6 10)) = true /\
  num_leb (num_add (S754_finite false m e) (decimal 6 10)) (of_Z 1) = true.
Proof.
  change (decimal 4 10) with (S754_finite false 7205759403792794 (-54)).
  change (decimal 6 10) with (S754_finite false 5404319552844595 (-53)).
  change (of_Z 1) with (S754_finite false 4503599627370496 (-52)).
  intros He H.
  cbn [num_add SFadd cond_Zopp].
  set (ez := Z.min e (-53)).
  destruct (shl_align_spec m e ez) as (a & ea & -> & Ea & Va).
  destruct (shl_align_spec 5404319552844595 (-53) ez) as (b & eb & -> & Eb & Vb).
  cbn [fst]. change (Zpos a + Zpos b) with (Zpos (a + b)).
  cbn [binary_normalize]. unfold binary_round.
  destruct (shl_align_spec (a + b) ez
              (fexp prec emax (Zpos (digits2_pos (a + b)) + ez)))
    as (mz & ez2 & -> & Ez & Vz).
  assert (Ea' : ea = ez) by (unfold ez in *; lia).
  assert (Eb' : eb = ez) by (unfold ez in *; lia).
  assert (Z2 : ez2 <= ez) by lia.
  assert (Z3 : -1074 <= ez2).
  { rewrite Ez. unfold fexp, emin, prec, emax, ez. lia. }
  clear Ea Eb. subst ea eb.
  set (G := Z.min ez2 (-54)).
  assert (HG : 0 < 2 ^ (ez2 - G)) by (apply Z.pow_pos_nonneg; unfold G; lia).
  assert (V : Zpos mz * 2 ^ (ez2 - G)
              = Zpos m * 2 ^ (e - G) + 5404319552844595 * 2 ^ (-53 - G)).
  { rewrite Vz, Pos2Z.inj_add, Va, Vb.
    replace (e - G) with (e - ez + (ez - ez2) + (ez2 - G)) by lia.
    replace (-53 - G) with (-53 - ez + (ez - ez2) + (ez2 - G)) by lia.
    rewrite !Z.pow_add_r by (unfold G, ez in *; lia). ring. }
  apply (num_leb_fin_inv _ _ G) in H; cbn [finite_like expo]; auto;
    try (unfold G, ez in *; lia).
  unfold scaled in H. cbn [mant expo cond_Zopp] in H.
  assert (S6 : 2 ^ (-53 - G) = 2 * 2 ^ (-54 - G)).
  { rewrite <- Z.pow_succ_r by (unfold G; lia). f_equal. lia. }
  assert (H4 : 0 < 2 ^ (-54 - G)) by (apply Z.pow_pos_nonneg; unfold G; lia).
  assert (Hm : 0 < 2 ^ (e - G)) by (apply Z.pow_pos_nonneg; unfold G, ez in *; lia).
  split.
  - apply (round_lower_at G);
      [reflexivity | lia | unfold G; lia | unfold G; lia |].
    rewrite V. lia.
  - apply (round_upper_at G);
      [reflexivity | lia | unfold ez in *; lia | unfold G; lia | unfold G; lia |].
    rewrite V.
    replace (-52 - G) with (2 + (-54 - G)) by lia.
    rewrite Z.pow_add_r by (unfold G; lia). rewrite S6. lia.
Qed.


(** ** The scores of the mock results *)

Lemma random_similarity_range g :
  unit_interval g ->
  num_leb (decimal 6 10) (fst (MockProducts.random_similarity g)) = true /\
  num_leb (fst (MockProducts.random_similarity g)) (of_Z 1) = true.
Proof.
  intros U. unfold MockProducts.random_similarity, Math_random. cbn [fst].
  destruct (U (cursor g)) as (H0 & H1).
  destruct (draw_times_04 _ H0 H1) as [(s & E)|(m & e & E & He & L)]; rewrite E.
  - destruct s; split; reflexivity.
  - apply plus_06_range; assumption.
Qed.

Lemma scored_range l : forall g,
  unit_interval g ->
  Forall (fun product =>
            exists s, similarity product = Some s /\
                      num_leb (decimal 6 10) s = true /\
                      num_leb s (of_Z 1) = true)
         (fst (JsArray.map_random MockProducts.score l g)).
Proof.
  induction l as [|p l IH]; intros g Hg; [constructor|].
  cbn [JsArray.map_random]. unfold MockProducts.score at 1.
  pose proof (random_similarity_range g Hg) as Hs.
  assert (Hg1 : unit_interval (snd (MockProducts.random_similarity g))) by exact Hg.
  destruct (MockProducts.random_similarity g) as [s g1]. cbn [fst snd] in *.
  specialize (IH g1 Hg1).
  destruct (JsArray.map_random MockProducts.score l g1) as [ys g2].
  cbn [fst] in *. constructor; [|assumption].
  exists s. split; [reflexivity | assumption].
Qed.

Lemma mock_result_score uploadedImage g product :
  unit_interval g ->
  In product (fst (MockProducts.generateMockSearchResults uploadedImage g)) ->
  exists s, similarity product = Some s /\
            num_leb (decimal 6 10) s = true /\ num_leb s (of_Z 1) = true.
Proof.
  intros U I.
  unfold MockProducts.generateMockSearchResults, MockProducts.scored_catalog in I.
  pose proof (scored_range MockProducts.mockProducts g U) as F.
  destruct (JsArray.map_random MockProducts.score MockProducts.mockProducts g)
    as [scored g']. cbn [fst] in *.
  rewrite Forall_forall in F. apply F.
  apply Permutation_in
    with (l := JsArray.sort MockProducts.by_similarity_desc scored);
    [symmetry; apply sort_perm | exact I].
Qed.

(** X20. The comment "Random similarity between 0.6-1.0" holds of the
    doubles the code computes: whenever [Math.random] draws from [[0, 1)],
    every result of [generateMockSearchResults] carries a similarity that is
    a nonzero number, at least the double 0.6 and at most 1.  (The bound 1 is
    reached: a draw of [1 - 2 ^ -53] gives exactly 1.) *)
Theorem generateMockSearchResults_range
    (uploadedImage : option string) (g : Rng) (U : unit_interval g) :
  forall product,
    In product (fst (MockProducts.generateMockSearchResults uploadedImage g)) ->
    exists s,
      similarity product = Some s /\ truthy s = true /\
      num_leb (decimal 6 10) s = true /\ num_leb s (of_Z 1) = true.
Proof.
  intros product I.
  destruct (mock_result_score uploadedImage g product U I) as (s & S & L & H).
  exists s. split; [exact S|]. split; [|split; assumption].
  destruct s as [z|z| |z m e]; try reflexivity; discriminate L.
Qed.

Lemma generateMockSearchResults_range_witness :
  unit_interval Scenarios.almost_one /\
  exists s,
    similarity
      (hd Samples.bag
          (fst (MockProducts.generateMockSearchResults None Scenarios.almost_one)))
    = Some s /\ truthy s = true /\
    num_leb (decimal 6 10) s = true /\ num_leb s (of_Z 1) = true /\
    fst (MockProducts.random_similarity Scenarios.almost_one) = of_Z 1.
Proof.
  assert (U : unit_interval Scenarios.almost_one)
    by (intros i; split; vm_compute; reflexivity).
  split; [exact U|].
  destruct (generateMockSearchResults_range None Scenarios.almost_one U
              (hd Samples.bag
                  (fst (MockProducts.generateMockSearchResults
                          None Scenarios.almost_one))))
    as (s & S & T & L & H).
  - vm_compute. left. reflexivity.
  - exists s. split; [exact S|]. split; [exact T|]. split; [exact L|].
    split; [exact H|]. vm_compute. reflexivity.
Defined.

Lemma of_Z_finite n : Z.abs n < 2 ^ 53 -> finite_like (of_Z n) = true.
Proof.
  intros B. destruct (of_Z_exact n B) as (E & M).
  destruct n as [|p|p]; [reflexivity| |].
  - unfold of_Z in *. cbn [binary_normalize] in *.
    destruct (binary_round_sign false p 0) as (m' & e' & [R|R]);
      [unfold emin, prec, emax; lia | |]; rewrite R in *; [reflexivity|].
    cbn [mant expo] in M. rewrite Z.pow_0_r in M. lia.
  - unfold of_Z in *. cbn [binary_normalize] in *.
    destruct (binary_round_sign true p 0) as (m' & e' & [R|R]);
      [unfold emin, prec, emax; lia | |]; rewrite R in *; [reflexivity|].
    cbn [mant expo] in M. rewrite Z.pow_0_r in M. lia.
Qed.

Lemma of_Z_le a b :
  Z.abs a < 2 ^ 53 -> Z.abs b < 2 ^ 53 -> a <= b ->
  num_leb (of_Z a) (of_Z b) = true.
Proof.
  intros Ba Bb L.
  destruct (of_Z_exact a Ba) as (Ea & Ma). destruct (of_Z_exact b Bb) as (Eb & Mb).
  set (G := Z.min (expo (of_Z a)) (expo (of_Z b))).
  apply (num_leb_fin _ _ G); try (apply of_Z_finite; assumption); try (unfold G; lia).
  unfold scaled. rewrite Ma, Mb.
  rewrite <- !Z.mul_assoc, <- !Z.pow_add_r by (unfold G; lia).
  replace (- expo (of_Z a) + (expo (of_Z a) - G)) with (- G) by lia.
  replace (- expo (of_Z b) + (expo (of_Z b) - G)) with (- G) by lia.
  assert (0 < 2 ^ (- G)) by (apply Z.pow_pos_nonneg; unfold G; lia). nia.
Qed.

(** [s * 100] for a score [0.6 <= s <= 1]: a positive double between 59.5
    and 100. *)
Lemma score_times_100 s :
  num_leb (decimal 6 10) s = true -> num_leb s (of_Z 1) = true ->
  truthy s = true /\
  exists m e,
    num_mul s (of_Z 100) = S754_finite false m e /\
    num_leb (decimal 119 2) (S754_finite false m e) = true /\
    num_leb (S754_finite false m e) (of_Z 100) = true.
Proof.
  change (decimal 6 10) with (S754_finite false 5404319552844595 (-53)).
  change (decimal 119 2) with (S754_finite false 8373880557142016 (-47)).
  change (of_Z 1) with (S754_finite false 4503599627370496 (-52)).
  change (of_Z 100) with (S754_finite false 7036874417766400 (-46)).
  intros H6 H1. destruct s as [z|z| |z ms es]; try discriminate H6;
    try (destruct z; discriminate).
  split; [reflexivity|].
  set (G1 := Z.min es (-53)).
  assert (P1 : 0 < 2 ^ (es - G1)) by (apply Z.pow_pos_nonneg; unfold G1; lia).
  assert (P2 : 0 < 2 ^ (-53 - G1)) by (apply Z.pow_pos_nonneg; unfold G1; lia).
  assert (S52 : 2 ^ (-52 - G1) = 2 * 2 ^ (-53 - G1)).
  { rewrite <- Z.pow_succ_r by (unfold G1; lia). f_equal. lia. }
  apply (num_leb_fin_inv _ _ G1) in H6; cbn [finite_like expo]; auto;
    try (unfold G1; lia).
  apply (num_leb_fin_inv _ _ G1) in H1; cbn [finite_like expo]; auto;
    try (unfold G1; lia).
  unfold scaled in H6, H1. cbn [mant expo] in H6, H1.
  destruct z.
  { exfalso. cbn [cond_Zopp] in H6. nia. }
  cbn [cond_Zopp] in H6, H1. rewrite S52 in H1.
  assert (Es : es <= 0).
  { destruct (Z.le_gt_cases es 0) as [|P]; [assumption|]. exfalso.
    replace G1 with (-53) in * by (unfold G1; lia).
    replace (-53 - -53) with 0 in * by lia. rewrite Z.pow_0_r in *.
    assert (2 ^ 54 <= 2 ^ (es - -53)) by (apply Z.pow_le_mono_r; lia).
    assert (2 ^ 54 = 18014398509481984) by reflexivity. nia. }
  cbn [num_mul SFmul xorb].
  pose proof (round_upper_at (G1 + -46) (ms * 7036874417766400) (es + -46)
                7036874417766400 (-46)) as U.
  pose proof (round_lower_at (G1 + -46) (ms * 7036874417766400) (es + -46)
                8373880557142016 (-47)) as L.
  assert (X1 : es + -46 - (G1 + -46) = es - G1) by lia.
  assert (X2 : -46 - (G1 + -46) = (-53 - G1) + 53) by lia.
  assert (X3 : -47 - (G1 + -46) = (-53 - G1) + 52) by lia.
  rewrite X1, X2 in U. rewrite X1, X3 in L.
  rewrite !Z.pow_add_r in U, L by (unfold G1; lia).
  rewrite Pos2Z.inj_mul in U, L.
  change (2 ^ 52) with 4503599627370496 in L.
  change (2 ^ 53) with 9007199254740992 in U.
  assert (UB : num_leb (binary_round_aux prec emax false
                          (Zpos ms * 7036874417766400) (es + -46) loc_Exact)
                       (S754_finite false 7036874417766400 (-46)) = true).
  { apply U; [reflexivity | lia | lia | unfold G1; lia | unfold G1; lia | nia]. }
  assert (LB : num_leb (S754_finite false 8373880557142016 (-47))
                       (binary_round_aux prec emax false
                          (Zpos ms * 7036874417766400) (es + -46) loc_Exact) = true).
  { apply L; [reflexivity | lia | unfold G1; lia | unfold G1; lia | nia]. }
  change (Zpos (ms * 7036874417766400)) with (Zpos ms * 7036874417766400).
  destruct (binary_round_aux_value false (ms * 7036874417766400) (es + -46))
    as (_ & _ & _ & _ & _ & _ & _ & [(_ & R)|(m3 & e3 & _ & _ & _ & R)]);
    change (Zpos (ms * 7036874417766400)) with (Zpos ms * 7036874417766400) in R;
    rewrite R in UB, LB |- *.
  - discriminate LB.
  - destruct (e3 <=? 971); [|discriminate UB].
    exists m3, e3. auto.
Qed.

(** [Math.round] of a double between 59.5 and 100 lies between 60 and 100. *)
Lemma Math_round_percent m e :
  num_leb (decimal 119 2) (S754_finite false m e) = true ->
  num_leb (S754_finite false m e) (of_Z 100) = true ->
  num_leb (of_Z 60) (Math_round (S754_finite false m e)) = true /\
  num_leb (Math_round (S754_finite false m e)) (of_Z 100) = true.
Proof.
  intros L U. cbn [Math_round]. destruct (Z.leb_spec 0 e) as [P|P].
  - split; [|exact U]. revert L.
    change (decimal 119 2) with (S754_finite false 8373880557142016 (-47)).
    change (of_Z 60) with (S754_finite false 8444249301319680 (-47)).
    intros L.
    apply (num_leb_fin_inv _ _ (-47)) in L; cbn [finite_like expo]; auto; try lia.
    apply (num_leb_fin _ _ (-47)); cbn [finite_like expo]; auto; try lia.
    unfold scaled in *. cbn [mant expo cond_Zopp] in *.
    replace (e - -47) with (e + 47) in * by lia.
    rewrite Z.pow_add_r in * by lia.
    change (2 ^ (-47 - -47)) with 1 in *. change (2 ^ 47) with 140737488355328 in *.
    assert (0 < 2 ^ e) by (apply Z.pow_pos_nonneg; lia). nia.
  - revert L U.
    change (decimal 119 2) with (S754_finite false 8373880557142016 (-47)).
    change (of_Z 100) with (S754_finite false 7036874417766400 (-46)) at 1.
    intros L U.
    set (G := Z.min e (-47)).
    apply (num_leb_fin_inv _ _ G) in L; cbn [finite_like expo]; auto;
      try (unfold G; lia).
    apply (num_leb_fin_inv _ _ G) in U; cbn [finite_like expo]; auto;
      try (unfold G; lia).
    unfold scaled in L, U. cbn [mant expo cond_Zopp] in L, U.
    cbn [cond_Zopp]. unfold round_half_up.
    set (T := 2 ^ (- e)).
    assert (HT : 0 < T) by (apply Z.pow_pos_nonneg; lia).
    assert (B : 119 * T <= 2 * Zpos m /\ Zpos m <= 100 * T).
    { destruct (Z.le_gt_cases e (-47)) as [C|C].
      - replace G with e in * by (unfold G; lia).
        rewrite Z.sub_diag, Z.pow_0_r in *.
        assert (T1 : T = 2 ^ 47 * 2 ^ (-47 - e)).
        { unfold T. rewrite <- Z.pow_add_r by lia. f_equal. lia. }
        assert (T2 : T = 2 ^ 46 * 2 ^ (-46 - e)).
        { unfold T. rewrite <- Z.pow_add_r by lia. f_equal. lia. }
        change (2 ^ 47) with 140737488355328 in T1.
        change (2 ^ 46) with 70368744177664 in T2. lia.
      - replace G with (-47) in * by (unfold G; lia).
        change (2 ^ (-47 - -47)) with 1 in L. change (2 ^ (-46 - -47)) with 2 in U.
        assert (T1 : 2 ^ (e - -47) * T = 2 ^ 47).
        { unfold T. rewrite <- Z.pow_add_r by lia. f_equal. lia. }
        change (2 ^ 47) with 140737488355328 in T1.
        assert (0 < 2 ^ (e - -47)) by (apply Z.pow_pos_nonneg; lia). nia. }
    assert (N60 : 60 <= (2 * Zpos m + T) / (2 * T))
      by (apply Z.div_le_lower_bound; lia).
    assert (N100 : (2 * Zpos m + T) / (2 * T) < 101)
      by (apply Z.div_lt_upper_bound; lia).
    destruct (Z.eqb_spec ((2 * Zpos m + T) / (2 * T)) 0) as [Z|_]; [lia|].
    split; apply of_Z_le; try reflexivity; lia.
Qed.

(** X21. Every mock result gets a similarity badge, and the percentage on it
    lies between 60 and 100: for draws of [Math.random] from [[0, 1)],
    [Math.round(similarity * 100)] of each result of
    [generateMockSearchResults] is at least 60 and at most 100, and the card
    renders the badge with it. *)
Theorem mock_results_badges
    (uploadedImage : option string) (g : Rng) (U : unit_interval g) :
  forall product,
    In product (fst (MockProducts.generateMockSearchResults uploadedImage g)) ->
    num_leb (of_Z 60) (ProductCard.similarityPercentage product) = true /\
    num_leb (ProductCard.similarityPercentage product) (of_Z 100) = true /\
    ProductCard.similarity_badge true product
    = ProductCard.RenderBadge
        (ProductCard.similarityPercentage product)
        (ProductCard.getSimilarityColor (ProductCard.similarityPercentage product)).
Proof.
  intros product I.
  destruct (mock_result_score uploadedImage g product U I) as (s & S & L & H).
  destruct (score_times_100 s L H) as (T & m & e & M & L1 & H1).
  unfold ProductCard.similarity_badge, ProductCard.similarityPercentage.
  rewrite S, T, M.
  destruct (Math_round_percent m e L1 H1) as (A & B). auto.
Qed.

Lemma mock_results_badges_witness :
  num_leb (of_Z 60)
    (ProductCard.similarityPercentage
       (hd Samples.bag
           (fst (MockProducts.generateMockSearchResults
                   None Samples.rising_then_zero)))) = true /\
  num_leb
    (ProductCard.similarityPercentage
       (hd Samples.bag
           (fst (MockProducts.generateMockSearchResults
                   None Samples.rising_then_zero))))
    (of_Z 100) = true.
Proof.
  assert (U : unit_interval Samples.rising_then_zero).
  { intros i. do 8 (destruct i as [|i]; [split; vm_compute; reflexivity|]).
    split; vm_compute; reflexivity. }
  destruct (mock_results_badges None Samples.rising_then_zero U
              (hd Samples.bag
                  (fst (MockProducts.generateMockSearchResults
                          None Samples.rising_then_zero))))
    as (A & B & _).
  - vm_compute. left. reflexivity.
  - split; [exact A | exact B].
Defined.

(** ** Two consequences on the page *)

Lemma filter_none {A : Type} (f : A -> bool) (l : list A) :
  Forall (fun x => f x = false) l -> filter f l = [].
Proof.
  induction 1 as [|x l E _ IH]; [reflexivity|]. cbn [filter]. rewrite E. exact IH.
Qed.

(** X22. What the scale of the threshold means for a search: when the slider
    is in its range (50 and above) and the backend returns results, all of
    them scored by a raw similarity of at most 1 and without
    [similarity_percentage], the search succeeds and still shows nothing: the
    toast announces "Found 0 products", no card is displayed, and the results
    section shows the alert that no product matches the current filters. *)
Theorem handleSearch_fraction_scores
    (searchProducts :
       option File -> option string -> option number -> option number ->
       Api.Outcome SearchResponse)
    (m : ProductMatcher.State) (response : SearchResponse)
    (Image : ProductMatcher.string_falsy (ProductMatcher.uploadedImage m) = false)
    (Slider : num_leb FilterPanel.slider_min
                      (ProductMatcher.similarityThreshold m) = true)
    (Succeeds :
       searchProducts (ProductMatcher.uploadedFile m)
         (ProductMatcher.string_or_undefined (ProductMatcher.imageUrl m))
         (Some (of_Z 11)) (Some zero)
       = Api.Returned response)
    (Found : results response <> [])
    (Scores : Forall MatcherView.fraction_scored (results response)) :
  let r := ProductMatcher.handleSearch searchProducts m in
  (exists t, In (ProductMatcher.ShowToast t) (snd r) /\
             title t = "Search completed!"%string /\
             toast_description t = "Found 0 products"%string) /\
  MatcherView.results_section_shown (fst r) = true /\
  MatcherView.displayed (fst r) = [] /\
  MatcherView.empty_alert (fst r)
  = Some ("No products match your current filters. "
          ++ "Try adjusting the similarity threshold or category selection.")%string.
Proof.
  cbv zeta.
  assert (F : filter (ProductMatcher.passes (ProductMatcher.similarityThreshold m)
                                            (ProductMatcher.selectedCategories m))
                     (results response) = []).
  { apply filter_none. apply Forall_impl with (2 := Scores). intros product S.
    unfold ProductMatcher.passes.
    rewrite (fraction_scored_below_slider _ _ S Slider). reflexivity. }
  unfold ProductMatcher.handleSearch. rewrite Image, Succeeds. cbv zeta.
  rewrite F. cbn [fst snd].
  split; [eexists; split; [right; right; left; reflexivity | split; reflexivity]|].
  split; [reflexivity|].
  assert (D : MatcherView.displayed
                (ProductMatcher.setIsLoading false
                   (ProductMatcher.setHasSearched true
                      (ProductMatcher.setSearchResults (results response)
                         (ProductMatcher.setError None
                            (ProductMatcher.setIsLoading true m))))) = [])
    by exact F.
  split; [exact D|].
  unfold MatcherView.empty_alert. rewrite D. cbn.
  destruct (results response); [congruence | reflexivity].
Qed.

Lemma handleSearch_fraction_scores_witness :
  MatcherView.displayed
    (fst (ProductMatcher.handleSearch
            (Api.searchSimilarProducts "http://localhost:8000"
                                       Scenarios.finds_raw_bag)
            (App.matcher (App.run "http://localhost:8000" Samples.parses_http
                                  Scenarios.photo_chosen))))
  = [].
Proof.
  refine (proj1 (proj2 (proj2
    (handleSearch_fraction_scores
       (Api.searchSimilarProducts "http://localhost:8000" Scenarios.finds_raw_bag)
       (App.matcher (App.run "http://localhost:8000" Samples.parses_http
                             Scenarios.photo_chosen))
       Scenarios.raw_bag eq_refl eq_refl eq_refl _ _)))).
  - intros E. discriminate E.
  - repeat constructor.
Defined.

(** X23. Object URLs are revoked by [clearPreview] only: if an event makes
    the page call [URL.revokeObjectURL], the event is a click on the
    preview's remove button and the URL is the uploader's own preview, a
    "blob:" URL.  Choosing another file or submitting a URL never revokes the
    preview it replaces, and the object URL that [handleImageUpload] creates
    for the matcher stays stored, unrevoked. *)
Theorem revokeObjectURL_only_clearPreview
    (baseUrl : string) (URL_parses : string -> bool)
    (ev : App.Event) (st : App.State) (url : string)
    (Revoked : In (App.FromUploader (ImageUploader.RevokeObjectURL url))
                  (snd (App.step baseUrl URL_parses ev st))) :
  ev = App.PreviewCleared /\
  url = ImageUploader.previewUrl (App.uploader st) /\
  JsString.startsWith url "blob:" = true /\
  ProductMatcher.uploadedImage (App.matcher (fst (App.step baseUrl URL_parses ev st)))
  = ProductMatcher.uploadedImage (App.matcher st).
Proof.
  assert (NF : forall files uuid u,
             ~ In (ImageUploader.RevokeObjectURL url)
                  (snd (ImageUploader.handleFiles files uuid u))).
  { intros files uuid u. unfold ImageUploader.handleFiles.
    destruct files as [|file rest]; [intros []|].
    destruct (negb _); [intros [E|[]]; discriminate E|].
    destruct (_ <? _)%N; intros [E|[]]; discriminate E. }
  destruct ev; cbn [App.step App.from_uploader snd fst App.matcher] in Revoked |- *;
    try (destruct Revoked; fail);
    try (apply in_map_iff in Revoked; destruct Revoked as (e & E & I);
         inversion E; subst e; clear E).
  - exfalso. exact (NF _ _ _ I).
  - exfalso. unfold ImageUploader.handleDrop in I.
    destruct files; [destruct I | exact (NF _ _ _ I)].
  - exfalso. unfold ImageUploader.handleUrlSubmit in I.
    destruct (negb _); [destruct I|].
    destruct (URL_parses _); destruct I as [E|[]]; discriminate E.
  - unfold ImageUploader.clearPreview in I |- *. cbn [snd] in I |- *.
    destruct (JsString.startsWith (ImageUploader.previewUrl (App.uploader st)) "blob:")
      eqn:B; [|destruct I].
    destruct I as [E|[]]. inversion E; subst url.
    repeat split. exact B.
Qed.

Lemma revokeObjectURL_only_clearPreview_witness :
  In (App.FromUploader (ImageUploader.RevokeObjectURL "blob:4f0c"))
     (snd (App.step "http://localhost:8000" Samples.parses_http App.PreviewCleared
                    (App.run "http://localhost:8000" Samples.parses_http
                             Scenarios.photo_only))) /\
  ProductMatcher.uploadedImage
    (App.matcher
       (fst (App.step "http://localhost:8000" Samples.parses_http App.PreviewCleared
                      (App.run "http://localhost:8000" Samples.parses_http
                               Scenarios.photo_only))))
  = Some "blob:9a1d"%string.
Proof.
  assert (I : In (App.FromUploader (ImageUploader.RevokeObjectURL "blob:4f0c"))
                 (snd (App.step "http://localhost:8000" Samples.parses_http
                                App.PreviewCleared
                                (App.run "http://localhost:8000" Samples.parses_http
                                         Scenarios.photo_only)))).
  { left. reflexivity. }
  split; [exact I|].
  exact (proj2 (proj2 (proj2
    (revokeObjectURL_only_clearPreview
       "http://localhost:8000" Samples.parses_http App.PreviewCleared
       (App.run "http://localhost:8000" Samples.parses_http Scenarios.photo_only)
       "blob:4f0c" I)))).
Defined.
